(** * Bitcoin ETL pipeline: derived metrics, resampling and forecasts

    A shallow embedding of [bitcoin_utils.py] (the transformation of the raw
    price table) and [bitcoin_example.py] (the three forecasting steps and
    their orchestration), with the properties of the specification stated
    over it; and of the programs around them: the fetching and storing of
    samples of [bitcoin_utils.py], the loop of [bitcoin_data_ingestion.py]
    and [push_to_powerbi.py], with properties read off the code.

    Conventions of the embedding.
    - A float64 cell is a value of [float]: NaN, an infinity or a finite
      number.  Finite numbers are exact rationals ([Qc]); rounding is not
      modelled, and zero carries no sign.
    - An instant is a whole number of nanoseconds since the epoch ([Z]),
      the count that [datetime64[ns]] holds.
    - The operations of pandas that the program calls are embedded by their
      documented behaviour in section [Pandas]; the statistical models
      (Prophet, SARIMAX, seasonal_decompose) are parameters of the
      development, except for the input checks they perform before fitting.
    - What the outside does at a request over the network, and whether the
      user interrupts the program while it waits, is an argument of the
      function that makes the request. *)

From Stdlib Require Import ZArith QArith Qcanon Qround Sorted Permutation Lia Ascii String.
From stdpp Require Import base option list numbers strings gmap sorting pretty.

Local Open Scope Z_scope.

(* ===================================================================== *)
(** ** Float cells *)

Inductive float : Type :=
| NaN
| Inf (negative : bool)
| Fin (q : Qc).

#[global] Instance float_eq_dec : EqDecision float.
Proof. solve_decision. Defined.

Definition isna (x : float) : bool :=
  match x with NaN => true | _ => false end.

Definition isfinite (x : float) : bool :=
  match x with Fin _ => true | _ => false end.

Definition Qc_negative (q : Qc) : bool := bool_decide (q < 0)%Qc.

(** [x / y] on float64, without signed zeros: a finite number divided by
    zero is an infinity of its sign, [0 / 0] is NaN. *)
Definition fdiv (x y : float) : float :=
  match x, y with
  | NaN, _ | _, NaN => NaN
  | Inf _, Inf _ => NaN
  | Inf s, Fin b => Inf (xorb s (Qc_negative b))
  | Fin _, Inf _ => Fin 0
  | Fin a, Fin b =>
      if decide (b = 0%Qc) then
        if decide (a = 0%Qc) then NaN else Inf (Qc_negative a)
      else Fin (a / b)
  end.

Definition fsub (x y : float) : float :=
  match x, y with
  | NaN, _ | _, NaN => NaN
  | Inf s, Inf t => if eqb s t then NaN else Inf s
  | Inf s, Fin _ => Inf s
  | Fin _, Inf t => Inf (negb t)
  | Fin a, Fin b => Fin (a - b)
  end.

Definition fmul (x y : float) : float :=
  match x, y with
  | NaN, _ | _, NaN => NaN
  | Inf s, Inf t => Inf (xorb s t)
  | Inf s, Fin b => if decide (b = 0%Qc) then NaN else Inf (xorb s (Qc_negative b))
  | Fin a, Inf t => if decide (a = 0%Qc) then NaN else Inf (xorb (Qc_negative a) t)
  | Fin a, Fin b => Fin (a * b)
  end.

(** The number [n] as a float constant of the program text. *)
Definition lit (n : Z) : float := Fin (Qc_of_Z n).

(* ===================================================================== *)
(** ** The operations of pandas on a column *)

Section Pandas.

(** [Series.ffill()]: a missing cell takes the last value before it that is
    not missing; leading missing cells stay missing. *)
Fixpoint ffill_from (last : float) (xs : list float) : list float :=
  match xs with
  | [] => []
  | x :: rest =>
      let v := if isna x then last else x in
      v :: ffill_from v rest
  end.

Definition ffill (xs : list float) : list float := ffill_from NaN xs.

(** [Series.shift(1)]: every value moves one row down, the first row is
    missing, the length is kept. *)
Definition shift1 (xs : list float) : list float :=
  take (length xs) (NaN :: xs).

(** [Series.pct_change()], with its default [fill_method='pad']:
    [data = self.ffill(); data / data.shift(1) - 1]. *)
Definition pct_change (xs : list float) : list float :=
  let data := ffill xs in
  zip_with (fun cur prev => fsub (fdiv cur prev) (lit 1)) data (shift1 data).

(** [Series.fillna(v)]. *)
Definition fillna (v : float) (xs : list float) : list float :=
  map (fun x => if isna x then v else x) xs.

(** The trailing window of [w] rows that ends at row [i], both included:
    rows [i-w+1 .. i], cut at the start of the column. *)
Definition window {A} (w i : nat) (xs : list A) : list A :=
  drop (S i - w) (take (S i) xs).

(** The observations of a window: rolling aggregations read infinities as
    missing and skip missing cells. *)
Fixpoint observations (win : list float) : list Qc :=
  match win with
  | [] => []
  | Fin q :: rest => q :: observations rest
  | _ :: rest => observations rest
  end.

(** [Series.rolling(window=w)] with the default [min_periods = w]: the
    aggregate of the window where it holds [w] observations, NaN elsewhere. *)
Definition rolling (w : nat) (agg : list Qc -> float) (xs : list float)
  : list float :=
  imap (fun i _ =>
          let obs := observations (window w i xs) in
          if decide (length obs < w)%nat then NaN else agg obs) xs.

Definition Qc_of_nat (n : nat) : Qc := Qc_of_Z (Z.of_nat n).

Definition sum (xs : list Qc) : Qc := foldr Qcplus 0%Qc xs.

Definition mean (xs : list Qc) : Qc := (sum xs / Qc_of_nat (length xs))%Qc.

(** [.mean()] of a rolling window. *)
Definition agg_mean (obs : list Qc) : float :=
  match obs with
  | [] => NaN
  | _ => Fin (mean obs)
  end.

(** The sum of squared deviations from the mean. *)
Definition ssqdm (xs : list Qc) : Qc :=
  let m := mean xs in sum (map (fun x => (x - m) * (x - m))%Qc xs).

(** The square root of float64, a parameter: only [sqrt 0 = 0] is used. *)
Class Sqrt : Type := {
  fsqrt : Qc -> Qc;
  fsqrt_0 : fsqrt 0%Qc = 0%Qc
}.

Context `{Sqrt}.

(** [.std()] of a rolling window, with the default [ddof = 1]: NaN unless
    more than one observation, else the root of [ssqdm / (n - 1)]. *)
Definition agg_std (obs : list Qc) : float :=
  if decide (length obs <= 1)%nat then NaN
  else Fin (fsqrt (ssqdm obs / Qc_of_nat (length obs - 1))%Qc).

End Pandas.

(* ===================================================================== *)
(** ** Frames *)

(** An instant: nanoseconds since the epoch, as [datetime64[ns]] counts
    them. *)
Definition minute : Z := 60000000000.

(** A column by its dtype.  A missing date-time (NaT) and an empty text
    field are [None]. *)
Inductive column : Type :=
| Float64 (xs : list float)
| Datetime64 (ts : list (option Z))
| Object (os : list (option string)).

Definition column_length (c : column) : nat :=
  match c with
  | Float64 xs => length xs
  | Datetime64 ts => length ts
  | Object os => length os
  end.

(** A DataFrame: its columns in order, by name. *)
Definition frame : Type := list (string * column).

Definition columns (df : frame) : list string := df.*1.

(** Every column has [n] rows. *)
Definition rectangular (n : nat) (df : frame) : Prop :=
  Forall (fun nc => column_length nc.2 = n) df.

(** What a failing call raises. *)
Inductive exn : Type :=
| FileNotFoundError (path : string)
| EmptyDataError
| UnicodeDecodeError
| KeyError (key : string)
| TypeError
| ValueError (msg : string)
| ModelFitError (model : string).

Definition result (A : Type) : Type := exn + A.

(** [df[name]]: the first column of that name. *)
Fixpoint getcol (df : frame) (name : string) : result column :=
  match df with
  | [] => inl (KeyError name)
  | (n, c) :: rest => if decide (n = name) then inr c else getcol rest name
  end.

(** [df[name] = c]: replaces the column of that name where it stands, or
    appends a new last column. *)
Fixpoint setcol (df : frame) (name : string) (c : column) : frame :=
  match df with
  | [] => [(name, c)]
  | (n, c0) :: rest =>
      if decide (n = name) then (n, c) :: rest
      else (n, c0) :: setcol rest name c
  end.

(** [take(idx)]: the rows at the positions [idx], in that order. *)
Definition take_rows {A} (idx : list nat) (l : list A) : list A :=
  omap (fun i => l !! i) idx.

Definition take_column (idx : list nat) (c : column) : column :=
  match c with
  | Float64 xs => Float64 (take_rows idx xs)
  | Datetime64 ts => Datetime64 (take_rows idx ts)
  | Object os => Object (take_rows idx os)
  end.

Definition take_frame (idx : list nat) (df : frame) : frame :=
  prod_map id (take_column idx) <$> df.

(** A column as floats, for arithmetic: arithmetic raises on date-times
    and on a column that holds text; a column without rows has nothing to
    raise on. *)
Definition as_float (c : column) : result (list float) :=
  match c with
  | Float64 xs => inr xs
  | Object [] => inr []
  | _ => inl TypeError
  end.

(** [pd.to_datetime] reads one text field as an instant, or rejects it. *)
Class DatetimeParser : Type := parse_datetime : string -> option Z.

(** numpy's [argsort(kind='quicksort')], the default kind of
    [sort_values]: a permutation of the positions that puts the keys in
    non-decreasing order.  The order it gives to equal keys is not part
    of its contract. *)
Class Quicksort : Type := {
  argsort : list Z -> list nat;
  argsort_perm : forall ks, Permutation (argsort ks) (seq 0 (length ks));
  argsort_sorted : forall ks, Sorted Z.le (take_rows (argsort ks) ks)
}.

Section Frames.
Context `{DatetimeParser} `{Quicksort}.

Definition float_to_datetime (x : float) : result (option Z) :=
  match x with
  | NaN => inr None
  | Inf _ => inl (ValueError "cannot convert input with unit 'ns'")
  | Fin q => inr (Some (Qfloor (this q)))
  end.

Definition text_to_datetime (o : option string) : result (option Z) :=
  match o with
  | None => inr None
  | Some s =>
      match parse_datetime s with
      | Some t => inr (Some t)
      | None => inl (ValueError "Unknown datetime string format")
      end
  end.

(** All cells, or the error of the first cell that fails. *)
Fixpoint traverse {A B} (f : A -> result B) (l : list A) : result (list B) :=
  match l with
  | [] => inr []
  | x :: rest =>
      match f x with
      | inl e => inl e
      | inr y =>
          match traverse f rest with
          | inl e => inl e
          | inr ys => inr (y :: ys)
          end
      end
  end.

(** [pd.to_datetime(column)], with the default [errors='raise']. *)
Definition to_datetime (c : column) : result (list (option Z)) :=
  match c with
  | Datetime64 ts => inr ts
  | Float64 xs => traverse float_to_datetime xs
  | Object os => traverse text_to_datetime os
  end.

(** pandas' [nargsort] with [na_position='last']: the positions of the
    present keys, reordered by [argsort] of those keys, then the positions
    of the missing keys in their order. *)
Definition nargsort (ts : list (option Z)) : list nat :=
  let idx := seq 0 (length ts) in
  let non_nan_idx := filter (fun i => is_Some (mjoin (ts !! i))) idx in
  let nan_idx := filter (fun i => ¬ is_Some (mjoin (ts !! i))) idx in
  let non_nans := omap id ts in
  take_rows (argsort non_nans) non_nan_idx ++ nan_idx.

End Frames.

(* ===================================================================== *)
(** ** Files, standard output and exceptions *)

(** The result of [seasonal_decompose]: four series over one grid. *)
Record DecomposeResult : Type := {
  observed : list float;
  trend : list float;
  seasonal : list float;
  resid : list float
}.

(** The figure that [DecomposeResult.plot()] draws, with its size in
    inches and whether [plt.tight_layout()] was applied. *)
Record figure : Type := {
  plotted : DecomposeResult;
  size_inches : option (Z * Z);
  tight : bool
}.

(** A file holds a table or an image.  A table is kept as the frame that
    [read_csv] makes of it; a date-time column written by [to_csv] stands
    for its text, which [pd.to_datetime] reads back. *)
Inductive file : Type :=
| Csv (df : frame)
| Png (fig : figure).

(** One call of [print]: a text, or a prefix followed by an exception. *)
Inductive line : Type :=
| Line (s : string)
| ErrorLine (prefix : string) (e : exn).

Record world : Type := {
  files : gmap string file;
  stdout : list line
}.

(** A computation that reads and changes the world and may raise: what it
    changed before raising stays changed. *)
Definition IO (A : Type) : Type := world -> result A * world.

#[global] Instance result_ret : MRet result := fun _ x => inr x.
#[global] Instance result_bind : MBind result := fun _ _ f r =>
  match r with
  | inl e => inl e
  | inr x => f x
  end.

#[global] Instance IO_ret : MRet IO := fun _ x w => (inr x, w).
#[global] Instance IO_bind : MBind IO := fun _ _ f m w =>
  match m w with
  | (inl e, w') => (inl e, w')
  | (inr x, w') => f x w'
  end.

(** [df[name]] as floats. *)
Definition float_column (df : frame) (name : string) : result (list float) :=
  getcol df name ≫= as_float.

(** A step without effect inside [IO]. *)
Definition lift {A} (r : result A) : IO A := fun w => (r, w).

(** [try: body except Exception as e: handler e]. *)
Definition try_except {A} (body : IO A) (handler : exn -> IO A) : IO A :=
  fun w =>
    match body w with
    | (inl e, w') => handler e w'
    | (inr x, w') => (inr x, w')
    end.

Definition print (l : line) : IO unit := fun w =>
  (inr (), {| files := files w; stdout := stdout w ++ [l] |}).

(** [pd.read_csv(path)]: raises when there is no such file, when the file
    is not text, and when it has no header. *)
Definition read_csv (path : string) : IO frame := fun w =>
  match files w !! path with
  | None => (inl (FileNotFoundError path), w)
  | Some (Png _) => (inl UnicodeDecodeError, w)
  | Some (Csv []) => (inl EmptyDataError, w)
  | Some (Csv df) => (inr df, w)
  end.

(** [df.to_csv(path, index=False)]: the file is replaced as a whole. *)
Definition to_csv (df : frame) (path : string) : IO unit := fun w =>
  (inr (), {| files := <[path := Csv df]> (files w); stdout := stdout w |}).

(** [fig.savefig(path)]. *)
Definition savefig (fig : figure) (path : string) : IO unit := fun w =>
  (inr (), {| files := <[path := Png fig]> (files w); stdout := stdout w |}).

(* ===================================================================== *)
(** ** bitcoin_utils.py *)

Module bitcoin_utils.
Section Transform.
Context `{Sqrt} `{DatetimeParser} `{Quicksort}.

(** The body of [transform_bitcoin_data] between [read_csv] and [to_csv]:
    parse the timestamps, sort by them, add the three derived columns. *)
Definition transform_frame (df : frame) : result frame :=
  c ← getcol df "timestamp";
  ts ← to_datetime c;
  let df := setcol df "timestamp" (Datetime64 ts) in
  let df := take_frame (nargsort ts) df in
  xs ← float_column df "price_usd";
  let pct := (fun x => fmul x (lit 100)) <$> fillna (lit 0) (pct_change xs) in
  let df := setcol df "price_change_pct" (Float64 pct) in
  xs ← float_column df "price_usd";
  let df := setcol df "moving_avg_price" (Float64 (rolling 7 agg_mean xs)) in
  xs ← float_column df "price_usd";
  let df := setcol df "volatility_15m" (Float64 (rolling 15 agg_std xs)) in
  mret df.

(** The body of the [try]. *)
Definition transform_body (input_file output_file : string) : IO unit :=
  df ← read_csv input_file;
  df ← lift (transform_frame df);
  _ ← to_csv df output_file;
  print (Line ("Transformed data saved to " +:+ output_file)).

Definition transform_bitcoin_data (input_file output_file : string) : IO unit :=
  try_except (transform_body input_file output_file)
    (fun e => print (ErrorLine "Error during transformation: " e)).

End Transform.
End bitcoin_utils.

(* ===================================================================== *)
(** ** The statistical libraries *)

(** Prophet, SARIMAX and the arithmetic of [seasonal_decompose] are
    parameters.  A fit either raises or gives a fitted model; a fitted
    Prophet model gives [yhat] and its other prediction columns for every
    date it is asked; a fitted SARIMAX model asked for [steps] forecasts
    raises or gives that many. *)
Class Models : Type := {
  prophet : Type;
  prophet_fit : list (option Z) -> column -> result prophet;
  prophet_yhat : prophet -> Z -> float;
  prophet_terms : prophet -> list Z -> list (string * list float);
  prophet_terms_names : forall m ds name,
    name ∈ (prophet_terms m ds).*1 ->
    name ∉ ["ds"; "yhat"; "moving_avg_price"; "volatility_15m"];
  sarimax : Type;
  sarimax_fit : column -> result sarimax;
  sarimax_forecast : sarimax -> nat -> result (list float);
  sarimax_forecast_length : forall m steps ys,
    sarimax_forecast m steps = inr ys -> length ys = steps;
  decompose_additive : list float -> positive -> list float * list float * list float
}.

(** [pd.date_range(start, periods=n, freq)]. *)
Definition date_range_periods (start : Z) (n : nat) (freq : Z) : list Z :=
  (fun k => start + Z.of_nat k * freq) <$> seq 0 n.

(** [pd.date_range(start, end, freq)] for a positive step: the instants
    [start + k * freq] up to [end]. *)
Definition date_range (start stop freq : Z) : list Z :=
  if decide (stop < start) then []
  else date_range_periods start (S (Z.to_nat ((stop - start) / freq))) freq.

(** [Series.unique()]: the values in the order of their first occurrence. *)
Fixpoint unique (l : list Z) : list Z :=
  match l with
  | [] => []
  | x :: rest => x :: filter (fun y => y ≠ x) (unique rest)
  end.

(** [.max()] and [.min()] of the dates, none for no date. *)
Definition max_instant (l : list Z) : option Z :=
  foldr (fun x acc => Some (from_option (Z.max x) x acc)) None l.

Definition min_instant (l : list Z) : option Z :=
  foldr (fun x acc => Some (from_option (Z.min x) x acc)) None l.

(** The value of the first row labelled [t], NaN where no row is. *)
Fixpoint at_label (s : list (option Z * float)) (t : Z) : float :=
  match s with
  | [] => NaN
  | (l, v) :: rest => if decide (l = Some t) then v else at_label rest t
  end.

(** [Series.asfreq(freq)] on a series labelled by instants: the series
    reindexed on [date_range(index.min(), index.max(), freq)].  A label of
    the grid takes the value of the row that has exactly that label, and
    is missing where no row has it.  An empty series stays empty;
    reindexing raises on repeated labels. *)
Definition asfreq (freq : Z) (s : list (option Z * float))
  : result (list (Z * float)) :=
  match s with
  | [] => inr []
  | _ =>
      let labels := omap fst s in
      match min_instant labels, max_instant labels with
      | Some lo, Some hi =>
          if decide (NoDup s.*1)
          then inr ((fun t => (t, at_label s t)) <$> date_range lo hi freq)
          else inl (ValueError "cannot reindex on an axis with duplicate labels")
      | _, _ => inl (ValueError "Neither `start` nor `end` can be NaT")
      end
  end.

(** The checks of [seasonal_decompose(x, model='additive', period)] and,
    past them, the decomposition. *)
Definition seasonal_decompose `{Models} (x : list float) (period : positive)
  : result DecomposeResult :=
  if forallb isfinite x then
    if decide (length x < 2 * Pos.to_nat period)%nat then
      inl (ValueError "x must have 2 complete cycles")
    else
      let '(t, s, r) := decompose_additive x period in
      inr {| observed := x; trend := t; seasonal := s; resid := r |}
  else inl (ValueError "This function does not handle missing values").

(* ===================================================================== *)
(** ** bitcoin_example.py *)

Module bitcoin_example.
Section Forecasts.
Context `{Sqrt} `{DatetimeParser} `{Quicksort} `{Models}.

(** [Prophet.make_future_dataframe(periods, freq)] with the history kept:
    the distinct dates of the history in ascending order, then the first
    [periods] dates of [date_range(last, periods + 1, freq)] that lie after
    the last date. *)
Definition make_future_dataframe (ds : list Z) (periods : nat) (freq : Z)
  : result (list Z) :=
  let u := unique ds in
  let history_dates := take_rows (argsort u) u in
  match max_instant history_dates with
  | None => inl (ValueError "Neither `start` nor `end` can be NaT")
  | Some last_date =>
      let dates := date_range_periods last_date (S periods) freq in
      let dates := filter (fun d => last_date < d) dates in
      inr (history_dates ++ take periods dates)
  end.

(** [Prophet.predict(future)]: the dates, the model's other columns, and
    [yhat] as the last column. *)
Definition predict (m : prophet) (future : list Z) : frame :=
  ("ds", Datetime64 (Some <$> future))
  :: (prod_map id Float64 <$> prophet_terms m future)
  ++ [("yhat", Float64 (prophet_yhat m <$> future))].

Definition present (t : option Z) : result Z :=
  match t with
  | Some x => inr x
  | None => inl (ValueError "Found NaN in column ds.")
  end.

Definition run_prophet_forecast (df : frame) (periods : nat) (freq : Z)
  : IO frame :=
  ts ← lift (getcol df "timestamp");
  y ← lift (getcol df "price_usd");
  ds ← lift (to_datetime ts);
  model ← lift (prophet_fit ds y);
  ds ← lift (traverse present ds);
  future ← lift (make_future_dataframe ds periods freq);
  let forecast := predict model future in
  yhat ← lift (float_column forecast "yhat");
  let forecast :=
    setcol forecast "moving_avg_price" (Float64 (rolling 7 agg_mean yhat)) in
  yhat ← lift (float_column forecast "yhat");
  let forecast :=
    setcol forecast "volatility_15m" (Float64 (rolling 15 agg_std yhat)) in
  _ ← to_csv forecast "forecast_prophet.csv";
  _ ← print (Line "Saved Prophet forecast to forecast_prophet.csv");
  _ ← print (Line "→ Prophet step complete");
  mret forecast.

(** The series passed to SARIMAX is labelled by row position, so the
    forecasts are labelled by the positions that follow: [n, n+1, ...].
    [reset_index] turns these labels into the column [ds]. *)
Definition run_sarima_forecast (df : frame) (steps : nat) : IO frame :=
  y ← lift (getcol df "price_usd");
  sarima_model ← lift (sarimax_fit y);
  predicted_mean ← lift (sarimax_forecast sarima_model steps);
  let index := seq (column_length y) (length predicted_mean) in
  let sarima_df :=
    [("ds", Float64 ((fun i => lit (Z.of_nat i)) <$> index));
     ("yhat_sarima", Float64 predicted_mean)] in
  _ ← to_csv sarima_df "forecast_sarima.csv";
  _ ← print (Line "Saved SARIMA forecast to forecast_sarima.csv");
  _ ← print (Line "→ SARIMA step complete");
  mret sarima_df.

(** [df.set_index('timestamp')['price_usd']]: the prices labelled by the
    timestamps.  [asfreq] needs date-time labels. *)
Definition indexed_prices (df : frame) : result (list (option Z * float)) :=
  ts ← getcol df "timestamp";
  xs ← float_column df "price_usd";
  match ts with
  | Datetime64 ts => mret (zip ts xs)
  | _ => inl TypeError
  end.

(** [.asfreq('T').fillna(method='ffill')]. *)
Definition resample (s : list (option Z * float)) : result (list (Z * float)) :=
  g ← asfreq minute s;
  mret (zip g.*1 (ffill g.*2)).

Definition run_seasonal_decompose (df : frame) (period : positive) : IO unit :=
  s ← lift (indexed_prices df);
  df_indexed ← lift (resample s);
  result ← lift (seasonal_decompose df_indexed.*2 period);
  let fig := {| plotted := result; size_inches := None; tight := false |} in
  let fig := {| plotted := plotted fig; size_inches := Some (10, 8); tight := tight fig |} in
  let fig := {| plotted := plotted fig; size_inches := size_inches fig; tight := true |} in
  _ ← savefig fig "seasonal_decompose.png";
  _ ← print (Line "Saved seasonal decomposition plot to seasonal_decompose.png");
  print (Line "→ Decompose step complete").

Definition main : IO unit :=
  df ← read_csv "bitcoin_price_transformed_full.csv";
  ts ← lift (getcol df "timestamp" ≫= to_datetime);
  let df := setcol df "timestamp" (Datetime64 ts) in
  forecast_prophet ← run_prophet_forecast df 60 minute;
  _ ← run_sarima_forecast df 60;
  run_seasonal_decompose df 60.

End Forecasts.
End bitcoin_example.

(* ===================================================================== *)
(** ** JSON values, requests and the clock *)

(** A value that [json.loads] gives: [None], a bool, an int, a float, a
    str, a list, or a dict with its keys in their order. *)
#[warnings="-register-all"] Inductive json : Type :=
| JNull
| JBool (b : bool)
| JInt (n : Z)
| JFloat (x : float)
| JStr (s : string)
| JArr (items : list json)
| JObj (members : list (string * json)).

(** What the fetching and the pushing programs raise: the exceptions of
    the tables, those of [requests], [OverflowError], and the interrupt
    from the keyboard, which is no [Exception]. *)
Inductive error : Type :=
| Raised (e : exn)
| HTTPError (status_code : Z)
| RequestException
| OverflowError
| KeyboardInterrupt.

(** [except Exception] catches everything but the interrupt. *)
Definition is_Exception (e : error) : bool :=
  match e with KeyboardInterrupt => false | _ => true end.

Definition outcome (A : Type) : Type := error + A.

#[global] Instance outcome_ret : MRet outcome := fun _ x => inr x.
#[global] Instance outcome_bind : MBind outcome := fun _ _ f r =>
  match r with
  | inl e => inl e
  | inr x => f x
  end.

(** The response to a request: its status and its body, [None] when the
    body is not JSON. *)
Record response : Type := {
  status_code : Z;
  body : option json
}.

(** [response.raise_for_status()]: raises for the statuses 400 to 599. *)
Definition raise_for_status (r : response) : outcome unit :=
  if decide (400 <= status_code r < 600) then inl (HTTPError (status_code r)) else inr ().

(** [response.json()]. *)
Definition response_json (r : response) : outcome json :=
  match body r with
  | Some data => inr data
  | None => inl (Raised (ValueError "Expecting value"))
  end.

(** [d[key]] for a string [key]: a dict gives the value of the key or
    raises [KeyError]; nothing else is indexed by a string. *)
Fixpoint lookup_member (members : list (string * json)) (key : string) : option json :=
  match members with
  | [] => None
  | (k, v) :: rest => if decide (k = key) then Some v else lookup_member rest key
  end.

Definition subscript (d : json) (key : string) : outcome json :=
  match d with
  | JObj members =>
      match lookup_member members key with
      | Some v => inr v
      | None => inl (Raised (KeyError key))
      end
  | _ => inl (Raised TypeError)
  end.

(** The civil date of the day [z] days after 1970-01-01, in the
    proleptic Gregorian calendar. *)
Definition civil_from_days (z : Z) : Z * Z * Z :=
  let z := z + 719468 in
  let era := z / 146097 in
  let doe := z - era * 146097 in
  let yoe := (doe - doe / 1460 + doe / 36524 - doe / 146096) / 365 in
  let y := yoe + era * 400 in
  let doy := doe - (365 * yoe + yoe / 4 - yoe / 100) in
  let mp := (5 * doy + 2) / 153 in
  let d := doy - (153 * mp + 2) / 5 + 1 in
  let m := if decide (mp < 10) then mp + 3 else mp - 9 in
  (if decide (m <= 2) then y + 1 else y, m, d).

(** The whole number nearest to [q], the even one of two that are
    equally near. *)
Definition round_half_even (q : Qc) : Z :=
  let f := Qfloor (this q) in
  let twice := Qfloor (this (q + q)%Qc) - 2 * f in
  if decide (twice = 0) then f
  else if decide (q + q = Qc_of_Z (2 * f + 1))%Qc then (if Z.even f then f else f + 1)
  else f + 1.

(** The first second of the year 1 and the last second of the year
    9999, from the epoch. *)
Definition min_timestamp : Z := -62135596800.
Definition max_timestamp : Z := 253402300799.

(** The seconds of [datetime.utcfromtimestamp(v)], from the epoch: of an
    int (a bool is an int), or of a float rounded to microseconds.  The
    years 1 to 9999 are in range; a timestamp out of these years raises
    (which exception, [ValueError], [OverflowError] or [OSError], is the
    platform's choice: it is [ValueError] here). *)
Definition timestamp_seconds (v : json) : outcome Z :=
  match v with
  | JInt n => inr n
  | JBool b => inr (if b then 1 else 0)
  | JFloat NaN => inl (Raised (ValueError "Invalid value NaN (not a number)"))
  | JFloat (Inf _) => inl OverflowError
  | JFloat (Fin q) => inr (round_half_even (q * Qc_of_Z 1000000)%Qc / 1000000)
  | _ => inl (Raised TypeError)
  end.

Definition utcfromtimestamp (v : json) : outcome Z :=
  s ← timestamp_seconds v;
  if decide (min_timestamp <= s <= max_timestamp) then inr s
  else inl (Raised (ValueError "year is out of range")).

(** The last [width] decimal digits of [n], the first ones zero where [n]
    is short. *)
Fixpoint digits (width : nat) (n : Z) : string :=
  match width with
  | O => ""
  | S width' =>
      digits width' (n / 10) +:+ String (ascii_of_nat (Z.to_nat (48 + n mod 10))) ""
  end.

(** [.strftime('%Y-%m-%d %H:%M:%S')] of the date and time [s] seconds
    after the epoch, the year in four digits. *)
Definition strftime (s : Z) : string :=
  let '(y, m, d) := civil_from_days (s / 86400) in
  let r := s mod 86400 in
  digits 4 y +:+ "-" +:+ digits 2 m +:+ "-" +:+ digits 2 d +:+ " "
  +:+ digits 2 (r / 3600) +:+ ":" +:+ digits 2 (r mod 3600 / 60) +:+ ":"
  +:+ digits 2 (r mod 60).

(* ===================================================================== *)
(** ** bitcoin_utils.py: fetching and storing; bitcoin_data_ingestion.py *)

(** A dict of the program: its keys in insertion order. *)
Definition dict : Type := list (string * json).

(** The raw file is written a line at a time: it is kept by its lines,
    each line by its fields. *)
Definition lines : Type := list (list json).

(** One call of [print] of the ingestion. *)
Inductive message : Type :=
| Text (s : string)
| Saved (data : dict)
| FetchError (e : error).

Record disk : Type := {
  raw : gmap string lines;
  printed : list message
}.

(** What the outside does at a request: it responds, the request fails,
    or the user interrupts the program while it waits.  An interrupt is
    taken to arrive while the program waits, at a request or in a sleep. *)
Inductive answer : Type :=
| Responded (r : response)
| Failed
| Interrupted.

Module bitcoin_ingestion.

(** [requests.get(url, params)], for what the outside does. *)
Definition requests_get (o : answer) : outcome response :=
  match o with
  | Responded r => inr r
  | Failed => inl RequestException
  | Interrupted => inl KeyboardInterrupt
  end.

(** The request has a fixed URL and fixed parameters; the dict returned
    has its three keys in the order of the program text. *)
Definition fetch_bitcoin_price (o : answer) : outcome dict :=
  response ← requests_get o;
  _ ← raise_for_status response;
  data ← response_json response;
  seconds ← (subscript data "bitcoin" ≫= fun b => subscript b "last_updated_at")
            ≫= utcfromtimestamp;
  let timestamp := strftime seconds in
  usd ← subscript data "bitcoin" ≫= (fun b => subscript b "usd");
  usd_market_cap ← subscript data "bitcoin" ≫= (fun b => subscript b "usd_market_cap");
  mret [("timestamp", JStr timestamp);
        ("price_usd", usd);
        ("market_cap_usd", usd_market_cap)].

(** [pd.DataFrame([data]).to_csv(filename, mode='a', index=False,
    header=not file_exists)]: one line of values at the end of the file,
    after a line of keys when the file is new. *)
Definition append_data_to_csv (data : dict) (filename : string) (d : disk) : disk :=
  let row := data.*2 in
  let content :=
    match raw d !! filename with
    | Some old => old ++ [row]
    | None => [JStr <$> data.*1; row]
    end in
  {| raw := <[filename := content]> (raw d); printed := printed d |}.

Definition say (m : message) (d : disk) : disk :=
  {| raw := raw d; printed := printed d ++ [m] |}.

Definition fetch_and_store (o : answer) (d : disk) : outcome unit * disk :=
  match fetch_bitcoin_price o with
  | inr data =>
      let d := append_data_to_csv data "bitcoin_price_data.csv" d in
      (inr (), say (Saved data) d)
  | inl e =>
      if is_Exception e then (inr (), say (FetchError e) d) else (inl e, d)
  end.

(** How a run of the ingestion stands when the outside has done all that
    is known of it: it has returned, it has raised, or it is still in its
    loop. *)
Inductive run : Type :=
| Returned (d : disk)
| Raising (e : error) (d : disk)
| Running (d : disk).

(** [except KeyboardInterrupt] around the loop. *)
Definition stopped (e : error) (d : disk) : run :=
  match e with
  | KeyboardInterrupt =>
      Returned (say (Text (String "010" "Ingestion stopped by user.")) d)
  | _ => Raising e d
  end.

(** The loop, for what the outside does at each turn: at the request,
    and whether the user interrupts the sleep that follows. *)
Fixpoint loop (turns : list (answer * bool)) (d : disk) : run :=
  match turns with
  | [] => Running d
  | (o, interrupted) :: rest =>
      match fetch_and_store o d with
      | (inl e, d) => stopped e d
      | (inr _, d) =>
          if interrupted then stopped KeyboardInterrupt d else loop rest d
      end
  end.

Definition main (turns : list (answer * bool)) (d : disk) : run :=
  loop turns (say (Text "Starting real-time ingestion (Ctrl-C to stop)...") d).

End bitcoin_ingestion.

(* ===================================================================== *)
(** ** push_to_powerbi.py *)

(** A cell of a row of a table just read from a file: a number, a text,
    or the text of a date and time; a missing cell is the number NaN. *)
Inductive cell : Type :=
| CFloat (x : float)
| CText (s : string)
| CTime (t : Z).

(** One row in the shape that Power BI expects. *)
Record powerbi_row : Type := {
  timestamp : cell;
  price_usd : float;
  moving_avg_price : float;
  volatility_15m : float
}.

(** Python's readers of numbers in a text, [pd.to_numeric] and [float],
    and [json.dumps] of the payload are parameters. *)
Class Python : Type := {
  to_numeric_text : string -> option float;
  float_of_text : string -> option float;
  json_dumps : list powerbi_row -> string
}.

(** The local files and output, and the calls of [requests.post] so far,
    each with its URL and its rows. *)
Record net : Type := {
  local : world;
  posted : list (string * list powerbi_row)
}.

(** The number of rows of a table: all its columns have one length. *)
Definition nrows (df : frame) : nat :=
  match df with
  | [] => 0
  | (_, c) :: _ => column_length c
  end.

(** The cell of row [i] of a column. *)
Definition cell_at (c : column) (i : nat) : cell :=
  match c with
  | Float64 xs => CFloat (default NaN (xs !! i))
  | Object os => from_option CText (CFloat NaN) (mjoin (os !! i))
  | Datetime64 ts => from_option CTime (CFloat NaN) (mjoin (ts !! i))
  end.

Module push_to_powerbi.
Section Push.
Context `{Python}.

Definition DRY_RUN : bool := false.

Definition PUSH_URL : string :=
  "https://api.powerbi.com/beta/ee2d6d72-9535-4242-a077-acf185782f9b"
  +:+ "/datasets/afbad650-0150-4703-bbb9-e046dec7b061/rows"
  +:+ "?experience=power-bi&key=YOUR_KEY_HERE".

Definition FORECAST_CSV : string := "forecast_prophet.csv".

(** [pd.to_numeric(column, errors="coerce")] on a column just read from a
    file: a text that is no number, a date among them, becomes NaN. *)
Definition to_numeric (c : column) : column :=
  match c with
  | Float64 xs => Float64 xs
  | Object os => Float64 ((fun o => default NaN (o ≫= to_numeric_text)) <$> os)
  | Datetime64 ts => Float64 ((fun _ => NaN) <$> ts)
  end.

(** [for col in cols: df[col] = pd.to_numeric(df[col], errors="coerce")]. *)
Fixpoint ensure_numeric (cols : list string) (df : frame) : result frame :=
  match cols with
  | [] => inr df
  | col :: rest =>
      c ← getcol df col;
      ensure_numeric rest (setcol df col (to_numeric c))
  end.

Definition load_forecast (csv_path : string) : IO frame :=
  df ← read_csv csv_path;
  lift (ensure_numeric ["yhat"; "moving_avg_price"; "volatility_15m"] df).

(** [float(x)] of a cell. *)
Definition float_of_cell (x : cell) : result float :=
  match x with
  | CFloat x => inr x
  | CText s =>
      match float_of_text s with
      | Some x => inr x
      | None => inl (ValueError "could not convert string to float")
      end
  | CTime _ => inl (ValueError "could not convert string to float")
  end.

(** The dict that the loop of [build_rows] makes of row [i]. *)
Definition build_row (df : frame) (i : nat) : result powerbi_row :=
  ds ← getcol df "ds";
  yhat ← getcol df "yhat" ≫= (fun c => float_of_cell (cell_at c i));
  avg ← getcol df "moving_avg_price" ≫= (fun c => float_of_cell (cell_at c i));
  vol ← getcol df "volatility_15m" ≫= (fun c => float_of_cell (cell_at c i));
  mret {| timestamp := cell_at ds i;
          price_usd := yhat;
          moving_avg_price := avg;
          volatility_15m := vol |}.

Definition build_rows (df : frame) : result (list powerbi_row) :=
  traverse (build_row df) (seq 0 (nrows df)).

(** A step on the local files and output. *)
Definition on_local {A} (m : IO A) : net -> outcome A * net := fun n =>
  match m (local n) with
  | (inl e, w) => (inl (Raised e), {| local := w; posted := posted n |})
  | (inr x, w) => (inr x, {| local := w; posted := posted n |})
  end.

(** [requests.post(url, json=payload)], for what the outside does. *)
Definition requests_post (o : answer) (url : string) (payload : list powerbi_row)
  : net -> outcome response * net := fun n =>
  let n := {| local := local n; posted := posted n ++ [(url, payload)] |} in
  match o with
  | Responded r => (inr r, n)
  | Failed => (inl RequestException, n)
  | Interrupted => (inl KeyboardInterrupt, n)
  end.

Definition push_to_powerbi (o : answer) (rows : list powerbi_row)
  : net -> outcome unit * net := fun n =>
  let payload := rows in
  if DRY_RUN then
    on_local (_ ← print (Line "DRY_RUN payload:"); print (Line (json_dumps payload))) n
  else
    match requests_post o PUSH_URL payload n with
    | (inl e, n) => (inl e, n)
    | (inr resp, n) =>
        match raise_for_status resp with
        | inl e => (inl e, n)
        | inr _ =>
            on_local (print (Line ("Pushed " +:+ pretty (length rows)
                                   +:+ " rows to Power BI."))) n
        end
    end.

(** The script. *)
Definition main (o : answer) : net -> outcome unit * net := fun n =>
  match files (local n) !! FORECAST_CSV with
  | None => (inl (Raised (FileNotFoundError FORECAST_CSV)), n)
  | Some _ =>
      match on_local (load_forecast FORECAST_CSV) n with
      | (inl e, n) => (inl e, n)
      | (inr df, n) =>
          match build_rows df with
          | inl e => (inl (Raised e), n)
          | inr rows => push_to_powerbi o rows n
          end
      end
  end.

End Push.
End push_to_powerbi.

(* ===================================================================== *)
(** ** Definitions for the statements *)

Section Derived.
Context `{Sqrt} `{Quicksort}.

(** The [price_change_pct] column for the price column [xs]. *)
Definition price_change_pct (xs : list float) : list float :=
  (fun x => fmul x (lit 100)) <$> fillna (lit 0) (pct_change xs).

(** The table after [sort_values]. *)
Definition sorted_frame (df : frame) (ts : list (option Z)) : frame :=
  take_frame (nargsort ts) (setcol df "timestamp" (Datetime64 ts)).

(** The sorted table with the three derived columns of the prices [xs]. *)
Definition with_metrics (sorted : frame) (xs : list float) : frame :=
  setcol
    (setcol
       (setcol sorted "price_change_pct" (Float64 (price_change_pct xs)))
       "moving_avg_price" (Float64 (rolling 7 agg_mean xs)))
    "volatility_15m" (Float64 (rolling 15 agg_std xs)).

End Derived.

(** Following the specification: [xs[lo..hi]], both ends included. *)
Definition slice {A} (lo hi : nat) (xs : list A) : list A :=
  take (S hi - lo) (drop lo xs).

(** Following the specification: the arithmetic mean. *)
Definition arithmetic_mean (ps : list Qc) : Qc :=
  (foldr Qcplus 0 ps / Qc_of_Z (Z.of_nat (length ps)))%Qc.

(** Following the specification: the sample standard deviation, the root
    of the squared deviations from the mean summed and divided by one less
    than their number. *)
Definition sample_std `{Sqrt} (ps : list Qc) : Qc :=
  let m := arithmetic_mean ps in
  fsqrt (foldr Qcplus 0 ((fun x => (x - m) * (x - m)) <$> ps)
         / Qc_of_Z (Z.of_nat (length ps) - 1))%Qc.

(** The order of [sort_values] on instants: ascending, missing ones last. *)
Definition na_last_le (a b : option Z) : Prop :=
  match a, b with
  | Some x, Some y => x <= y
  | _, None => True
  | None, Some _ => False
  end.

(** Following the specification: among rows with equal timestamps, the
    positions [idx] taken from the input stand in ascending order. *)
Definition keeps_arrival_order (ts : list (option Z)) (idx : list nat) : Prop :=
  forall i j a b,
    (i < j)%nat -> idx !! i = Some a -> idx !! j = Some b ->
    ts !! a = ts !! b -> (a < b)%nat.

(** Row [i] has a timestamp. *)
Definition has_key (ts : list (option Z)) (i : nat) : Prop :=
  is_Some (mjoin (ts !! i)).

(** Following the specification: the value of the latest sample taken at
    or before [t], starting from the best one found so far. *)
Fixpoint last_observed_from (best : option (Z * float))
    (s : list (option Z * float)) (t : Z) : float :=
  match s with
  | [] => from_option snd NaN best
  | (Some l, v) :: rest =>
      let later := from_option (fun b => bool_decide (b.1 <= l)) true best in
      if bool_decide (l <= t) && later
      then last_observed_from (Some (l, v)) rest t
      else last_observed_from best rest t
  | (None, _) :: rest => last_observed_from best rest t
  end.

Definition last_observed (s : list (option Z * float)) (t : Z) : float :=
  last_observed_from None s t.

Section Tables.
Context `{Sqrt} `{Models}.
Import bitcoin_example.

(** The forecast table for a fitted model and the dates [future]. *)
Definition forecast_table (m : prophet) (future : list Z) : frame :=
  let yhat := prophet_yhat m <$> future in
  setcol
    (setcol (predict m future) "moving_avg_price" (Float64 (rolling 7 agg_mean yhat)))
    "volatility_15m" (Float64 (rolling 15 agg_std yhat)).

Definition decompose_figure (r : DecomposeResult) : figure :=
  {| plotted := r; size_inches := Some (10, 8); tight := true |}.

End Tables.

(** The samples that the fetches of these turns give, in their order. *)
Definition fetched (turns : list (answer * bool)) : list dict :=
  omap (fun turn : answer * bool =>
          match bitcoin_ingestion.fetch_bitcoin_price turn.1 with
          | inr data => Some data
          | inl _ => None
          end) turns.

(** The samples stored one after another in the raw file. *)
Definition stored (samples : list dict) (d : disk) : disk :=
  foldl (fun d data =>
           bitcoin_ingestion.append_data_to_csv data "bitcoin_price_data.csv" d)
        d samples.

(** Turns without an interrupt. *)
Definition uninterrupted (turns : list (answer * bool)) : Prop :=
  Forall (fun turn : answer * bool => turn.1 <> Interrupted /\ turn.2 = false) turns.

(* ===================================================================== *)
(** ** Parameters and tables for the examples *)

(** The integer square root of the whole part: exact on squares of whole
    numbers. *)
Definition isqrt (q : Qc) : Qc := Qc_of_Z (Z.sqrt (Qfloor (this q))).

(** A decimal digit. *)
Definition digit (a : ascii) : option Z :=
  let n := Z.of_nat (nat_of_ascii a) in
  if decide (48 <= n <= 57) then Some (n - 48) else None.

(** The number written in the first [width] characters, and the rest. *)
Fixpoint number (width : nat) (s : string) (acc : Z) : option (Z * string) :=
  match width with
  | O => Some (acc, s)
  | S width' =>
      match s with
      | String a rest => d ← digit a; number width' rest (10 * acc + d)
      | EmptyString => None
      end
  end.

(** The rest after the character [c]. *)
Definition expect (c : ascii) (s : string) : option string :=
  match s with
  | String a rest => if decide (a = c) then Some rest else None
  | EmptyString => None
  end.

(** Days from 1970-01-01 to the civil date [y-m-d]. *)
Definition days_from_civil (y m d : Z) : Z :=
  let y := if decide (m <= 2) then y - 1 else y in
  let era := y / 400 in
  let yoe := y - era * 400 in
  let mp := if decide (m <= 2) then m + 9 else m - 3 in
  let doy := (153 * mp + 2) / 5 + d - 1 in
  let doe := yoe * 365 + yoe / 4 - yoe / 100 + doy in
  era * 146097 + doe - 719468.

(** The text that the ingestion writes, [%Y-%m-%d %H:%M:%S], read as an
    instant. *)
Definition strptime (s : string) : option Z :=
  '(y, s) ← number 4 s 0; s ← expect "-" s;
  '(m, s) ← number 2 s 0; s ← expect "-" s;
  '(d, s) ← number 2 s 0; s ← expect " " s;
  '(hh, s) ← number 2 s 0; s ← expect ":" s;
  '(mm, s) ← number 2 s 0; s ← expect ":" s;
  '(ss, s) ← number 2 s 0;
  if decide (s = "" /\ 1 <= m <= 12 /\ 1 <= d <= 31 /\ hh < 24 /\ mm < 60 /\ ss < 60)
  then Some ((((days_from_civil y m d * 24 + hh) * 60 + mm) * 60 + ss) * 1000000000)
  else None.

Definition strptime_parser : DatetimeParser := strptime.

(** Equal keys in the order of their positions: a stable sort. *)
Definition key_le (a b : Z * nat) : Prop := a.1 <= b.1.

(** Equal keys in the reverse order of their positions. *)
Definition key_le_rev (a b : Z * nat) : Prop :=
  a.1 < b.1 \/ (a.1 = b.1 /\ (b.2 <= a.2)%nat).

(** The last of at least two observations of a column. *)
Definition last_observation (c : column) : result Qc :=
  xs ← as_float c;
  match reverse (observations xs) with
  | q :: _ :: _ => inr q
  | _ => inl (ValueError "Dataframe has less than 2 non-NaN rows.")
  end.

(** The other prediction column of a model that forecasts one value [m]
    for every date: its trend. *)
Definition persistence_terms (m : Qc) (ds : list Z) : list (string * list float) :=
  [("trend", (fun _ => Fin m) <$> ds)].

(** Three samples out of order: 00:02 at 103, 00:00 at 100, 00:01 at 110. *)
Definition three_rows : frame :=
  [("timestamp", Object [Some "2024-01-01 00:02:00"; Some "2024-01-01 00:00:00";
                         Some "2024-01-01 00:01:00"]);
   ("price_usd", Float64 [lit 103; lit 100; lit 110]);
   ("market_cap_usd", Float64 [lit 2060; lit 2000; lit 2200])].

(** Twenty samples a minute apart, the price rising from 100.0 by 0.1. *)
Definition twenty_rows : frame :=
  [("timestamp",
    Datetime64 ((fun k => Some (1704067200000000000 + Z.of_nat k * minute)) <$> seq 0 20));
   ("price_usd",
    Float64 ((fun k => Fin (Q2Qc (Qmake (1000 + Z.of_nat k) 10))) <$> seq 0 20))].

(** A table with its header and no row. *)
Definition header_only : frame :=
  [("timestamp", Object []); ("price_usd", Object []); ("market_cap_usd", Object [])].

(** Two samples with one timestamp, in the order 1, 2. *)
Definition tied_rows : frame :=
  [("timestamp", Object [Some "2024-01-01 00:00:00"; Some "2024-01-01 00:00:00"]);
   ("price_usd", Float64 [lit 1; lit 2])].

(** A sample half a minute after the first one, off the grid. *)
Definition off_grid_samples : list (option Z * float) :=
  [(Some 1704067200000000000, lit 100);
   (Some 1704067230000000000, lit 200);
   (Some 1704067320000000000, lit 300)].

(** Two hours of samples a minute apart, from 2024-01-01 00:00:00, the
    price rising by one each minute. *)
Definition two_hours : frame :=
  [("timestamp",
    Datetime64 ((fun k => Some (1704067200000000000 + Z.of_nat k * minute)) <$> seq 0 120));
   ("price_usd", Float64 ((fun k => lit (100 + Z.of_nat k)) <$> seq 0 120))].

(** Three samples a minute apart. *)
Definition three_minutes : frame :=
  [("timestamp", Datetime64 [Some 1704067200000000000; Some 1704067260000000000;
                             Some 1704067320000000000]);
   ("price_usd", Float64 [lit 100; lit 110; lit 103])].

(** An earlier output of the transformation, kept in the output file. *)
Definition earlier_output : frame :=
  [("timestamp", Datetime64 [Some 1704067200000000000]);
   ("price_usd", Float64 [lit 100])].

(** A timestamp that cannot be read. *)
Definition bad_timestamp : frame :=
  [("timestamp", Object [Some "2024-01-01 00:00:00"; Some "not a timestamp"]);
   ("price_usd", Float64 [lit 100; lit 101])].

(** A table without the price column. *)
Definition no_price : frame :=
  [("timestamp", Object [Some "2024-01-01 00:00:00"]);
   ("market_cap_usd", Float64 [lit 2000])].

(** Worlds: no file; the raw table; the transformed history; an earlier
    output, with or without a raw table. *)
Definition no_files : world := {| files := ∅; stdout := [] |}.

Definition raw_world (df : frame) : world :=
  {| files := {[ "bitcoin_price_data.csv" := Csv df ]}; stdout := [] |}.

Definition history_world : world :=
  {| files := {[ "bitcoin_price_transformed_full.csv" := Csv two_hours ]};
     stdout := [] |}.

Definition with_earlier_output (input : option frame) : world :=
  {| files :=
       match input with
       | Some df =>
           <["bitcoin_price_data.csv" := Csv df]>
             {[ "bitcoin_price_transformed.csv" := Csv earlier_output ]}
       | None => {[ "bitcoin_price_transformed.csv" := Csv earlier_output ]}
       end;
     stdout := [] |}.

(** Four samples a minute apart: a price of zero, then 5, then a missing
    price, then 7. *)
Definition zero_and_missing : frame :=
  [("timestamp",
    Datetime64 ((fun k => Some (1704067200000000000 + Z.of_nat k * minute)) <$> seq 0 4));
   ("price_usd", Float64 [Fin 0; lit 5; NaN; lit 7])].

(** Two samples with one timestamp. *)
Definition repeated_minute : frame :=
  [("timestamp", Datetime64 [Some 1704067200000000000; Some 1704067200000000000]);
   ("price_usd", Float64 [lit 1; lit 2])].

(** Two samples a minute apart, the first without price. *)
Definition first_price_missing : frame :=
  [("timestamp", Datetime64 [Some 1704067200000000000; Some 1704067260000000000]);
   ("price_usd", Float64 [NaN; lit 1])].

(** Three points a minute apart. *)
Definition regular_series : list (Z * float) :=
  [(1704067200000000000, lit 100);
   (1704067260000000000, lit 110);
   (1704067320000000000, lit 103)].

(** A forecast file without the column [yhat]. *)
Definition no_yhat : frame :=
  [("ds", Datetime64 [Some 1704067200000000000]);
   ("moving_avg_price", Float64 [NaN]);
   ("volatility_15m", Float64 [NaN])].

(** The answer of the price service on 2024-01-01 at 00:00:00, and an
    answer without the market cap. *)
Definition price_answer : response :=
  {| status_code := 200;
     body := Some (JObj [("bitcoin",
                          JObj [("usd", JInt 42000);
                                ("usd_market_cap", JFloat (lit 820000000000));
                                ("last_updated_at", JInt 1704067200)])]) |}.

Definition answer_without_market_cap : response :=
  {| status_code := 200;
     body := Some (JObj [("bitcoin",
                          JObj [("usd", JInt 42000);
                                ("last_updated_at", JInt 1704067260)])]) |}.

(** An answer of the push service. *)
Definition accepted : response := {| status_code := 200; body := None |}.

(** No raw file and no output yet. *)
Definition no_raw_file : disk := {| raw := ∅; printed := [] |}.

(** A reader of whole numbers written in digits, for [pd.to_numeric] and
    for [float]; the payload is not printed. *)
Fixpoint whole_number (s : string) (acc : Z) : option float :=
  match s with
  | EmptyString => Some (lit acc)
  | String a rest => d ← digit a; whole_number rest (10 * acc + d)
  end.

Definition digits_only : Python :=
  {| to_numeric_text := fun s => if decide (s = "") then None else whole_number s 0;
     float_of_text := fun s => if decide (s = "") then None else whole_number s 0;
     json_dumps := fun _ => "" |}.

(** The local files with the forecast file that lacks [yhat]. *)
Definition forecast_without_yhat : world :=
  {| files := {[ "forecast_prophet.csv" := Csv no_yhat ]}; stdout := [] |}.

(* ===================================================================== *)
(** * Properties *)

(** ** Columns *)

Lemma length_ffill_from last xs : length (ffill_from last xs) = length xs.
Proof. revert last. induction xs as [|x xs IH]; intros last; simpl; [done|]. by rewrite IH. Qed.

Lemma length_shift1 xs : length (shift1 xs) = length xs.
Proof. unfold shift1. rewrite length_take. simpl. lia. Qed.

Lemma length_pct_change xs : length (pct_change xs) = length xs.
Proof.
  unfold pct_change, ffill. rewrite length_zip_with, length_shift1, length_ffill_from. lia.
Qed.

Lemma length_fillna v xs : length (fillna v xs) = length xs.
Proof. unfold fillna. apply length_map. Qed.

Lemma length_rolling w agg xs : length (rolling w agg xs) = length xs.
Proof. unfold rolling. apply length_imap. Qed.

Lemma lookup_rolling w agg xs i x :
  xs !! i = Some x ->
  rolling w agg xs !! i =
    Some (let obs := observations (window w i xs) in
          if decide (length obs < w)%nat then NaN else agg obs).
Proof. intros Hx. unfold rolling. rewrite list_lookup_imap, Hx. done. Qed.

Lemma lookup_shift1_0 xs : xs <> [] -> shift1 xs !! 0%nat = Some NaN.
Proof. destruct xs; [done|]. reflexivity. Qed.

Lemma lookup_shift1_S xs i x :
  xs !! i = Some x -> is_Some (xs !! S i) -> shift1 xs !! S i = Some x.
Proof.
  intros Hx Hs. unfold shift1. apply lookup_lt_is_Some in Hs.
  rewrite lookup_take_lt by lia. done.
Qed.

(** Forward filling leaves a cell that is not missing as it is. *)
Lemma lookup_ffill_from last xs i x :
  xs !! i = Some x -> isna x = false -> ffill_from last xs !! i = Some x.
Proof.
  revert last i. induction xs as [|y xs IH]; intros last i Hx Hn; [done|].
  destruct i as [|i]; simpl in *.
  - injection Hx as ->. by rewrite Hn.
  - by apply IH.
Qed.

Lemma pct_change_0 xs : xs <> [] -> pct_change xs !! 0%nat = Some NaN.
Proof.
  intros Hne. destruct xs as [|x xs]; [done|].
  unfold pct_change, ffill. simpl. by destruct (isna x), x.
Qed.

Lemma pct_change_S xs i a b :
  xs !! i = Some (Fin a) -> xs !! S i = Some (Fin b) -> a <> 0%Qc ->
  pct_change xs !! S i = Some (Fin (b / a - 1)%Qc).
Proof.
  intros Ha Hb Hnz. unfold pct_change. cbv zeta.
  rewrite lookup_zip_with.
  assert (Ha' : ffill xs !! i = Some (Fin a)) by by apply lookup_ffill_from.
  assert (Hb' : ffill xs !! S i = Some (Fin b)) by by apply lookup_ffill_from.
  rewrite Hb'. simpl.
  rewrite (lookup_shift1_S _ _ _ Ha') by (rewrite Hb'; eauto). simpl.
  destruct (decide (a = 0%Qc)); [done|]. done.
Qed.

(** ** The error monad *)

Lemma bind_inr {A B} (m : result A) (f : A -> result B) y :
  m ≫= f = inr y <-> exists x, m = inr x /\ f x = inr y.
Proof.
  destruct m as [e|x]; simpl; split.
  - done.
  - by intros (x & ? & _).
  - eauto.
  - by intros (x' & [= ->] & ?).
Qed.

Lemma bind_inl {A B} (m : result A) (f : A -> result B) e :
  m ≫= f = inl e <-> m = inl e \/ exists x, m = inr x /\ f x = inl e.
Proof.
  destruct m as [e'|x]; simpl; split.
  - intros [= ->]. by left.
  - intros [[= ->]|(x & ? & _)]; done.
  - eauto.
  - intros [?|(x' & [= ->] & ?)]; done.
Qed.

(** ** Frames *)

Lemma getcol_setcol_eq df name c : getcol (setcol df name c) name = inr c.
Proof.
  induction df as [|[n c0] df IH]; simpl; repeat (case_decide; simpl); congruence.
Qed.

Lemma getcol_setcol_ne df name name' c :
  name <> name' -> getcol (setcol df name c) name' = getcol df name'.
Proof.
  intros Hne.
  induction df as [|[n c0] df IH]; simpl; repeat (case_decide; simpl); congruence.
Qed.

Lemma getcol_inr_elem df name c : getcol df name = inr c -> (name, c) ∈ df.
Proof.
  induction df as [|[n c0] df IH]; simpl; [done|].
  destruct (decide (n = name)) as [->|Hn].
  - intros [= ->]. left.
  - intros Hg. right. by apply IH.
Qed.

Lemma getcol_inl df name e : getcol df name = inl e -> e = KeyError name /\ name ∉ columns df.
Proof.
  induction df as [|[n c0] df IH]; simpl.
  - intros [= <-]. split; [done|]. apply not_elem_of_nil.
  - destruct (decide (n = name)) as [->|Hn]; [done|].
    intros Hg. destruct (IH Hg) as [-> Hnot]. split; [done|].
    unfold columns in *. simpl. rewrite not_elem_of_cons. done.
Qed.

Lemma getcol_is_inr df name : name ∈ columns df -> exists c, getcol df name = inr c.
Proof.
  intros Hin. destruct (getcol df name) as [e|c] eqn:Hg; [|eauto].
  apply getcol_inl in Hg as [_ Hnot]. done.
Qed.

Lemma elem_of_columns_setcol df name c x :
  x ∈ columns (setcol df name c) <-> x = name \/ x ∈ columns df.
Proof.
  unfold columns. induction df as [|[n c0] df IH]; simpl.
  - rewrite list_elem_of_singleton. split; [eauto|]. intros [?|Hin]; [done|].
    by apply elem_of_nil in Hin.
  - destruct (decide (n = name)) as [->|Hn]; simpl.
    + rewrite elem_of_cons. tauto.
    + rewrite !elem_of_cons, IH. tauto.
Qed.

Lemma rectangular_setcol n df name c :
  rectangular n df -> column_length c = n -> rectangular n (setcol df name c).
Proof.
  unfold rectangular. intros Hdf Hc.
  induction df as [|[m c0] df IH]; simpl.
  - by repeat constructor.
  - inversion Hdf as [|? ? Hhd Htl]; subst.
    destruct (decide (m = name)); constructor; auto.
Qed.

Lemma rectangular_getcol n df name c :
  rectangular n df -> getcol df name = inr c -> column_length c = n.
Proof.
  intros Hdf Hg. apply getcol_inr_elem in Hg.
  unfold rectangular in Hdf. rewrite Forall_forall in Hdf. by apply (Hdf (name, c)).
Qed.

Lemma take_rows_cons {A} i (idx : list nat) (l : list A) x :
  l !! i = Some x -> take_rows (i :: idx) l = x :: take_rows idx l.
Proof. intros Hx. unfold take_rows. simpl. by rewrite Hx. Qed.

Lemma length_take_rows {A} (idx : list nat) (l : list A) :
  Forall (fun i => i < length l)%nat idx -> length (take_rows idx l) = length idx.
Proof.
  induction 1 as [|i idx Hi _ IH]; [done|].
  destruct (lookup_lt_is_Some_2 l i Hi) as [x Hx].
  rewrite (take_rows_cons _ _ _ _ Hx). simpl. by rewrite IH.
Qed.

Lemma lookup_take_rows {A} (idx : list nat) (l : list A) k i :
  Forall (fun i => i < length l)%nat idx ->
  idx !! k = Some i -> take_rows idx l !! k = l !! i.
Proof.
  intros Hidx. revert k.
  induction Hidx as [|j idx Hj _ IH]; intros k Hk; [done|].
  destruct (lookup_lt_is_Some_2 l j Hj) as [x Hx].
  rewrite (take_rows_cons _ _ _ _ Hx).
  destruct k as [|k]; simpl in *.
  - injection Hk as ->. done.
  - by apply IH.
Qed.

Lemma getcol_take_frame idx df name :
  getcol (take_frame idx df) name =
    match getcol df name with
    | inl e => inl e
    | inr c => inr (take_column idx c)
    end.
Proof.
  induction df as [|[n c] df IH]; simpl; [done|].
  destruct (decide (n = name)); [done|]. apply IH.
Qed.

Lemma columns_take_frame idx df : columns (take_frame idx df) = columns df.
Proof.
  unfold columns, take_frame. rewrite <- list_fmap_compose.
  apply list_fmap_ext. by intros ? [].
Qed.

Lemma column_length_take idx c :
  Forall (fun i => i < column_length c)%nat idx ->
  column_length (take_column idx c) = length idx.
Proof. destruct c; simpl; apply length_take_rows. Qed.

Lemma rectangular_take_frame n idx df :
  Forall (fun i => i < n)%nat idx ->
  rectangular n df -> rectangular (length idx) (take_frame idx df).
Proof.
  unfold rectangular, take_frame. intros Hidx Hdf.
  rewrite Forall_fmap. eapply Forall_impl; [exact Hdf|].
  intros [m c] Hc. simpl in *. apply column_length_take. by rewrite Hc.
Qed.

(** ** Sorting by timestamp *)

Lemma take_rows_seq {A} (l : list A) : take_rows (seq 0 (length l)) l = l.
Proof.
  assert (Hidx : Forall (fun i => i < length l)%nat (seq 0 (length l))).
  { apply Forall_forall. intros i Hi. apply elem_of_seq in Hi. lia. }
  apply list_eq. intros k. destruct (decide (k < length l)%nat) as [Hk|Hk].
  - apply lookup_take_rows; [done|]. by apply lookup_seq_lt.
  - rewrite !lookup_ge_None_2; [done|lia|].
    rewrite length_take_rows, length_seq by done. lia.
Qed.

Lemma take_rows_app {A} idx1 idx2 (l : list A) :
  take_rows (idx1 ++ idx2) l = take_rows idx1 l ++ take_rows idx2 l.
Proof. unfold take_rows. apply omap_app. Qed.

Lemma take_rows_Permutation {A} idx1 idx2 (l : list A) :
  idx1 ≡ₚ idx2 -> take_rows idx1 l ≡ₚ take_rows idx2 l.
Proof. intros Hp. unfold take_rows. by rewrite Hp. Qed.

(** Rows taken at positions that were themselves taken from a list of
    positions. *)
Lemma take_rows_take_rows {A} p idx (l : list A) :
  Forall (fun i => i < length idx)%nat p ->
  Forall (fun i => i < length l)%nat idx ->
  take_rows (take_rows p idx) l = take_rows p (take_rows idx l).
Proof.
  intros Hp Hidx. induction Hp as [|i p Hi _ IH]; [done|].
  destruct (lookup_lt_is_Some_2 idx i Hi) as [j Hj].
  rewrite (take_rows_cons _ _ _ _ Hj).
  assert (Hjl : (j < length l)%nat).
  { rewrite Forall_forall in Hidx. apply Hidx. eapply list_elem_of_lookup_2, Hj. }
  destruct (lookup_lt_is_Some_2 l j Hjl) as [x Hx].
  rewrite (take_rows_cons _ _ _ _ Hx).
  assert (Hi' : take_rows idx l !! i = Some x).
  { rewrite (lookup_take_rows _ _ _ _ Hidx Hj). done. }
  rewrite (take_rows_cons _ _ _ _ Hi'). by rewrite IH.
Qed.

Lemma filter_ext_Forall {A} (P Q : A -> Prop)
    `{!forall x, Decision (P x), !forall x, Decision (Q x)} (l : list A) :
  Forall (fun x => P x <-> Q x) l -> filter P l = filter Q l.
Proof.
  induction 1 as [|x l Hx _ IH]; [done|].
  rewrite !filter_cons, IH. destruct (decide (P x)), (decide (Q x)); tauto || done.
Qed.

Lemma take_rows_cons_None {A} i (idx : list nat) (l : list A) :
  l !! i = None -> take_rows (i :: idx) l = take_rows idx l.
Proof. intros Hx. unfold take_rows. simpl. by rewrite Hx. Qed.

Lemma take_rows_fmap {A B} (f : A -> B) idx (l : list A) :
  take_rows idx (f <$> l) = f <$> take_rows idx l.
Proof.
  induction idx as [|i idx IH]; [done|].
  destruct (l !! i) as [x|] eqn:Hx.
  - rewrite (take_rows_cons i idx l x Hx), fmap_cons, <- IH.
    apply take_rows_cons. by rewrite list_lookup_fmap, Hx.
  - rewrite (take_rows_cons_None i idx l Hx), <- IH.
    apply take_rows_cons_None. by rewrite list_lookup_fmap, Hx.
Qed.

Section Nargsort.
Context `{Quicksort}.

Lemma take_rows_has_key ts :
  take_rows (filter (has_key ts) (seq 0 (length ts))) ts = Some <$> omap id ts.
Proof.
  induction ts as [|t ts IH] using rev_ind; [done|].
  rewrite length_app, Nat.add_comm.
  change (length [t] + length ts)%nat with (S (length ts)).
  rewrite seq_S, filter_app, take_rows_app.
  assert (Hfilter : filter (has_key (ts ++ [t])) (seq 0 (length ts))
                    = filter (has_key ts) (seq 0 (length ts))).
  { apply filter_ext_Forall. apply Forall_forall. intros i Hi.
    apply elem_of_seq in Hi. unfold has_key. by rewrite lookup_app_l by lia. }
  rewrite Hfilter, omap_app, fmap_app, <- IH.
  f_equal.
  - unfold take_rows. apply list_omap_ext. apply Forall_Forall2_diag.
    apply Forall_forall. intros i Hi. apply list_elem_of_filter in Hi as [_ Hi].
    apply elem_of_seq in Hi. rewrite lookup_app_l by lia. done.
  - assert (Ht : (ts ++ [t]) !! length ts = Some t) by by apply list_lookup_middle.
    change (0 + length ts)%nat with (length ts).
    rewrite filter_cons, filter_nil.
    destruct (decide (has_key (ts ++ [t]) (length ts))) as [Hk|Hk];
      unfold has_key in Hk; rewrite Ht in Hk; destruct t as [t|]; simpl in Hk.
    + by rewrite (take_rows_cons _ _ _ _ Ht).
    + by destruct Hk.
    + exfalso. eauto.
    + done.
Qed.

Lemma take_rows_no_key ts :
  take_rows (filter (fun i => ¬ has_key ts i) (seq 0 (length ts))) ts
  = replicate (length (filter (fun i => ¬ has_key ts i) (seq 0 (length ts)))) None.
Proof.
  set (idx := filter _ _).
  assert (Hidx : Forall (fun i => ts !! i = Some None) idx).
  { apply Forall_forall. intros i Hi. apply list_elem_of_filter in Hi as [Hk Hi].
    apply elem_of_seq in Hi. unfold has_key in Hk.
    destruct (lookup_lt_is_Some_2 ts i) as [[t|] Ht]; [lia| |done].
    rewrite Ht in Hk. simpl in Hk. exfalso. eauto. }
  clearbody idx. induction Hidx as [|i idx Hi _ IH]; [done|].
  rewrite (take_rows_cons _ _ _ _ Hi). simpl. by rewrite IH.
Qed.

Lemma has_key_lt ts :
  Forall (fun i => i < length ts)%nat (filter (has_key ts) (seq 0 (length ts))).
Proof.
  apply Forall_forall. intros i Hi.
  apply list_elem_of_filter in Hi as [_ Hi]. apply elem_of_seq in Hi. lia.
Qed.

Lemma length_has_key ts :
  length (filter (has_key ts) (seq 0 (length ts))) = length (omap id ts).
Proof.
  rewrite <- (length_fmap Some (omap id ts)), <- take_rows_has_key.
  symmetry. apply length_take_rows, has_key_lt.
Qed.

Lemma length_no_key ts :
  length (filter (fun i => ¬ has_key ts i) (seq 0 (length ts)))
  = (length ts - length (omap id ts))%nat.
Proof.
  pose proof (filter_app_complement (has_key ts) (seq 0 (length ts))) as Hp.
  apply Permutation_length in Hp.
  rewrite length_app, length_has_key, length_seq in Hp. lia.
Qed.

Lemma argsort_lt ks : Forall (fun i => i < length ks)%nat (argsort ks).
Proof.
  apply Forall_forall. intros i Hi.
  rewrite (argsort_perm ks) in Hi. apply elem_of_seq in Hi. lia.
Qed.

Lemma nargsort_eq ts :
  nargsort ts
  = take_rows (argsort (omap id ts)) (filter (has_key ts) (seq 0 (length ts)))
    ++ filter (fun i => ¬ has_key ts i) (seq 0 (length ts)).
Proof. reflexivity. Qed.

Lemma nargsort_Permutation ts : nargsort ts ≡ₚ seq 0 (length ts).
Proof.
  rewrite nargsort_eq.
  rewrite <- (filter_app_complement (has_key ts) (seq 0 (length ts))) at 3.
  apply Permutation_app; [|done].
  rewrite (take_rows_Permutation _ _ _ (argsort_perm _)).
  rewrite <- length_has_key. by rewrite take_rows_seq.
Qed.

Lemma nargsort_lt ts : Forall (fun i => i < length ts)%nat (nargsort ts).
Proof.
  apply Forall_forall. intros i Hi.
  rewrite (nargsort_Permutation ts) in Hi. apply elem_of_seq in Hi. lia.
Qed.

Lemma length_nargsort ts : length (nargsort ts) = length ts.
Proof. rewrite (nargsort_Permutation ts). apply length_seq. Qed.

(** The sorted column: the present instants in the order [argsort] gives
    them, then the missing ones. *)
Lemma take_rows_nargsort ts :
  take_rows (nargsort ts) ts
  = (Some <$> take_rows (argsort (omap id ts)) (omap id ts))
    ++ replicate (length ts - length (omap id ts)) None.
Proof.
  rewrite nargsort_eq, take_rows_app. f_equal.
  - rewrite take_rows_take_rows.
    + by rewrite take_rows_has_key, take_rows_fmap.
    + rewrite length_has_key. apply argsort_lt.
    + apply has_key_lt.
  - by rewrite take_rows_no_key, length_no_key.
Qed.

End Nargsort.

(** ** The transformation of the raw table *)

Lemma length_as_float c xs : as_float c = inr xs -> length xs = column_length c.
Proof. destruct c as [ys| |[|o os]]; simpl; try done; by intros [= <-]. Qed.

Lemma float_column_setcol_ne df name name' c :
  name <> name' -> float_column (setcol df name c) name' = float_column df name'.
Proof. intros Hne. unfold float_column. by rewrite getcol_setcol_ne. Qed.

Lemma float_column_setcol_eq df name xs :
  float_column (setcol df name (Float64 xs)) name = inr xs.
Proof. unfold float_column. by rewrite getcol_setcol_eq. Qed.

Lemma rectangular_float_column n df name xs :
  rectangular n df -> float_column df name = inr xs -> length xs = n.
Proof.
  intros Hdf Hx. unfold float_column in Hx.
  apply bind_inr in Hx as (c & Hc & Hx).
  rewrite (length_as_float _ _ Hx). by apply (rectangular_getcol n df name).
Qed.

Section TransformFacts.
Context `{Sqrt} `{DatetimeParser} `{Quicksort}.
Import bitcoin_utils.

(** A run of [transform_frame] that succeeds, step by step. *)
Lemma transform_frame_inr df out :
  transform_frame df = inr out ->
  exists c ts xs,
    getcol df "timestamp" = inr c /\
    to_datetime c = inr ts /\
    float_column (sorted_frame df ts) "price_usd" = inr xs /\
    out = with_metrics (sorted_frame df ts) xs.
Proof.
  unfold transform_frame. intros Hrun.
  apply bind_inr in Hrun as (c & Hc & Hrun).
  apply bind_inr in Hrun as (ts & Hts & Hrun).
  fold (sorted_frame df ts) in Hrun.
  apply bind_inr in Hrun as (xs & Hxs & Hrun).
  fold (price_change_pct xs) in Hrun.
  rewrite float_column_setcol_ne, Hxs in Hrun by done. simpl in Hrun.
  rewrite !float_column_setcol_ne, Hxs in Hrun by done. simpl in Hrun.
  injection Hrun as <-. by exists c, ts, xs.
Qed.

(** A run of [transform_frame] that raises: the timestamp or the price
    column is the cause. *)
Lemma transform_frame_inl df e :
  transform_frame df = inl e ->
  getcol df "timestamp" = inl e \/
  (exists c, getcol df "timestamp" = inr c /\ to_datetime c = inl e) \/
  (exists c ts, getcol df "timestamp" = inr c /\ to_datetime c = inr ts /\
     float_column (sorted_frame df ts) "price_usd" = inl e).
Proof.
  unfold transform_frame. intros Hrun.
  apply bind_inl in Hrun as [Hc|(c & Hc & Hrun)]; [by left|]. right.
  apply bind_inl in Hrun as [Hts|(ts & Hts & Hrun)]; [left; eauto|]. right.
  exists c, ts. split; [done|]. split; [done|].
  fold (sorted_frame df ts) in Hrun.
  apply bind_inl in Hrun as [Hxs|(xs & Hxs & Hrun)]; [done|]. exfalso.
  rewrite float_column_setcol_ne, Hxs in Hrun by done. simpl in Hrun.
  rewrite !float_column_setcol_ne, Hxs in Hrun by done. simpl in Hrun.
  done.
Qed.

Lemma as_float_take_column idx c xs :
  as_float c = inr xs -> as_float (take_column idx c) = inr (take_rows idx xs).
Proof.
  destruct c as [ys| |[|o os]]; simpl; try done; intros [= <-]; [done|].
  assert (Hnil : forall A, take_rows idx (@nil A) = []).
  { intros A. induction idx as [|i idx IH]; [done|]. by rewrite take_rows_cons_None. }
  by rewrite !Hnil.
Qed.

Lemma float_column_sorted_price df ts xs :
  float_column df "price_usd" = inr xs ->
  float_column (sorted_frame df ts) "price_usd" = inr (take_rows (nargsort ts) xs).
Proof.
  unfold float_column, sorted_frame. intros Hp.
  apply bind_inr in Hp as (c & Hc & Hp).
  rewrite getcol_take_frame, getcol_setcol_ne, Hc by done. simpl.
  by apply as_float_take_column.
Qed.

(** The transformation succeeds on a table with a readable timestamp
    column and a numeric price column, and gives the sorted table with
    the derived columns of the sorted prices. *)
Lemma transform_frame_total df c ts xs :
  getcol df "timestamp" = inr c -> to_datetime c = inr ts ->
  float_column df "price_usd" = inr xs ->
  transform_frame df
  = inr (with_metrics (sorted_frame df ts) (take_rows (nargsort ts) xs)).
Proof.
  intros Hc Hts Hp. unfold transform_frame.
  rewrite Hc. simpl. rewrite Hts. simpl.
  fold (sorted_frame df ts).
  pose proof (float_column_sorted_price df ts xs Hp) as Hsorted.
  rewrite Hsorted. simpl.
  rewrite float_column_setcol_ne, Hsorted by done. simpl.
  rewrite !float_column_setcol_ne, Hsorted by done. simpl.
  done.
Qed.

Lemma float_column_with_metrics_price sorted xs :
  float_column (with_metrics sorted xs) "price_usd" = float_column sorted "price_usd".
Proof. unfold with_metrics. by rewrite !float_column_setcol_ne by done. Qed.

Lemma float_column_with_metrics_pct sorted xs :
  float_column (with_metrics sorted xs) "price_change_pct" = inr (price_change_pct xs).
Proof.
  unfold with_metrics. rewrite !float_column_setcol_ne by done.
  apply float_column_setcol_eq.
Qed.

Lemma float_column_with_metrics_avg sorted xs :
  float_column (with_metrics sorted xs) "moving_avg_price"
  = inr (rolling 7 agg_mean xs).
Proof.
  unfold with_metrics. rewrite float_column_setcol_ne by done.
  apply float_column_setcol_eq.
Qed.

Lemma float_column_with_metrics_vol sorted xs :
  float_column (with_metrics sorted xs) "volatility_15m"
  = inr (rolling 15 agg_std xs).
Proof. unfold with_metrics. apply float_column_setcol_eq. Qed.

Lemma getcol_with_metrics_timestamp sorted xs :
  getcol (with_metrics sorted xs) "timestamp" = getcol sorted "timestamp".
Proof. unfold with_metrics. by rewrite !getcol_setcol_ne by done. Qed.

Lemma getcol_sorted_timestamp df ts :
  getcol (sorted_frame df ts) "timestamp"
  = inr (Datetime64 (take_rows (nargsort ts) ts)).
Proof.
  unfold sorted_frame. by rewrite getcol_take_frame, getcol_setcol_eq.
Qed.

Lemma length_price_change_pct xs : length (price_change_pct xs) = length xs.
Proof.
  unfold price_change_pct. by rewrite length_fmap, length_fillna, length_pct_change.
Qed.

(** Sorting and adding columns keep the number of rows. *)
Lemma rectangular_sorted_frame n df ts :
  rectangular n df -> length ts = n -> rectangular n (sorted_frame df ts).
Proof.
  intros Hdf Hn. unfold sorted_frame.
  rewrite <- Hn at 1. rewrite <- (length_nargsort ts).
  apply (rectangular_take_frame n).
  - rewrite <- Hn. apply nargsort_lt.
  - by apply rectangular_setcol.
Qed.

End TransformFacts.

(** ** Instances of the parameters *)

Lemma isqrt_0 : isqrt 0%Qc = 0%Qc.
Proof. by apply Qc_is_canon. Qed.

(** The integer square root as the square root of the examples. *)
Definition isqrt_Sqrt : Sqrt := {| fsqrt := isqrt; fsqrt_0 := isqrt_0 |}.

(** Sorting the pairs of a key and its position by a total order that
    refines the order of the keys gives an [argsort]. *)
Section ArgsortBy.
Context (R : relation (Z * nat)) `{!forall a b, Decision (R a b)} `{!Total R}.
Context (R_key : forall a b, R a b -> a.1 <= b.1).

Definition argsort_by (ks : list Z) : list nat :=
  (merge_sort R (zip ks (seq 0 (length ks)))).*2.

Lemma argsort_by_perm ks : argsort_by ks ≡ₚ seq 0 (length ks).
Proof.
  unfold argsort_by. rewrite merge_sort_Permutation.
  rewrite snd_zip; [done|]. rewrite length_seq. lia.
Qed.

Lemma argsort_by_sorted ks : Sorted Z.le (take_rows (argsort_by ks) ks).
Proof.
  unfold argsort_by.
  assert (Hpairs : Forall (fun p => ks !! p.2 = Some p.1)
                     (merge_sort R (zip ks (seq 0 (length ks))))).
  { rewrite merge_sort_Permutation. apply Forall_forall. intros [k i] Hin.
    apply list_elem_of_lookup in Hin as [j Hj].
    apply lookup_zip_with_Some in Hj as (k' & i' & [= <- <-] & Hk & Hi).
    apply lookup_seq in Hi as [-> _]. done. }
  pose proof (Sorted_merge_sort R (zip ks (seq 0 (length ks)))) as Hsorted.
  induction Hsorted as [|p l Hl IH Hhd]; [constructor|].
  inversion Hpairs as [|? ? Hp Hrest]; subst.
  rewrite fmap_cons, (take_rows_cons _ _ _ _ Hp).
  constructor; [by apply IH|].
  destruct Hhd as [|q l Hpq]; [constructor|].
  inversion Hrest as [|? ? Hq _]; subst.
  rewrite fmap_cons, (take_rows_cons _ _ _ _ Hq). constructor. by apply R_key.
Qed.

Definition Quicksort_by : Quicksort :=
  {| argsort := argsort_by;
     argsort_perm := argsort_by_perm;
     argsort_sorted := argsort_by_sorted |}.

End ArgsortBy.

#[global] Instance key_le_dec a b : Decision (key_le a b).
Proof. unfold key_le. apply _. Defined.

#[global] Instance key_le_rev_dec a b : Decision (key_le_rev a b).
Proof. unfold key_le_rev. apply _. Defined.

#[global] Instance key_le_total : Total key_le.
Proof. intros a b. unfold key_le. lia. Qed.

#[global] Instance key_le_rev_total : Total key_le_rev.
Proof. intros a b. unfold key_le_rev. lia. Qed.

Definition stable_sort : Quicksort :=
  Quicksort_by key_le (fun a b Hab => Hab).

Lemma key_le_rev_key a b : key_le_rev a b -> a.1 <= b.1.
Proof. unfold key_le_rev. lia. Qed.

Definition reversing_sort : Quicksort :=
  Quicksort_by key_le_rev key_le_rev_key.

(** ** The derived columns *)

Lemma length_traverse {A B} (f : A -> result B) l ys :
  traverse f l = inr ys -> length ys = length l.
Proof.
  revert ys. induction l as [|x l IH]; intros ys; simpl.
  - by intros [= <-].
  - destruct (f x); [done|]. destruct (traverse f l); [done|].
    intros [= <-]. simpl. by rewrite (IH _ eq_refl).
Qed.

Lemma length_to_datetime `{DatetimeParser} c ts :
  to_datetime c = inr ts -> length ts = column_length c.
Proof. destruct c; simpl; [|by intros [= ->]|]; apply length_traverse. Qed.

Section Metrics.
Context `{Sqrt} `{DatetimeParser} `{Quicksort}.
Import bitcoin_utils.

Lemma rectangular_with_metrics n sorted xs :
  rectangular n sorted -> length xs = n -> rectangular n (with_metrics sorted xs).
Proof.
  intros Hs Hxs. unfold with_metrics.
  repeat apply rectangular_setcol; try done; simpl.
  - by rewrite length_price_change_pct.
  - by rewrite length_rolling.
  - by rewrite length_rolling.
Qed.

(** A successful transformation keeps the number of rows, in every
    column. *)
Lemma transform_frame_rectangular n df out :
  rectangular n df -> transform_frame df = inr out -> rectangular n out.
Proof.
  intros Hdf Hrun.
  apply transform_frame_inr in Hrun as (c & ts & xs & Hc & Hts & Hp & ->).
  assert (Hn : length ts = n).
  { rewrite (length_to_datetime _ _ Hts). by apply (rectangular_getcol n df "timestamp"). }
  assert (Hsorted : rectangular n (sorted_frame df ts))
    by by apply rectangular_sorted_frame.
  apply rectangular_with_metrics; [done|].
  by apply (rectangular_float_column n _ _ _ Hsorted Hp).
Qed.

Lemma price_change_pct_0 xs : xs <> [] -> price_change_pct xs !! 0%nat = Some (lit 0).
Proof.
  intros Hne. unfold price_change_pct, fillna.
  rewrite !list_lookup_fmap, (pct_change_0 _ Hne). simpl.
  do 2 f_equal. unfold lit. f_equal. by apply Qc_is_canon.
Qed.

Lemma price_change_pct_S xs i a b :
  xs !! i = Some (Fin a) -> xs !! S i = Some (Fin b) -> a <> 0%Qc ->
  price_change_pct xs !! S i = Some (Fin ((b - a) / a * Qc_of_Z 100)%Qc).
Proof.
  intros Ha Hb Hnz. unfold price_change_pct, fillna.
  rewrite !list_lookup_fmap, (pct_change_S _ _ _ _ Ha Hb Hnz). simpl.
  do 2 f_equal. field. done.
Qed.

(** The rows and the [price_change_pct] of a table that the
    transformation gives. *)
Lemma price_change_pct_of_output (df out : frame) (n : nat) :
  rectangular n df ->
  transform_frame df = inr out ->
  rectangular n out /\
  exists prices pct,
    float_column out "price_usd" = inr prices /\
    float_column out "price_change_pct" = inr pct /\
    length prices = n /\ length pct = n /\
    (n <> 0%nat -> pct !! 0%nat = Some (lit 0)) /\
    forall i a b,
      prices !! i = Some (Fin a) -> prices !! S i = Some (Fin b) -> a <> 0%Qc ->
      pct !! S i = Some (Fin ((b - a) / a * Qc_of_Z 100)%Qc).
Proof.
  intros Hdf Hrun. split; [by apply (transform_frame_rectangular n df)|].
  pose proof (transform_frame_rectangular n df out Hdf Hrun) as Hout.
  apply transform_frame_inr in Hrun as (c & ts & xs & Hc & Hts & Hp & ->).
  exists xs, (price_change_pct xs).
  assert (Hprice : float_column (with_metrics (sorted_frame df ts) xs) "price_usd" = inr xs)
    by by rewrite float_column_with_metrics_price.
  assert (Hlen : length xs = n) by apply (rectangular_float_column n _ _ _ Hout Hprice).
  split; [done|]. split; [apply float_column_with_metrics_pct|].
  split; [done|]. split; [by rewrite length_price_change_pct|].
  split.
  - intros Hn. apply price_change_pct_0. intros ->. done.
  - apply price_change_pct_S.
Qed.

(** C4.  The transformation of a table of [n] rows with a readable
    timestamp column and a numeric price column gives a table with [n]
    rows in every column, whose prices are those of the input in the
    order of the timestamps; its [price_change_pct] is 0 in the first
    row, and in every later row whose price and the price above it are
    numbers, the latter not zero, it is
    [(price[i] - price[i-1]) / price[i-1] * 100]. *)
Theorem price_change_pct_correct (df : frame) (n : nat) (c : column)
    (ts : list (option Z)) (xs : list float) :
  rectangular n df ->
  getcol df "timestamp" = inr c -> to_datetime c = inr ts ->
  float_column df "price_usd" = inr xs ->
  exists out prices pct,
    transform_frame df = inr out /\
    rectangular n out /\
    prices = take_rows (nargsort ts) xs /\
    float_column out "price_usd" = inr prices /\
    float_column out "price_change_pct" = inr pct /\
    length prices = n /\ length pct = n /\
    (n <> 0%nat -> pct !! 0%nat = Some (lit 0)) /\
    forall i a b,
      prices !! i = Some (Fin a) -> prices !! S i = Some (Fin b) -> a <> 0%Qc ->
      pct !! S i = Some (Fin ((b - a) / a * Qc_of_Z 100)%Qc).
Proof.
  intros Hdf Hc Hts Hp.
  pose proof (transform_frame_total df c ts xs Hc Hts Hp) as Hrun.
  destruct (price_change_pct_of_output df _ n Hdf Hrun)
    as (Hrect & prices & pct & Hprices & Hpct & Hlen & Hlen' & Hfirst & HS).
  exists (with_metrics (sorted_frame df ts) (take_rows (nargsort ts) xs)), prices, pct.
  split; [done|]. split; [done|]. split; [|done].
  rewrite float_column_with_metrics_price in Hprices.
  rewrite (float_column_sorted_price df ts xs Hp) in Hprices. by injection Hprices.
Qed.

End Metrics.

(** ** Trailing windows *)

Lemma length_observations win : (length (observations win) <= length win)%nat.
Proof. induction win as [|[] win IH]; simpl; lia. Qed.

Lemma observations_Fin ps : observations (Fin <$> ps) = ps.
Proof.
  induction ps as [|p ps IH]; [done|]. rewrite fmap_cons. simpl. by rewrite IH.
Qed.

Lemma length_window {A} w i (xs : list A) : (length (window w i xs) <= S i)%nat.
Proof. unfold window. rewrite length_drop, length_take. lia. Qed.

Lemma window_slice {A} w i (xs : list A) :
  (w <= S i)%nat -> window w i xs = slice (S i - w) i xs.
Proof.
  intros Hw. unfold window, slice. rewrite take_drop_commute.
  do 2 f_equal. lia.
Qed.

(** No look-ahead: the window that ends at row [i] lies within the first
    [i + 1] rows. *)
Lemma window_take {A} w i (xs ys : list A) :
  take (S i) xs = take (S i) ys -> window w i xs = window w i ys.
Proof. unfold window. by intros ->. Qed.

Lemma rolling_take w agg i xs ys :
  take (S i) xs = take (S i) ys -> rolling w agg xs !! i = rolling w agg ys !! i.
Proof.
  intros Htake. unfold rolling. rewrite !list_lookup_imap.
  rewrite (window_take w i xs ys Htake).
  assert (Hi : xs !! i = None <-> ys !! i = None).
  { rewrite <- (lookup_take_lt xs (S i) i), <- (lookup_take_lt ys (S i) i) by lia.
    by rewrite Htake. }
  destruct (xs !! i), (ys !! i); simpl; try done.
  - destruct Hi as [_ Hi']. by specialize (Hi' eq_refl).
  - destruct Hi as [Hi' _]. by specialize (Hi' eq_refl).
Qed.

Lemma sum_replicate n x : sum (replicate n x) = (Qc_of_nat n * x)%Qc.
Proof.
  unfold Qc_of_nat. induction n as [|n IH].
  - change (Z.of_nat 0) with 0. rewrite Z2Qc_inj_0. unfold sum. simpl. ring.
  - rewrite Nat2Z.inj_succ, <- Z.add_1_r, Z2Qc_inj_add, Z2Qc_inj_1.
    change (sum (replicate (S n) x)) with (x + sum (replicate n x))%Qc.
    rewrite IH. ring.
Qed.

Lemma Qc_of_nat_S n : Qc_of_nat (S n) <> 0%Qc.
Proof.
  unfold Qc_of_nat. rewrite <- Z2Qc_inj_0. intros Heq. apply Z2Qc_inj in Heq. lia.
Qed.

Lemma mean_replicate n x : mean (replicate (S n) x) = x.
Proof.
  unfold mean. rewrite sum_replicate, length_replicate.
  field. apply Qc_of_nat_S.
Qed.

Lemma ssqdm_replicate n x : ssqdm (replicate (S n) x) = 0%Qc.
Proof.
  unfold ssqdm. rewrite mean_replicate.
  generalize (S n). intros k. induction k as [|k IH]; [done|].
  simpl. rewrite IH. ring.
Qed.

(** The two forms of the mean and of the deviation agree. *)
Lemma arithmetic_mean_mean ps : arithmetic_mean ps = mean ps.
Proof. reflexivity. Qed.

Lemma agg_mean_Fin ps : ps <> [] -> agg_mean ps = Fin (arithmetic_mean ps).
Proof. by destruct ps. Qed.

Lemma agg_std_Fin `{Sqrt} ps :
  (1 < length ps)%nat -> agg_std ps = Fin (sample_std ps).
Proof.
  intros Hlen. unfold agg_std. rewrite decide_False by lia.
  unfold sample_std, ssqdm, sum, Qc_of_nat. cbv zeta.
  rewrite Nat2Z.inj_sub by lia. done.
Qed.

Section RollingFacts.
Context `{Sqrt}.

(** A window that is not yet full gives no value. *)
Lemma rolling_partial w agg xs i :
  (S i < w)%nat -> (i < length xs)%nat -> rolling w agg xs !! i = Some NaN.
Proof.
  intros Hi Hlen. destruct (lookup_lt_is_Some_2 xs i Hlen) as [x Hx].
  rewrite (lookup_rolling _ _ _ _ _ Hx). cbv zeta.
  rewrite decide_True; [done|].
  pose proof (length_observations (window w i xs)).
  pose proof (length_window w i xs). lia.
Qed.

(** A full window of numbers gives their aggregate. *)
Lemma rolling_full w agg xs i ps :
  (0 < w)%nat -> (w <= S i)%nat ->
  slice (S i - w) i xs = Fin <$> ps -> length ps = w ->
  rolling w agg xs !! i = Some (agg ps).
Proof.
  intros Hw Hi Hslice Hlen.
  assert (Hlt : (i < length xs)%nat).
  { apply (f_equal length) in Hslice. unfold slice in Hslice.
    rewrite length_take, length_drop, length_fmap in Hslice. lia. }
  destruct (lookup_lt_is_Some_2 xs i Hlt) as [x Hx].
  rewrite (lookup_rolling _ _ _ _ _ Hx). cbv zeta.
  rewrite (window_slice w i xs Hi), Hslice, observations_Fin.
  rewrite decide_False by lia. done.
Qed.

Lemma sample_std_ssqdm ps :
  sample_std ps = fsqrt (ssqdm ps / Qc_of_Z (Z.of_nat (length ps) - 1))%Qc.
Proof. reflexivity. Qed.

Lemma sample_std_replicate n x : sample_std (replicate (S (S n)) x) = 0%Qc.
Proof.
  rewrite sample_std_ssqdm, ssqdm_replicate.
  unfold Qcdiv. rewrite Qcmult_0_l. apply fsqrt_0.
Qed.

End RollingFacts.

Section MetricsWindows.
Context `{Sqrt} `{DatetimeParser} `{Quicksort}.
Import bitcoin_utils.

(** The rolling columns of a table that the transformation gives. *)
Lemma rolling_metrics_of_output (df out : frame) :
  transform_frame df = inr out ->
  exists prices avg vol,
    float_column out "price_usd" = inr prices /\
    float_column out "moving_avg_price" = inr avg /\
    float_column out "volatility_15m" = inr vol /\
    (forall i, (i < 6)%nat -> (i < length prices)%nat -> avg !! i = Some NaN) /\
    (forall i ps, (6 <= i)%nat ->
       slice (i - 6) i prices = Fin <$> ps -> length ps = 7%nat ->
       avg !! i = Some (Fin (arithmetic_mean ps))) /\
    (forall i, (i < 14)%nat -> (i < length prices)%nat -> vol !! i = Some NaN) /\
    (forall i ps, (14 <= i)%nat ->
       slice (i - 14) i prices = Fin <$> ps -> length ps = 15%nat ->
       vol !! i = Some (Fin (sample_std ps))) /\
    (forall i x, (14 <= i)%nat ->
       slice (i - 14) i prices = replicate 15 (Fin x) ->
       vol !! i = Some (Fin 0)) /\
    (forall i other, take (S i) other = take (S i) prices ->
       rolling 7 agg_mean other !! i = avg !! i /\
       rolling 15 agg_std other !! i = vol !! i).
Proof.
  intros Hrun.
  apply transform_frame_inr in Hrun as (c & ts & xs & Hc & Hts & Hp & ->).
  exists xs, (rolling 7 agg_mean xs), (rolling 15 agg_std xs).
  split; [by rewrite float_column_with_metrics_price|].
  split; [apply float_column_with_metrics_avg|].
  split; [apply float_column_with_metrics_vol|].
  split; [intros i Hi Hlt; apply rolling_partial; lia|].
  split.
  { intros i ps Hi Hslice Hlen.
    rewrite <- agg_mean_Fin by (by destruct ps).
    apply rolling_full; [lia|lia| |done].
    by replace (S i - 7)%nat with (i - 6)%nat by lia. }
  split; [intros i Hi Hlt; apply rolling_partial; lia|].
  split.
  { intros i ps Hi Hslice Hlen.
    rewrite <- agg_std_Fin by lia.
    apply rolling_full; [lia|lia| |done].
    by replace (S i - 15)%nat with (i - 14)%nat by lia. }
  split.
  { intros i x Hi Hslice.
    rewrite <- (sample_std_replicate 13 x).
    rewrite <- agg_std_Fin by (rewrite length_replicate; lia).
    apply rolling_full; [lia|lia| |apply length_replicate].
    replace (S i - 15)%nat with (i - 14)%nat by lia.
    by rewrite Hslice, fmap_replicate. }
  intros i other Htake. split; by apply rolling_take.
Qed.

(** C5.  The transformation of a table with a readable timestamp column
    and a numeric price column gives a table whose prices are those of
    the input in the order of the timestamps.  Its [moving_avg_price] is
    missing in rows 0..5 and is the arithmetic mean of [price[i-6..i]]
    from row 6 on; its [volatility_15m] is missing in rows 0..13 and is
    the sample standard deviation of [price[i-14..i]] from row 14 on,
    hence 0 where these fifteen prices are one number; both values of row
    [i] are those of any price column that agrees with this one up to
    row [i]. *)
Theorem rolling_metrics_correct (df : frame) (c : column)
    (ts : list (option Z)) (xs : list float) :
  getcol df "timestamp" = inr c -> to_datetime c = inr ts ->
  float_column df "price_usd" = inr xs ->
  exists out prices avg vol,
    transform_frame df = inr out /\
    prices = take_rows (nargsort ts) xs /\
    float_column out "price_usd" = inr prices /\
    float_column out "moving_avg_price" = inr avg /\
    float_column out "volatility_15m" = inr vol /\
    (forall i, (i < 6)%nat -> (i < length prices)%nat -> avg !! i = Some NaN) /\
    (forall i ps, (6 <= i)%nat ->
       slice (i - 6) i prices = Fin <$> ps -> length ps = 7%nat ->
       avg !! i = Some (Fin (arithmetic_mean ps))) /\
    (forall i, (i < 14)%nat -> (i < length prices)%nat -> vol !! i = Some NaN) /\
    (forall i ps, (14 <= i)%nat ->
       slice (i - 14) i prices = Fin <$> ps -> length ps = 15%nat ->
       vol !! i = Some (Fin (sample_std ps))) /\
    (forall i x, (14 <= i)%nat ->
       slice (i - 14) i prices = replicate 15 (Fin x) ->
       vol !! i = Some (Fin 0)) /\
    (forall i other, take (S i) other = take (S i) prices ->
       rolling 7 agg_mean other !! i = avg !! i /\
       rolling 15 agg_std other !! i = vol !! i).
Proof.
  intros Hc Hts Hp.
  pose proof (transform_frame_total df c ts xs Hc Hts Hp) as Hrun.
  destruct (rolling_metrics_of_output df _ Hrun)
    as (prices & avg & vol & Hprices & Hrest).
  exists (with_metrics (sorted_frame df ts) (take_rows (nargsort ts) xs)),
    prices, avg, vol.
  split; [done|]. split; [|by split].
  rewrite float_column_with_metrics_price in Hprices.
  rewrite (float_column_sorted_price df ts xs Hp) in Hprices. by injection Hprices.
Qed.

End MetricsWindows.

(** ** Failures of the transformation *)

Section TransformEffects.
Context `{Sqrt} `{DatetimeParser} `{Quicksort}.
Import bitcoin_utils.

(** In a table of [n] rows, sorting does not make a column numeric. *)
Lemma float_column_sorted_price_inv n df ts xs :
  rectangular n df -> length ts = n ->
  float_column (sorted_frame df ts) "price_usd" = inr xs ->
  exists xs0, float_column df "price_usd" = inr xs0.
Proof.
  unfold float_column, sorted_frame. intros Hdf Hn Hp.
  apply bind_inr in Hp as (c & Hc & Hp).
  rewrite getcol_take_frame, getcol_setcol_ne in Hc by done.
  destruct (getcol df "price_usd") as [e|c0] eqn:Hc0; [done|].
  injection Hc as <-. simpl.
  destruct c0 as [ys| |[|o os]]; simpl in *; try done; eauto.
  exfalso.
  pose proof (rectangular_getcol n _ _ _ Hdf Hc0) as Hlen. simpl in Hlen.
  assert (Hrows : length (take_rows (nargsort ts) (o :: os)) = length ts).
  { rewrite length_take_rows, length_nargsort; [done|].
    simpl. rewrite Hlen, <- Hn. apply nargsort_lt. }
  destruct (take_rows (nargsort ts) (o :: os)) eqn:Htake; [|done].
  simpl in Hrows. lia.
Qed.

Lemma transform_body_inr input_file output_file w df out :
  files w !! input_file = Some (Csv df) -> df <> [] ->
  transform_frame df = inr out ->
  transform_body input_file output_file w
  = (inr (), {| files := <[output_file := Csv out]> (files w);
                stdout := stdout w ++ [Line ("Transformed data saved to " +:+ output_file)] |}).
Proof.
  intros Hfile Hne Hrun.
  unfold transform_body, mbind, IO_bind, read_csv, lift, to_csv, print.
  rewrite Hfile. destruct df as [|col df]; [done|]. by rewrite Hrun.
Qed.

(** A step of the body that raises does so before anything is written or
    printed. *)
Lemma transform_body_inl input_file output_file w e w' :
  transform_body input_file output_file w = (inl e, w') -> w' = w.
Proof.
  unfold transform_body, mbind, IO_bind, read_csv, lift, to_csv, print.
  destruct (files w !! input_file) as [[[|col df]|fig]|]; try by intros [= _ <-].
  destruct (transform_frame (col :: df)); by intros [= <-].
Qed.

(** C6, as the code has it.  The transformation of a table of [n] rows
    succeeds exactly when the table has a [timestamp] column that
    [pd.to_datetime] reads and a numeric [price_usd] column, whatever
    [n], zero included; in the table it gives, a window that is not yet
    full holds a missing value; and [transform_bitcoin_data] writes that
    table to the output file and prints one line. *)
Theorem transform_frame_succeeds_iff (df : frame) (n : nat) :
  rectangular n df ->
  ((exists out, transform_frame df = inr out) <->
   (exists c ts xs,
      getcol df "timestamp" = inr c /\ to_datetime c = inr ts /\
      float_column df "price_usd" = inr xs)) /\
  (forall out, transform_frame df = inr out ->
   (exists prices avg vol,
      float_column out "price_usd" = inr prices /\
      float_column out "moving_avg_price" = inr avg /\
      float_column out "volatility_15m" = inr vol /\
      (forall i, (i < 6)%nat -> (i < length prices)%nat -> avg !! i = Some NaN) /\
      (forall i, (i < 14)%nat -> (i < length prices)%nat -> vol !! i = Some NaN)) /\
   (forall input_file output_file w,
      files w !! input_file = Some (Csv df) -> df <> [] ->
      transform_bitcoin_data input_file output_file w
      = (inr (),
         {| files := <[output_file := Csv out]> (files w);
            stdout := stdout w
                      ++ [Line ("Transformed data saved to " +:+ output_file)] |}))).
Proof.
  intros Hdf. split; [split|].
  - intros [out Hrun].
    apply transform_frame_inr in Hrun as (c & ts & xs & Hc & Hts & Hp & _).
    assert (Hn : length ts = n).
    { rewrite (length_to_datetime _ _ Hts). by apply (rectangular_getcol n df "timestamp"). }
    destruct (float_column_sorted_price_inv n df ts xs Hdf Hn Hp) as [xs0 Hxs0].
    by exists c, ts, xs0.
  - intros (c & ts & xs & Hc & Hts & Hp).
    destruct (transform_frame df) as [e|out] eqn:Hrun; [exfalso|by eauto].
    apply transform_frame_inl in Hrun
      as [Hc'|[(c' & Hc' & Hts')|(c' & ts' & Hc' & Hts' & Hrun)]].
    + congruence.
    + congruence.
    + assert (c' = c) as -> by congruence.
      assert (ts' = ts) as -> by congruence.
      by rewrite (float_column_sorted_price _ _ _ Hp) in Hrun.
  - intros out Hrun. split.
    + apply transform_frame_inr in Hrun as (c & ts & xs & Hc & Hts & Hp & ->).
      exists xs, (rolling 7 agg_mean xs), (rolling 15 agg_std xs).
      split; [by rewrite float_column_with_metrics_price|].
      split; [apply float_column_with_metrics_avg|].
      split; [apply float_column_with_metrics_vol|].
      split; intros i Hi Hlt; apply rolling_partial; lia.
    + intros input_file output_file w Hfile Hne.
      unfold transform_bitcoin_data, try_except.
      by rewrite (transform_body_inr _ _ _ _ _ Hfile Hne Hrun).
Qed.

(** C10.  When a step of the transformation raises, whichever it is,
    [transform_bitcoin_data] returns normally; it reports the exception
    on the output and leaves every file, the output file among them, as
    it was. *)
Theorem transform_failure_keeps_files (input_file output_file : string)
    (w : world) (e : exn) :
  (transform_body input_file output_file w).1 = inl e ->
  transform_bitcoin_data input_file output_file w
  = (inr (), {| files := files w;
                stdout := stdout w ++ [ErrorLine "Error during transformation: " e] |}).
Proof.
  intros Hfail. unfold transform_bitcoin_data, try_except.
  destruct (transform_body input_file output_file w) as [[e'|u] w'] eqn:Hbody;
    simpl in Hfail; [|done].
  injection Hfail as ->. by rewrite (transform_body_inl _ _ _ _ _ Hbody).
Qed.

(** Whatever the files hold, [transform_bitcoin_data] raises nothing. *)
Lemma transform_bitcoin_data_returns input_file output_file w :
  (transform_bitcoin_data input_file output_file w).1 = inr ().
Proof.
  unfold transform_bitcoin_data, try_except.
  by destruct (transform_body input_file output_file w) as [[e|[]] w'].
Qed.

End TransformEffects.

(** ** The order of the rows *)

Section RowOrder.
Context `{Sqrt} `{DatetimeParser} `{Quicksort}.
Import bitcoin_utils.

Lemma nargsort_sorted ts : StronglySorted na_last_le (take_rows (nargsort ts) ts).
Proof.
  rewrite take_rows_nargsort. apply StronglySorted_app_2.
  - intros a b _ Hb. apply elem_of_replicate in Hb as [-> _]. by destruct a.
  - apply (StronglySorted_fmap _ Z.le); [by intros x y|].
    apply Sorted_StronglySorted; [apply _|]. apply argsort_sorted.
  - generalize (length ts - length (omap id ts))%nat. intros k.
    induction k as [|k IH]; simpl; constructor; [done|].
    apply Forall_forall. intros y Hy. by apply elem_of_replicate in Hy as [-> _].
Qed.

Lemma getcol_with_metrics_other sorted xs name :
  name <> "price_change_pct" -> name <> "moving_avg_price" -> name <> "volatility_15m" ->
  getcol (with_metrics sorted xs) name = getcol sorted name.
Proof. intros. unfold with_metrics. by rewrite !getcol_setcol_ne by done. Qed.

(** The rows of a table that the transformation gives. *)
Lemma sorted_rows_of_output (df out : frame) :
  transform_frame df = inr out ->
  exists c ts idx,
    getcol df "timestamp" = inr c /\ to_datetime c = inr ts /\
    idx ≡ₚ seq 0 (length ts) /\
    getcol out "timestamp" = inr (Datetime64 (take_rows idx ts)) /\
    StronglySorted na_last_le (take_rows idx ts) /\
    forall name col,
      name <> "timestamp" -> name <> "price_change_pct" ->
      name <> "moving_avg_price" -> name <> "volatility_15m" ->
      getcol df name = inr col ->
      getcol out name = inr (take_column idx col).
Proof.
  intros Hrun.
  apply transform_frame_inr in Hrun as (c & ts & xs & Hc & Hts & Hp & ->).
  exists c, ts, (nargsort ts).
  split; [done|]. split; [done|]. split; [apply nargsort_Permutation|].
  split; [by rewrite getcol_with_metrics_timestamp, getcol_sorted_timestamp|].
  split; [apply nargsort_sorted|].
  intros name col ? ? ? ? Hcol.
  rewrite getcol_with_metrics_other by done. unfold sorted_frame.
  by rewrite getcol_take_frame, getcol_setcol_ne, Hcol.
Qed.


End RowOrder.


(** ** Runs in [IO] *)

Lemma IO_bind_inr {A B} (m : IO A) (f : A -> IO B) w y w' :
  (m ≫= f) w = (inr y, w') <->
  exists x w1, m w = (inr x, w1) /\ f x w1 = (inr y, w').
Proof.
  unfold mbind, IO_bind. destruct (m w) as [[e|x] w1]; split.
  - done.
  - by intros (x & w2 & [= ] & _).
  - eauto.
  - by intros (x' & w2 & [= -> ->] & ?).
Qed.

Lemma IO_bind_inl {A B} (m : IO A) (f : A -> IO B) w e w' :
  (m ≫= f) w = (inl e, w') <->
  m w = (inl e, w') \/ exists x w1, m w = (inr x, w1) /\ f x w1 = (inl e, w').
Proof.
  unfold mbind, IO_bind. destruct (m w) as [[e0|x] w1]; split.
  - intros Heq. injection Heq as -> ->. by left.
  - intros [Heq|(x & w2 & Heq & _)]; [by injection Heq as -> ->|discriminate Heq].
  - intros Heq. right. eauto.
  - intros [Heq|(x' & w2 & Heq & Hf)]; [discriminate Heq|].
    injection Heq as -> ->. done.
Qed.

Lemma lift_inr {A} (r : result A) w x w' :
  lift r w = (inr x, w') <-> r = inr x /\ w' = w.
Proof. unfold lift. split; [by intros [= -> ->]|by intros [-> ->]]. Qed.

Lemma lift_inl {A} (r : result A) w e w' :
  lift r w = (inl e, w') <-> r = inl e /\ w' = w.
Proof. unfold lift. split; [by intros [= -> ->]|by intros [-> ->]]. Qed.

(** ** Dates *)

Lemma filter_Forall {A} (P : A -> Prop) `{!forall x, Decision (P x)} (l : list A) :
  Forall P l -> filter P l = l.
Proof.
  induction 1 as [|x l Hx _ IH]; [done|].
  by rewrite filter_cons_True, IH.
Qed.

Lemma max_instant_Some l m :
  max_instant l = Some m -> m ∈ l /\ forall x, x ∈ l -> x <= m.
Proof.
  revert m. induction l as [|x l IH]; intros m; simpl; [done|].
  intros [= <-]. destruct (max_instant l) as [m'|] eqn:Hl; simpl.
  - destruct (IH m' eq_refl) as [Hin Hle]. split.
    + destruct (Z.max_spec x m') as [[_ ->]|[_ ->]]; [by right|by left].
    + intros y Hy. apply elem_of_cons in Hy as [->|Hy]; [lia|].
      specialize (Hle y Hy). lia.
  - split; [by left|]. intros y Hy. apply elem_of_cons in Hy as [->|Hy]; [lia|].
    destruct l; [by apply elem_of_nil in Hy|done].
Qed.

Lemma min_instant_Some l m :
  min_instant l = Some m -> m ∈ l /\ forall x, x ∈ l -> m <= x.
Proof.
  revert m. induction l as [|x l IH]; intros m; simpl; [done|].
  intros [= <-]. destruct (min_instant l) as [m'|] eqn:Hl; simpl.
  - destruct (IH m' eq_refl) as [Hin Hle]. split.
    + destruct (Z.min_spec x m') as [[_ ->]|[_ ->]]; [by left|by right].
    + intros y Hy. apply elem_of_cons in Hy as [->|Hy]; [lia|].
      specialize (Hle y Hy). lia.
  - split; [by left|]. intros y Hy. apply elem_of_cons in Hy as [->|Hy]; [lia|].
    destruct l; [by apply elem_of_nil in Hy|done].
Qed.

Lemma elem_of_unique l x : x ∈ unique l <-> x ∈ l.
Proof.
  induction l as [|y l IH]; simpl; [done|].
  rewrite !elem_of_cons, list_elem_of_filter, IH.
  destruct (decide (x = y)); tauto.
Qed.

Lemma NoDup_unique l : NoDup (unique l).
Proof.
  induction l as [|y l IH]; simpl; constructor.
  - rewrite list_elem_of_filter. tauto.
  - by apply NoDup_filter.
Qed.

(** The dates after [start] among [start, start + freq, ...] are all but
    the first, for a positive step. *)
Lemma future_dates start periods freq :
  0 < freq ->
  take periods (filter (fun d => start < d) (date_range_periods start (S periods) freq))
  = (fun k => start + Z.of_nat k * freq) <$> seq 1 periods.
Proof.
  intros Hfreq. unfold date_range_periods.
  change (seq 0 (S periods)) with (0%nat :: seq 1 periods).
  rewrite fmap_cons, filter_cons_False by (simpl; lia).
  rewrite filter_Forall.
  - apply take_ge. by rewrite length_fmap, length_seq.
  - apply Forall_fmap, Forall_forall. intros k Hk. apply elem_of_seq in Hk. simpl. nia.
Qed.

(** Takes the first step of a successful run apart, when it is a
    [lift]ed one. *)
Tactic Notation "inv_lift" hyp(H) "as" ident(x) ident(Hx) :=
  let w1 := fresh "w" in
  apply IO_bind_inr in H as (x & w1 & Hx & H);
  apply lift_inr in Hx as [Hx ->].

(** ** The trend and seasonality forecast *)

Lemma traverse_present ds ds' :
  traverse bitcoin_example.present ds = inr ds' -> ds = Some <$> ds'.
Proof.
  revert ds'. induction ds as [|[t|] ds IH]; intros ds'; simpl; [by intros [= <-]| |done].
  destruct (traverse bitcoin_example.present ds) as [e|l]; [done|].
  intros [= <-]. by rewrite (IH l eq_refl).
Qed.

Section ProphetFacts.
Context `{Sqrt} `{DatetimeParser} `{Quicksort} `{Models}.
Import bitcoin_example.

Lemma history_dates_Permutation (u : list Z) : take_rows (argsort u) u ≡ₚ u.
Proof.
  rewrite (take_rows_Permutation _ _ _ (argsort_perm u)). by rewrite take_rows_seq.
Qed.

Lemma make_future_dataframe_inr ds periods freq future :
  0 < freq ->
  make_future_dataframe ds periods freq = inr future ->
  exists history last,
    future = history ++ ((fun k => last + Z.of_nat k * freq) <$> seq 1 periods) /\
    history ≡ₚ unique ds /\
    Sorted Z.le history /\
    last ∈ ds /\ (forall t, t ∈ ds -> t <= last).
Proof.
  intros Hfreq. unfold make_future_dataframe. cbv zeta.
  set (history := take_rows (argsort (unique ds)) (unique ds)).
  assert (Hperm : history ≡ₚ unique ds) by apply history_dates_Permutation.
  destruct (max_instant history) as [last|] eqn:Hmax; [|done].
  intros [= <-]. exists history, last.
  rewrite (future_dates _ _ _ Hfreq).
  apply max_instant_Some in Hmax as [Hin Hle].
  split; [done|]. split; [done|]. split; [apply argsort_sorted|].
  split.
  - rewrite Hperm, elem_of_unique in Hin. exact Hin.
  - intros t Ht. apply Hle. rewrite Hperm, elem_of_unique. exact Ht.
Qed.

Lemma getcol_terms_skip (terms : list (string * list float)) rest name :
  name ∉ terms.*1 ->
  getcol ((prod_map id Float64 <$> terms) ++ rest) name = getcol rest name.
Proof.
  induction terms as [|[n c] terms IH]; [done|].
  rewrite fmap_cons, not_elem_of_cons. simpl. intros [Hne Hnot].
  destruct (decide (n = name)) as [Heq|_]; [by symmetry in Heq|]. by apply IH.
Qed.

Lemma getcol_predict_ds m future :
  getcol (predict m future) "ds" = inr (Datetime64 (Some <$> future)).
Proof. reflexivity. Qed.

Lemma float_column_predict_yhat m future :
  float_column (predict m future) "yhat" = inr (prophet_yhat m <$> future).
Proof.
  unfold float_column, predict. simpl.
  rewrite getcol_terms_skip; [done|].
  intros Hin. apply prophet_terms_names in Hin. apply Hin.
  right. left.
Qed.

Lemma columns_predict m future :
  "ds" ∈ columns (predict m future) /\ "yhat" ∈ columns (predict m future).
Proof.
  unfold columns, predict. split; [left|].
  apply (list_elem_of_fmap_2 fst _ ("yhat", Float64 (prophet_yhat m <$> future))).
  right. apply elem_of_app. right. left.
Qed.

Lemma run_prophet_forecast_inr df periods freq w forecast w' :
  run_prophet_forecast df periods freq w = (inr forecast, w') ->
  exists c ts ds m future,
    getcol df "timestamp" = inr c /\ to_datetime c = inr ts /\
    ts = Some <$> ds /\
    make_future_dataframe ds periods freq = inr future /\
    forecast = forecast_table m future /\
    w' = {| files := <["forecast_prophet.csv" := Csv forecast]> (files w);
            stdout := stdout w
                      ++ [Line "Saved Prophet forecast to forecast_prophet.csv";
                          Line "→ Prophet step complete"] |}.
Proof.
  unfold run_prophet_forecast. intros Hrun.
  inv_lift Hrun as c Hc. inv_lift Hrun as y Hy. inv_lift Hrun as ts Hts.
  inv_lift Hrun as m Hm. inv_lift Hrun as ds Hds. inv_lift Hrun as future Hfuture.
  rewrite float_column_predict_yhat in Hrun.
  inv_lift Hrun as yhat Hyhat. injection Hyhat as <-.
  rewrite float_column_setcol_ne, float_column_predict_yhat in Hrun by done.
  inv_lift Hrun as yhat Hyhat. injection Hyhat as <-.
  fold (forecast_table m future) in Hrun.
  unfold mbind, IO_bind, to_csv, print, mret, IO_ret in Hrun. simpl in Hrun.
  injection Hrun as <- <-.
  exists c, ts, ds, m, future.
  split; [done|]. split; [done|]. split; [by apply traverse_present|].
  split; [done|]. split; [done|].
  by rewrite <- app_assoc.
Qed.

End ProphetFacts.

Section ProphetForecast.
Context `{Sqrt} `{DatetimeParser} `{Quicksort} `{Models}.
Import bitcoin_example.

Lemma columns_forecast_table m future name :
  name ∈ ["ds"; "yhat"; "moving_avg_price"; "volatility_15m"] ->
  name ∈ columns (forecast_table m future).
Proof.
  intros Hname. unfold forecast_table. cbv zeta.
  rewrite !elem_of_columns_setcol.
  destruct (columns_predict m future) as [Hds Hyhat].
  repeat (apply elem_of_cons in Hname as [->|Hname]); auto.
  by apply elem_of_nil in Hname.
Qed.

(** The table of a run of [run_prophet_forecast] that succeeds. *)
Lemma prophet_forecast_rows_of_run (df : frame) (periods : nat) (w w' : world)
    (forecast : frame) :
  run_prophet_forecast df periods minute w = (inr forecast, w') ->
  files w' !! "forecast_prophet.csv" = Some (Csv forecast) /\
  (forall name,
     name ∈ ["ds"; "yhat"; "moving_avg_price"; "volatility_15m"] ->
     name ∈ columns forecast) /\
  exists ts last history future yhat,
    getcol df "timestamp" ≫= to_datetime = inr (Some <$> ts) /\
    last ∈ ts /\ (forall t, t ∈ ts -> t <= last) /\
    getcol forecast "ds" = inr (Datetime64 (Some <$> (history ++ future))) /\
    history ≡ₚ unique ts /\
    (forall t, t ∈ history -> t <= last) /\
    length future = periods /\
    (forall k, (k < periods)%nat ->
       future !! k = Some (last + (Z.of_nat k + 1) * minute)) /\
    float_column forecast "yhat" = inr yhat /\
    length yhat = (length history + periods)%nat /\
    float_column forecast "moving_avg_price" = inr (rolling 7 agg_mean yhat) /\
    float_column forecast "volatility_15m" = inr (rolling 15 agg_std yhat).
Proof.
  intros Hrun.
  apply run_prophet_forecast_inr in Hrun
    as (c & ts0 & ts & m & fut & Hc & Hts & -> & Hfut & -> & ->).
  apply make_future_dataframe_inr in Hfut
    as (history & last & -> & Hperm & _ & Hlast & Hle); [|done].
  split; [simpl; apply lookup_insert_eq|].
  split; [apply columns_forecast_table|].
  set (future := (fun k => last + Z.of_nat k * minute) <$> seq 1 periods).
  exists ts, last, history, future, (prophet_yhat m <$> history ++ future).
  split; [by rewrite Hc|]. split; [done|]. split; [done|].
  split.
  { unfold forecast_table. cbv zeta. by rewrite !getcol_setcol_ne by done. }
  split; [done|].
  split.
  { intros t Ht. apply Hle. rewrite Hperm in Ht. by rewrite elem_of_unique in Ht. }
  split; [unfold future; by rewrite length_fmap, length_seq|].
  split.
  { intros k Hk. unfold future.
    rewrite list_lookup_fmap, lookup_seq_lt by done. simpl. f_equal. lia. }
  split.
  { unfold forecast_table. cbv zeta.
    rewrite !float_column_setcol_ne by done. apply float_column_predict_yhat. }
  split.
  { unfold future. by rewrite length_fmap, length_app, length_fmap, length_seq. }
  split.
  { unfold forecast_table. cbv zeta.
    rewrite float_column_setcol_ne by done. apply float_column_setcol_eq. }
  unfold forecast_table. cbv zeta. apply float_column_setcol_eq.
Qed.

Lemma max_instant_None l : max_instant l = None -> l = [].
Proof. by destruct l. Qed.

Lemma traverse_present_Some ts : traverse present (Some <$> ts) = inr ts.
Proof. induction ts as [|t ts IH]; [done|]. rewrite fmap_cons. simpl. by rewrite IH. Qed.

(** With timestamps that are all present, at least one, and a fit that
    succeeds, [run_prophet_forecast] succeeds. *)
Lemma run_prophet_forecast_total df periods freq w c y ts m :
  getcol df "timestamp" = inr c -> getcol df "price_usd" = inr y ->
  to_datetime c = inr (Some <$> ts) -> ts <> [] ->
  prophet_fit (Some <$> ts) y = inr m ->
  exists forecast w', run_prophet_forecast df periods freq w = (inr forecast, w').
Proof.
  intros Hc Hy Hts Hne Hfit.
  destruct (make_future_dataframe ts periods freq) as [e|future] eqn:Hfuture.
  { exfalso. unfold make_future_dataframe in Hfuture. cbv zeta in Hfuture.
    destruct (max_instant (take_rows (argsort (unique ts)) (unique ts)))
      as [last|] eqn:Hmax; [done|].
    apply max_instant_None in Hmax.
    pose proof (history_dates_Permutation (unique ts)) as Hperm.
    rewrite Hmax in Hperm. apply Permutation_nil in Hperm.
    destruct ts as [|t ts]; [done|]. simpl in Hperm. done. }
  exists (forecast_table m future). eexists.
  unfold run_prophet_forecast, mbind, IO_bind, lift.
  rewrite Hc, Hy, Hts, Hfit, traverse_present_Some, Hfuture.
  rewrite float_column_predict_yhat.
  rewrite float_column_setcol_ne, float_column_predict_yhat by done.
  unfold to_csv, print, mret, IO_ret. simpl. reflexivity.
Qed.

(** C2.  For a table whose timestamps [ts] are all present, at least
    one, and a fit that succeeds, [run_prophet_forecast] with the
    one-minute step returns a table and writes it to forecast_prophet.csv.
    The table has the columns ds, yhat, moving_avg_price and
    volatility_15m; its dates are those of the history, none after the
    last historical timestamp, followed by exactly [periods] dates which
    are the last historical timestamp plus 1, 2, ..., [periods] minutes;
    the two rolling columns are computed from yhat. *)
Theorem prophet_forecast_rows (df : frame) (periods : nat) (w : world)
    (c y : column) (ts : list Z) (m : prophet) :
  getcol df "timestamp" = inr c -> getcol df "price_usd" = inr y ->
  to_datetime c = inr (Some <$> ts) -> ts <> [] ->
  prophet_fit (Some <$> ts) y = inr m ->
  exists forecast w' last history future yhat,
    run_prophet_forecast df periods minute w = (inr forecast, w') /\
    files w' !! "forecast_prophet.csv" = Some (Csv forecast) /\
    (forall name,
       name ∈ ["ds"; "yhat"; "moving_avg_price"; "volatility_15m"] ->
       name ∈ columns forecast) /\
    last ∈ ts /\ (forall t, t ∈ ts -> t <= last) /\
    getcol forecast "ds" = inr (Datetime64 (Some <$> (history ++ future))) /\
    history ≡ₚ unique ts /\
    (forall t, t ∈ history -> t <= last) /\
    length future = periods /\
    (forall k, (k < periods)%nat ->
       future !! k = Some (last + (Z.of_nat k + 1) * minute)) /\
    float_column forecast "yhat" = inr yhat /\
    length yhat = (length history + periods)%nat /\
    float_column forecast "moving_avg_price" = inr (rolling 7 agg_mean yhat) /\
    float_column forecast "volatility_15m" = inr (rolling 15 agg_std yhat).
Proof.
  intros Hc Hy Hts Hne Hfit.
  destruct (run_prophet_forecast_total df periods minute w c y ts m Hc Hy Hts Hne Hfit)
    as (forecast & w' & Hrun).
  destruct (prophet_forecast_rows_of_run df periods w w' forecast Hrun)
    as (Hfile & Hcols & ts' & last & history & future & yhat & Hts' & Hrest).
  rewrite Hc in Hts'. simpl in Hts'. rewrite Hts in Hts'.
  injection Hts' as Hts'. apply (inj (fmap Some)) in Hts'. subst ts'.
  exists forecast, w', last, history, future, yhat. by repeat (split; [done|]).
Qed.

End ProphetForecast.

(** ** The seasonal autoregressive forecast *)

Section SarimaForecast.
Context `{Sqrt} `{DatetimeParser} `{Quicksort} `{Models}.
Import bitcoin_example.

(** The table of a run of [run_sarima_forecast] that succeeds. *)
Lemma sarima_forecast_rows_of_run (df : frame) (steps : nat) (w w' : world)
    (table : frame) :
  run_sarima_forecast df steps w = (inr table, w') ->
  files w' !! "forecast_sarima.csv" = Some (Csv table) /\
  exists y ds yhat,
    getcol df "price_usd" = inr y /\
    table = [("ds", Float64 ds); ("yhat_sarima", Float64 yhat)] /\
    length ds = steps /\ length yhat = steps /\
    forall k, (k < steps)%nat ->
      ds !! k = Some (lit (Z.of_nat (column_length y) + Z.of_nat k)).
Proof.
  unfold run_sarima_forecast. intros Hrun.
  inv_lift Hrun as y Hy. inv_lift Hrun as m Hm. inv_lift Hrun as yhat Hyhat.
  unfold mbind, IO_bind, to_csv, print, mret, IO_ret in Hrun. simpl in Hrun.
  injection Hrun as <- <-.
  pose proof (sarimax_forecast_length _ _ _ Hyhat) as Hlen.
  split; [simpl; apply lookup_insert_eq|].
  eexists y, _, yhat. split; [done|]. split; [done|].
  split; [by rewrite length_fmap, length_seq|]. split; [done|].
  intros k Hk. rewrite list_lookup_fmap, lookup_seq_lt by lia. simpl.
  by rewrite Nat2Z.inj_add.
Qed.

(** C3, as the code has it.  For a table with a price column of [n]
    rows, a fit that succeeds and a forecast of [steps] steps that
    succeeds, [run_sarima_forecast] returns a table and writes it to
    forecast_sarima.csv.  The table has the columns ds and yhat_sarima
    and exactly [steps] rows; its ds values are the row positions
    [n, n+1, ..., n+steps-1] that follow the [n] rows of the history:
    they ascend strictly and lie after the last historical position
    [n-1]. *)
Theorem sarima_forecast_rows (df : frame) (steps : nat) (w : world)
    (y : column) (m : sarimax) (predicted_mean : list float) :
  getcol df "price_usd" = inr y ->
  sarimax_fit y = inr m ->
  sarimax_forecast m steps = inr predicted_mean ->
  exists table w' ds,
    run_sarima_forecast df steps w = (inr table, w') /\
    files w' !! "forecast_sarima.csv" = Some (Csv table) /\
    table = [("ds", Float64 ds); ("yhat_sarima", Float64 predicted_mean)] /\
    length ds = steps /\ length predicted_mean = steps /\
    forall k, (k < steps)%nat ->
      ds !! k = Some (lit (Z.of_nat (column_length y) + Z.of_nat k)).
Proof.
  intros Hy Hm Hyhat.
  assert (Hrun : exists table w',
             run_sarima_forecast df steps w = (inr table, w') /\
             table.*2 !! 1%nat = Some (Float64 predicted_mean)).
  { eexists _, _. unfold run_sarima_forecast, mbind, IO_bind, lift.
    rewrite Hy, Hm, Hyhat. unfold to_csv, print, mret, IO_ret. simpl.
    split; reflexivity. }
  destruct Hrun as (table & w' & Hrun & Hcol).
  destruct (sarima_forecast_rows_of_run df steps w w' table Hrun)
    as (Hfile & y' & ds & yhat & Hy' & -> & Hds & Hlen & Hk).
  assert (y' = y) as -> by congruence.
  simpl in Hcol. injection Hcol as ->.
  by exists [("ds", Float64 ds); ("yhat_sarima", Float64 predicted_mean)], w', ds.
Qed.

End SarimaForecast.

(** ** Models for the examples *)

Lemma persistence_terms_names (m : Qc) (ds : list Z) name :
  name ∈ (persistence_terms m ds).*1 ->
  name ∉ ["ds"; "yhat"; "moving_avg_price"; "volatility_15m"].
Proof.
  simpl. intros Hin. apply list_elem_of_singleton in Hin as ->.
  rewrite !not_elem_of_cons. repeat split; try done. apply not_elem_of_nil.
Qed.

Lemma length_replicate_forecast (m : Qc) (steps : nat) (ys : list float) :
  (inr (replicate steps (Fin m)) : result (list float)) = inr ys -> length ys = steps.
Proof. intros [= <-]. apply length_replicate. Qed.

(** Models that forecast the last observation for every date, and take
    the observed series as its own trend. *)
Definition persistence : Models :=
  {| prophet := Qc;
     prophet_fit := fun _ y => last_observation y;
     prophet_yhat := fun m _ => Fin m;
     prophet_terms := persistence_terms;
     prophet_terms_names := persistence_terms_names;
     sarimax := Qc;
     sarimax_fit := last_observation;
     sarimax_forecast := fun m steps => inr (replicate steps (Fin m));
     sarimax_forecast_length := length_replicate_forecast;
     decompose_additive := fun x _ =>
       (x, (fun _ => lit 0) <$> x, (fun _ => lit 0) <$> x) |}.

(** The same models with a Prophet whose optimizer does not converge. *)
Definition prophet_diverges : Models :=
  {| prophet := Qc;
     prophet_fit := fun _ _ => inl (ModelFitError "Prophet");
     prophet_yhat := fun m _ => Fin m;
     prophet_terms := persistence_terms;
     prophet_terms_names := persistence_terms_names;
     sarimax := Qc;
     sarimax_fit := last_observation;
     sarimax_forecast := fun m steps => inr (replicate steps (Fin m));
     sarimax_forecast_length := length_replicate_forecast;
     decompose_additive := fun x _ =>
       (x, (fun _ => lit 0) <$> x, (fun _ => lit 0) <$> x) |}.

(** ** Resampling *)

Lemma lookup_ffill_from_0 last x xs :
  ffill_from last (x :: xs) !! 0%nat = Some (if isna x then last else x).
Proof. reflexivity. Qed.

Lemma lookup_ffill_from_S last xs k x :
  xs !! S k = Some x ->
  exists prev,
    ffill_from last xs !! k = Some prev /\
    ffill_from last xs !! S k = Some (if isna x then prev else x).
Proof.
  revert last k. induction xs as [|y xs IH]; intros last k Hx; [done|].
  destruct k as [|k]; simpl in *.
  - destruct xs as [|z xs]; [done|]. injection Hx as ->. simpl. eauto.
  - apply IH. exact Hx.
Qed.

Lemma length_date_range_periods start n freq :
  length (date_range_periods start n freq) = n.
Proof. unfold date_range_periods. by rewrite length_fmap, length_seq. Qed.

Lemma lookup_date_range lo hi freq k t :
  0 < freq -> lo <= hi ->
  date_range lo hi freq !! k = Some t <-> t = lo + Z.of_nat k * freq /\ t <= hi.
Proof.
  intros Hfreq Hle. unfold date_range, date_range_periods.
  rewrite decide_False by lia. rewrite list_lookup_fmap.
  set (n := Z.to_nat ((hi - lo) / freq)).
  assert (Hn : Z.of_nat n = (hi - lo) / freq).
  { unfold n. rewrite Z2Nat.id; [done|]. apply Z.div_pos; lia. }
  pose proof (Z.mul_div_le (hi - lo) freq Hfreq) as Hlow.
  pose proof (Z.mul_succ_div_gt (hi - lo) freq Hfreq) as Hhigh.
  destruct (decide (k < S n)%nat) as [Hk|Hk].
  - rewrite lookup_seq_lt by done. simpl. split.
    + intros [= <-]. split; [done|]. nia.
    + intros [-> _]. done.
  - rewrite lookup_ge_None_2 by (rewrite length_seq; lia). simpl. split; [done|].
    intros [-> Hhi]. exfalso. nia.
Qed.

Lemma resample_inr s g :
  bitcoin_example.resample s = inr g ->
  exists g0, asfreq minute s = inr g0 /\ g.*1 = g0.*1 /\ g.*2 = ffill g0.*2.
Proof.
  unfold bitcoin_example.resample. intros Hrun.
  apply bind_inr in Hrun as (g0 & Hg0 & Hrun). injection Hrun as <-.
  exists g0. split; [done|].
  assert (Hlen : length g0.*1 = length (ffill g0.*2)).
  { unfold ffill. by rewrite length_ffill_from, !length_fmap. }
  split; [apply fst_zip; lia|apply snd_zip; lia].
Qed.

(** The grid of the resampled series and the value of each of its
    points. *)
Lemma resample_grid (s : list (option Z * float)) (g : list (Z * float)) :
  bitcoin_example.resample s = inr g ->
  (s = [] /\ g = []) \/
  exists lo hi,
    min_instant (omap fst s) = Some lo /\ max_instant (omap fst s) = Some hi /\
    NoDup s.*1 /\
    length g.*2 = length g.*1 /\
    (forall k t, g.*1 !! k = Some t <-> t = lo + Z.of_nat k * minute /\ t <= hi) /\
    g.*2 !! 0%nat = Some (at_label s lo) /\
    (forall k t prev,
       g.*1 !! S k = Some t -> g.*2 !! k = Some prev ->
       g.*2 !! S k = Some (if isna (at_label s t) then prev else at_label s t)).
Proof.
  intros Hrun. apply resample_inr in Hrun as (g0 & Hg0 & Hg1 & Hg2).
  unfold asfreq in Hg0. destruct s as [|p s]; [left|right].
  { injection Hg0 as <-. split; [done|]. by destruct g. }
  set (s' := p :: s) in *. cbv zeta in Hg0.
  destruct (min_instant (omap fst s')) as [lo|] eqn:Hmin; [|done].
  destruct (max_instant (omap fst s')) as [hi|] eqn:Hmax; [|done].
  destruct (decide (NoDup s'.*1)) as [Hdup|]; [|done].
  injection Hg0 as <-.
  assert (Hlohi : lo <= hi).
  { apply min_instant_Some in Hmin as [Hin Hlo].
    apply max_instant_Some in Hmax as [_ Hhi]. by apply Hhi. }
  assert (Hlabels : g.*1 = date_range lo hi minute).
  { rewrite Hg1, <- list_fmap_compose. apply list_fmap_id. }
  assert (Hvalues : g.*2 = ffill (at_label s' <$> date_range lo hi minute)).
  { by rewrite Hg2, <- list_fmap_compose. }
  exists lo, hi. split; [done|]. split; [done|]. split; [done|].
  split.
  { rewrite Hvalues, Hlabels. unfold ffill. by rewrite length_ffill_from, length_fmap. }
  split.
  { intros k t. rewrite Hlabels. by apply lookup_date_range. }
  assert (H0 : date_range lo hi minute !! 0%nat = Some lo).
  { apply lookup_date_range; [done|done|]. split; lia. }
  split.
  { rewrite Hvalues. destruct (date_range lo hi minute) as [|t0 grid]; [done|].
    injection H0 as ->. rewrite fmap_cons. unfold ffill.
    rewrite lookup_ffill_from_0. by destruct (at_label s' lo). }
  intros k t prev Ht Hprev. rewrite Hlabels in Ht. rewrite Hvalues in Hprev |- *.
  destruct (lookup_ffill_from_S NaN (at_label s' <$> date_range lo hi minute) k
              (at_label s' t)) as (prev' & Hprev' & HS).
  { by rewrite list_lookup_fmap, Ht. }
  unfold ffill in *. rewrite Hprev' in Hprev. injection Hprev as ->. exact HS.
Qed.

(** Two samples three minutes apart: the two whole minutes between them
    get the value of the earlier sample. *)
Lemma resample_three_minute_gap (t : Z) (a b : float) :
  isna a = false ->
  bitcoin_example.resample [(Some t, a); (Some (t + 3 * minute), b)]
  = inr [(t, a); (t + minute, a); (t + 2 * minute, a);
         (t + 3 * minute, if isna b then a else b)].
Proof.
  intros Ha. unfold bitcoin_example.resample, asfreq. cbv zeta.
  assert (Hmin : min_instant (omap fst [(Some t, a); (Some (t + 3 * minute), b)]) = Some t).
  { simpl. f_equal. unfold minute. lia. }
  assert (Hmax : max_instant (omap fst [(Some t, a); (Some (t + 3 * minute), b)])
                 = Some (t + 3 * minute)).
  { simpl. f_equal. unfold minute. lia. }
  rewrite Hmin, Hmax. rewrite decide_True.
  2:{ simpl. repeat constructor.
      - rewrite list_elem_of_singleton. intros [= Heq]. unfold minute in Heq. lia.
      - apply not_elem_of_nil. }
  assert (Hgrid : date_range t (t + 3 * minute) minute
                  = [t; t + minute; t + 2 * minute; t + 3 * minute]).
  { unfold date_range. rewrite decide_False by (unfold minute; lia).
    replace (t + 3 * minute - t) with (3 * minute) by lia.
    rewrite Z.div_mul by done. simpl. unfold date_range_periods. simpl.
    repeat f_equal; unfold minute; lia. }
  rewrite Hgrid. simpl.
  rewrite decide_True by done.
  rewrite !decide_False by (intros [= Heq]; unfold minute in Heq; lia).
  rewrite decide_True by done.
  unfold ffill. simpl. rewrite Ha. done.
Qed.

Lemma min_instant_None l : min_instant l = None -> l = [].
Proof. by destruct l. Qed.

(** A series with distinct labels, one of them an instant, is resampled. *)
Lemma resample_total (s : list (option Z * float)) :
  NoDup s.*1 -> (exists t, Some t ∈ s.*1) ->
  exists g, bitcoin_example.resample s = inr g.
Proof.
  intros Hdup [t Ht]. unfold bitcoin_example.resample, asfreq.
  destruct s as [|p s]; [by apply elem_of_nil in Ht|].
  assert (Hlabel : t ∈ omap fst (p :: s)).
  { apply list_elem_of_omap. apply list_elem_of_fmap in Ht as (q & Hq & Hin). eauto. }
  destruct (min_instant (omap fst (p :: s))) as [lo|] eqn:Hmin.
  2:{ apply min_instant_None in Hmin. rewrite Hmin in Hlabel.
      by apply elem_of_nil in Hlabel. }
  destruct (max_instant (omap fst (p :: s))) as [hi|] eqn:Hmax.
  2:{ apply max_instant_None in Hmax. rewrite Hmax in Hlabel.
      by apply elem_of_nil in Hlabel. }
  rewrite decide_True by done. simpl. eauto.
Qed.

(** C7, as the code has it.  A series with distinct labels, one of them
    an instant, is resampled; the resampled series of a series without
    rows is empty.  Otherwise the labels of the series are distinct; the
    grid starts at the first instant of the series and holds every whole
    minute after it up to the last instant; the first point of the grid
    has the value of the sample taken at that instant; and every later
    point has the value of the sample taken exactly at its instant, or
    the value of the point before it when no sample, or a sample without
    value, was taken exactly then.  In particular two samples three
    minutes apart give two points between them, both with the value of
    the earlier sample. *)
Theorem resample_holds_grid_values :
  (forall s, NoDup s.*1 -> (exists t, Some t ∈ s.*1) ->
     exists g, bitcoin_example.resample s = inr g) /\
  (forall s g, bitcoin_example.resample s = inr g ->
     (s = [] /\ g = []) \/
     exists lo hi,
       min_instant (omap fst s) = Some lo /\ max_instant (omap fst s) = Some hi /\
       NoDup s.*1 /\
       length g.*2 = length g.*1 /\
       (forall k t, g.*1 !! k = Some t <-> t = lo + Z.of_nat k * minute /\ t <= hi) /\
       g.*2 !! 0%nat = Some (at_label s lo) /\
       (forall k t prev,
          g.*1 !! S k = Some t -> g.*2 !! k = Some prev ->
          g.*2 !! S k = Some (if isna (at_label s t) then prev else at_label s t))) /\
  (forall t a b,
     bitcoin_example.resample [(Some t, Fin a); (Some (t + 3 * minute), Fin b)]
     = inr [(t, Fin a); (t + minute, Fin a); (t + 2 * minute, Fin a);
            (t + 3 * minute, Fin b)]).
Proof.
  split; [exact resample_total|]. split; [exact resample_grid|].
  intros t a b. by rewrite resample_three_minute_gap.
Qed.

(** The point of 00:01 holds 100, the value of 00:00, while the last
    value observed by 00:01 is 200. *)
Lemma resample_drops_off_grid_samples :
  bitcoin_example.resample off_grid_samples
  = inr [(1704067200000000000, lit 100);
         (1704067260000000000, lit 100);
         (1704067320000000000, lit 300)] /\
  last_observed off_grid_samples 1704067260000000000 = lit 200.
Proof. split; reflexivity. Qed.

(** ** The decomposition *)

Section Decomposition.
Context `{Models}.
Import bitcoin_example.

Lemma run_seasonal_decompose_eq df period w s g :
  indexed_prices df = inr s -> resample s = inr g ->
  run_seasonal_decompose df period w
  = match seasonal_decompose g.*2 period with
    | inl e => (inl e, w)
    | inr r =>
        (inr (),
         {| files := <["seasonal_decompose.png" := Png (decompose_figure r)]> (files w);
            stdout := stdout w
                      ++ [Line "Saved seasonal decomposition plot to seasonal_decompose.png";
                          Line "→ Decompose step complete"] |})
    end.
Proof.
  intros Hs Hg. unfold run_seasonal_decompose, mbind, IO_bind, lift.
  rewrite Hs, Hg. destruct (seasonal_decompose g.*2 period) as [e|r]; [done|].
  unfold savefig, print. simpl. by rewrite <- app_assoc.
Qed.

(** A step that raises leaves the world as it was. *)
Lemma run_seasonal_decompose_inl df period w e w' :
  run_seasonal_decompose df period w = (inl e, w') -> w' = w.
Proof.
  unfold run_seasonal_decompose, mbind, IO_bind, lift.
  destruct (indexed_prices df) as [?|s]; [by intros [= _ <-]|].
  destruct (resample s) as [?|g]; [by intros [= _ <-]|].
  destruct (seasonal_decompose g.*2 period) as [?|r]; [by intros [= _ <-]|].
  done.
Qed.

(** C8.  For the resampled series [g] of the table: with fewer than
    [2 * period] points, [run_seasonal_decompose] raises a [ValueError]
    and writes nothing; with at least [2 * period] points, all of them
    numbers, it returns normally after writing to seasonal_decompose.png
    the figure of the decomposition of [g] into trend, seasonal part and
    residual. *)
Theorem decompose_needs_two_cycles (df : frame) (period : positive) (w : world)
    (s : list (option Z * float)) (g : list (Z * float)) :
  indexed_prices df = inr s -> resample s = inr g ->
  ((length g < 2 * Pos.to_nat period)%nat ->
   exists msg, run_seasonal_decompose df period w = (inl (ValueError msg), w)) /\
  ((2 * Pos.to_nat period <= length g)%nat -> forallb isfinite g.*2 = true ->
   exists t sn r,
     decompose_additive g.*2 period = (t, sn, r) /\
     run_seasonal_decompose df period w
     = (inr (),
        {| files :=
             <["seasonal_decompose.png" :=
                 Png {| plotted := {| observed := g.*2; trend := t;
                                      seasonal := sn; resid := r |};
                        size_inches := Some (10, 8); tight := true |}]> (files w);
           stdout := stdout w
                     ++ [Line "Saved seasonal decomposition plot to seasonal_decompose.png";
                         Line "→ Decompose step complete"] |})).
Proof.
  intros Hs Hg. rewrite (run_seasonal_decompose_eq _ _ _ _ _ Hs Hg).
  unfold seasonal_decompose. rewrite length_fmap. split.
  - intros Hshort. destruct (forallb isfinite g.*2); [|by eauto].
    rewrite decide_True by done. eauto.
  - intros Hlong ->. rewrite decide_False by lia.
    destruct (decompose_additive g.*2 period) as [[t sn] r]. by exists t, sn, r.
Qed.

End Decomposition.

(** ** The orchestration *)

(** Takes the first step of a run that raises apart, when it is a
    [lift]ed one: either it raised, in the world as it was, or it gave a
    value. *)
Ltac inv_lift_inl H :=
  let x := fresh "x" in
  let w1 := fresh "w" in
  let Hx := fresh "Hx" in
  apply IO_bind_inl in H as [H|(x & w1 & Hx & H)];
  [by apply lift_inl in H as [_ ->]|apply lift_inr in Hx as [Hx ->]].

Section Orchestration.
Context `{Sqrt} `{DatetimeParser} `{Quicksort} `{Models}.
Import bitcoin_example.

Lemma run_prophet_forecast_inl df periods freq w e w' :
  run_prophet_forecast df periods freq w = (inl e, w') -> w' = w.
Proof.
  unfold run_prophet_forecast. intros Hrun.
  do 8 inv_lift_inl Hrun.
  unfold mbind, IO_bind, to_csv, print, mret, IO_ret in Hrun. done.
Qed.

Lemma run_sarima_forecast_inl df steps w e w' :
  run_sarima_forecast df steps w = (inl e, w') -> w' = w.
Proof.
  unfold run_sarima_forecast. intros Hrun.
  do 3 inv_lift_inl Hrun.
  unfold mbind, IO_bind, to_csv, print, mret, IO_ret in Hrun. done.
Qed.

Lemma run_sarima_forecast_inr df steps w table w' :
  run_sarima_forecast df steps w = (inr table, w') ->
  w' = {| files := <["forecast_sarima.csv" := Csv table]> (files w);
          stdout := stdout w
                    ++ [Line "Saved SARIMA forecast to forecast_sarima.csv";
                        Line "→ SARIMA step complete"] |}.
Proof.
  unfold run_sarima_forecast. intros Hrun.
  inv_lift Hrun as y Hy. inv_lift Hrun as m Hm. inv_lift Hrun as yhat Hyhat.
  unfold mbind, IO_bind, to_csv, print, mret, IO_ret in Hrun. simpl in Hrun.
  injection Hrun as <- <-. by rewrite <- app_assoc.
Qed.

(** [main] after the table is loaded: the three steps in a row. *)
Lemma main_eq w df ts :
  files w !! "bitcoin_price_transformed_full.csv" = Some (Csv df) -> df <> [] ->
  getcol df "timestamp" ≫= to_datetime = inr ts ->
  main w
  = (let df := setcol df "timestamp" (Datetime64 ts) in
     _ ← run_prophet_forecast df 60 minute;
     _ ← run_sarima_forecast df 60;
     run_seasonal_decompose df 60) w.
Proof.
  intros Hfile Hne Hts. unfold main.
  unfold mbind at 1. unfold IO_bind at 1. unfold read_csv. rewrite Hfile.
  destruct df as [|col df]; [done|].
  unfold mbind at 1. unfold IO_bind at 1. unfold lift. by rewrite Hts.
Qed.

(** C1, as the code has it.  [main] runs the three steps one after the
    other over the loaded table and handles no exception.  A step that
    raises ends the run with its exception: the steps after it do not
    run, and the files are those that the steps before it wrote.  Only
    when the three steps succeed are the three artifacts written. *)
Theorem main_stops_at_first_failure (w : world) (df : frame)
    (ts : list (option Z)) :
  files w !! "bitcoin_price_transformed_full.csv" = Some (Csv df) -> df <> [] ->
  getcol df "timestamp" ≫= to_datetime = inr ts ->
  let loaded := setcol df "timestamp" (Datetime64 ts) in
  (forall e w1,
     run_prophet_forecast loaded 60 minute w = (inl e, w1) ->
     main w = (inl e, w)) /\
  (forall forecast w1 e w2,
     run_prophet_forecast loaded 60 minute w = (inr forecast, w1) ->
     run_sarima_forecast loaded 60 w1 = (inl e, w2) ->
     main w = (inl e, w1) /\
     files w1 = <["forecast_prophet.csv" := Csv forecast]> (files w)) /\
  (forall forecast w1 table w2 e w3,
     run_prophet_forecast loaded 60 minute w = (inr forecast, w1) ->
     run_sarima_forecast loaded 60 w1 = (inr table, w2) ->
     run_seasonal_decompose loaded 60 w2 = (inl e, w3) ->
     main w = (inl e, w2) /\
     files w2 = <["forecast_sarima.csv" := Csv table]>
                  (<["forecast_prophet.csv" := Csv forecast]> (files w))) /\
  (forall forecast w1 table w2 w3,
     run_prophet_forecast loaded 60 minute w = (inr forecast, w1) ->
     run_sarima_forecast loaded 60 w1 = (inr table, w2) ->
     run_seasonal_decompose loaded 60 w2 = (inr (), w3) ->
     main w = (inr (), w3) /\
     exists fig,
       files w3 = <["seasonal_decompose.png" := Png fig]>
                    (<["forecast_sarima.csv" := Csv table]>
                       (<["forecast_prophet.csv" := Csv forecast]> (files w)))).
Proof.
  intros Hfile Hne Hts loaded.
  rewrite (main_eq w df ts Hfile Hne Hts). fold loaded. cbv zeta.
  unfold mbind, IO_bind.
  split; [|split; [|split]].
  - intros e w1 Hp. rewrite Hp. by rewrite (run_prophet_forecast_inl _ _ _ _ _ _ Hp).
  - intros forecast w1 e w2 Hp Hs. rewrite Hp, Hs.
    rewrite (run_sarima_forecast_inl _ _ _ _ _ Hs). split; [done|].
    apply run_prophet_forecast_inr in Hp as (? & ? & ? & ? & ? & _ & _ & _ & _ & _ & ->).
    done.
  - intros forecast w1 table w2 e w3 Hp Hs Hd. rewrite Hp, Hs, Hd.
    rewrite (run_seasonal_decompose_inl _ _ _ _ _ Hd). split; [done|].
    apply run_sarima_forecast_inr in Hs as ->.
    apply run_prophet_forecast_inr in Hp as (? & ? & ? & ? & ? & _ & _ & _ & _ & _ & ->).
    done.
  - intros forecast w1 table w2 w3 Hp Hs Hd. rewrite Hp, Hs, Hd. split; [done|].
    apply run_sarima_forecast_inr in Hs as ->.
    apply run_prophet_forecast_inr in Hp as (? & ? & ? & ? & ? & _ & _ & _ & _ & _ & ->).
    unfold run_seasonal_decompose, mbind, IO_bind, lift in Hd.
    destruct (indexed_prices loaded) as [?|s]; [done|].
    destruct (resample s) as [?|g]; [done|].
    destruct (seasonal_decompose g.*2 60) as [?|r]; [done|].
    unfold savefig, print in Hd. simpl in Hd. injection Hd as <-. eauto.
Qed.

End Orchestration.

(** ** Examples *)

(** [main] with the Prophet that does not converge. *)
Definition main_diverging :=
  @bitcoin_example.main isqrt_Sqrt strptime_parser stable_sort prophet_diverges.

(** Over two hours of samples, with a Prophet fit that raises: the
    SARIMA step and the decomposition each succeed when run on their own,
    and [main] ends with Prophet's exception without writing any file. *)
Lemma prophet_failure_blocks_other_steps :
  (exists table w1,
     @bitcoin_example.run_sarima_forecast prophet_diverges two_hours 60 history_world
     = (inr table, w1) /\ is_Some (files w1 !! "forecast_sarima.csv")) /\
  (exists w2,
     @bitcoin_example.run_seasonal_decompose prophet_diverges two_hours 60 history_world
     = (inr (), w2) /\ is_Some (files w2 !! "seasonal_decompose.png")) /\
  (exists w3,
     main_diverging history_world = (inl (ModelFitError "Prophet"), w3) /\
     files w3 !! "forecast_prophet.csv" = None /\
     files w3 !! "forecast_sarima.csv" = None /\
     files w3 !! "seasonal_decompose.png" = None).
Proof.
  split; [|split].
  - eexists _, _. split; [vm_compute; reflexivity|]. vm_compute. eauto.
  - eexists. split; [vm_compute; reflexivity|]. vm_compute. eauto.
  - eexists. split; [vm_compute; reflexivity|]. vm_compute. done.
Qed.

(** The parameters of the examples: the integer square root, the text
    format of the ingestion, a stable sort, the persistence models. *)
Definition transform_frame0 : frame -> result frame :=
  @bitcoin_utils.transform_frame isqrt_Sqrt strptime_parser stable_sort.

Definition transform_body0 : string -> string -> IO unit :=
  @bitcoin_utils.transform_body isqrt_Sqrt strptime_parser stable_sort.

Definition transform_bitcoin_data0 : string -> string -> IO unit :=
  @bitcoin_utils.transform_bitcoin_data isqrt_Sqrt strptime_parser stable_sort.

Definition run_prophet_forecast0 : frame -> nat -> Z -> IO frame :=
  @bitcoin_example.run_prophet_forecast isqrt_Sqrt strptime_parser stable_sort persistence.

Definition main0 : IO unit :=
  @bitcoin_example.main isqrt_Sqrt strptime_parser stable_sort persistence.

(** The three rows, transformed. *)
Lemma price_change_pct_correct_witness :
  rectangular 3 three_rows /\
  exists c ts xs,
    getcol three_rows "timestamp" = inr c /\
    @to_datetime strptime_parser c = inr ts /\
    float_column three_rows "price_usd" = inr xs /\
    exists out prices pct,
      transform_frame0 three_rows = inr out /\
      rectangular 3 out /\
      prices = take_rows (@nargsort stable_sort ts) xs /\
      float_column out "price_usd" = inr prices /\
      float_column out "price_change_pct" = inr pct /\
      length prices = 3%nat /\ length pct = 3%nat /\
      (3%nat <> 0%nat -> pct !! 0%nat = Some (lit 0)) /\
      forall i a b,
        prices !! i = Some (Fin a) -> prices !! S i = Some (Fin b) -> a <> 0%Qc ->
        pct !! S i = Some (Fin ((b - a) / a * Qc_of_Z 100)%Qc).
Proof.
  split; [repeat constructor|]. eexists _, _, _.
  split; [reflexivity|]. split; [vm_compute; reflexivity|]. split; [reflexivity|].
  apply (@price_change_pct_correct isqrt_Sqrt strptime_parser stable_sort three_rows 3
           (Object [Some "2024-01-01 00:02:00"; Some "2024-01-01 00:00:00";
                    Some "2024-01-01 00:01:00"])).
  - repeat constructor.
  - reflexivity.
  - vm_compute. reflexivity.
  - reflexivity.
Defined.

(** The twenty rows, transformed. *)
Lemma rolling_metrics_correct_witness :
  exists c ts xs,
    getcol twenty_rows "timestamp" = inr c /\
    @to_datetime strptime_parser c = inr ts /\
    float_column twenty_rows "price_usd" = inr xs /\
    exists out prices avg vol,
      transform_frame0 twenty_rows = inr out /\
      prices = take_rows (@nargsort stable_sort ts) xs /\
      float_column out "price_usd" = inr prices /\
      float_column out "moving_avg_price" = inr avg /\
      float_column out "volatility_15m" = inr vol /\
      (forall i, (i < 6)%nat -> (i < length prices)%nat -> avg !! i = Some NaN) /\
      (forall i ps, (6 <= i)%nat ->
         slice (i - 6) i prices = Fin <$> ps -> length ps = 7%nat ->
         avg !! i = Some (Fin (arithmetic_mean ps))) /\
      (forall i, (i < 14)%nat -> (i < length prices)%nat -> vol !! i = Some NaN) /\
      (forall i ps, (14 <= i)%nat ->
         slice (i - 14) i prices = Fin <$> ps -> length ps = 15%nat ->
         vol !! i = Some (Fin (@sample_std isqrt_Sqrt ps))) /\
      (forall i x, (14 <= i)%nat ->
         slice (i - 14) i prices = replicate 15 (Fin x) ->
         vol !! i = Some (Fin 0)) /\
      (forall i other, take (S i) other = take (S i) prices ->
         rolling 7 agg_mean other !! i = avg !! i /\
         rolling 15 (@agg_std isqrt_Sqrt) other !! i = vol !! i).
Proof.
  eexists _, _, _.
  split; [reflexivity|]. split; [reflexivity|]. split; [reflexivity|].
  apply (@rolling_metrics_correct isqrt_Sqrt strptime_parser stable_sort twenty_rows
           (Datetime64 ((fun k => Some (1704067200000000000 + Z.of_nat k * minute))
                          <$> seq 0 20)));
    reflexivity.
Defined.

(** Row 6 of the twenty samples: the mean of 100.0, ..., 100.6 is 100.3. *)
Example moving_avg_row_6 :
  exists out avg,
    transform_frame0 twenty_rows = inr out /\
    float_column out "moving_avg_price" = inr avg /\
    avg !! 6%nat = Some (Fin (Q2Qc (Qmake 1003 10))).
Proof.
  eexists _, _. split; [vm_compute; reflexivity|]. split; [vm_compute; reflexivity|].
  vm_compute. do 2 f_equal. by apply Qc_is_canon.
Qed.

(** The table without rows is transformed like any other: nothing is
    raised, and the output file holds the header with the derived
    columns. *)
Lemma empty_series_is_transformed :
  rectangular 0 header_only /\
  exists out,
    transform_frame0 header_only = inr out /\
    rectangular 0 out /\
    transform_bitcoin_data0 "bitcoin_price_data.csv" "bitcoin_price_transformed.csv"
      (raw_world header_only)
    = (inr (),
       {| files := <["bitcoin_price_transformed.csv" := Csv out]>
                     (files (raw_world header_only));
          stdout := [Line "Transformed data saved to bitcoin_price_transformed.csv"] |}).
Proof.
  split; [repeat constructor|]. eexists.
  split; [vm_compute; reflexivity|]. split; [repeat constructor|].
  vm_compute. reflexivity.
Qed.

(** The table without rows. *)
Lemma transform_frame_succeeds_iff_witness :
  rectangular 0 header_only /\
  ((exists out, transform_frame0 header_only = inr out) <->
   (exists c ts xs,
      getcol header_only "timestamp" = inr c /\
      @to_datetime strptime_parser c = inr ts /\
      float_column header_only "price_usd" = inr xs)) /\
  (forall out, transform_frame0 header_only = inr out ->
   (exists prices avg vol,
      float_column out "price_usd" = inr prices /\
      float_column out "moving_avg_price" = inr avg /\
      float_column out "volatility_15m" = inr vol /\
      (forall i, (i < 6)%nat -> (i < length prices)%nat -> avg !! i = Some NaN) /\
      (forall i, (i < 14)%nat -> (i < length prices)%nat -> vol !! i = Some NaN)) /\
   (forall input_file output_file w,
      files w !! input_file = Some (Csv header_only) -> header_only <> [] ->
      transform_bitcoin_data0 input_file output_file w
      = (inr (),
         {| files := <[output_file := Csv out]> (files w);
            stdout := stdout w
                      ++ [Line ("Transformed data saved to " +:+ output_file)] |}))).
Proof.
  split; [repeat constructor|].
  apply (@transform_frame_succeeds_iff isqrt_Sqrt strptime_parser stable_sort header_only 0).
  repeat constructor.
Defined.


(** The input file absent, a timestamp that cannot be read, the price
    column missing: each time the exception is printed and the earlier
    output stays. *)
Lemma transform_failure_keeps_files_witness :
  let run := transform_bitcoin_data0 "bitcoin_price_data.csv" "bitcoin_price_transformed.csv" in
  let report w e :=
    (inr (), {| files := files w;
                stdout := stdout w ++ [ErrorLine "Error during transformation: " e] |})
    : result unit * world in
  run (with_earlier_output None)
  = report (with_earlier_output None) (FileNotFoundError "bitcoin_price_data.csv") /\
  run (with_earlier_output (Some bad_timestamp))
  = report (with_earlier_output (Some bad_timestamp))
      (ValueError "Unknown datetime string format") /\
  run (with_earlier_output (Some no_price))
  = report (with_earlier_output (Some no_price)) (KeyError "price_usd").
Proof.
  cbv zeta. split; [|split];
    apply (@transform_failure_keeps_files isqrt_Sqrt strptime_parser stable_sort);
    vm_compute; reflexivity.
Defined.

(** Two forecast minutes after three samples. *)
Lemma prophet_forecast_rows_witness :
  let ts := [1704067200000000000; 1704067260000000000; 1704067320000000000] in
  let y := Float64 [lit 100; lit 110; lit 103] in
  getcol three_minutes "timestamp" = inr (Datetime64 (Some <$> ts)) /\
  getcol three_minutes "price_usd" = inr y /\
  @to_datetime strptime_parser (Datetime64 (Some <$> ts)) = inr (Some <$> ts) /\
  ts <> [] /\
  @prophet_fit persistence (Some <$> ts) y = inr (Qc_of_Z 103) /\
  exists forecast w' last history future yhat,
    run_prophet_forecast0 three_minutes 2 minute no_files = (inr forecast, w') /\
    files w' !! "forecast_prophet.csv" = Some (Csv forecast) /\
    (forall name,
       name ∈ ["ds"; "yhat"; "moving_avg_price"; "volatility_15m"] ->
       name ∈ columns forecast) /\
    last ∈ ts /\ (forall t, t ∈ ts -> t <= last) /\
    getcol forecast "ds" = inr (Datetime64 (Some <$> (history ++ future))) /\
    history ≡ₚ unique ts /\
    (forall t, t ∈ history -> t <= last) /\
    length future = 2%nat /\
    (forall k, (k < 2)%nat ->
       future !! k = Some (last + (Z.of_nat k + 1) * minute)) /\
    float_column forecast "yhat" = inr yhat /\
    length yhat = (length history + 2)%nat /\
    float_column forecast "moving_avg_price" = inr (rolling 7 agg_mean yhat) /\
    float_column forecast "volatility_15m"
    = inr (rolling 15 (@agg_std isqrt_Sqrt) yhat).
Proof.
  cbv zeta.
  split; [reflexivity|]. split; [reflexivity|]. split; [reflexivity|].
  split; [done|]. split; [reflexivity|].
  apply (@prophet_forecast_rows isqrt_Sqrt strptime_parser stable_sort persistence
           three_minutes 2 no_files
           (Datetime64 (Some <$> [1704067200000000000; 1704067260000000000;
                                  1704067320000000000]))
           (Float64 [lit 100; lit 110; lit 103])
           [1704067200000000000; 1704067260000000000; 1704067320000000000]
           (Qc_of_Z 103)).
  - reflexivity.
  - reflexivity.
  - reflexivity.
  - done.
  - reflexivity.
Defined.

(** Two forecast steps after three samples. *)
Lemma sarima_forecast_rows_witness :
  let y := Float64 [lit 100; lit 110; lit 103] in
  getcol three_minutes "price_usd" = inr y /\
  @sarimax_fit persistence y = inr (Qc_of_Z 103) /\
  @sarimax_forecast persistence (Qc_of_Z 103) 2 = inr [lit 103; lit 103] /\
  exists table w' ds,
    @bitcoin_example.run_sarima_forecast persistence three_minutes 2 no_files
    = (inr table, w') /\
    files w' !! "forecast_sarima.csv" = Some (Csv table) /\
    table = [("ds", Float64 ds); ("yhat_sarima", Float64 [lit 103; lit 103])] /\
    length ds = 2%nat /\ length [lit 103; lit 103] = 2%nat /\
    forall k, (k < 2)%nat ->
      ds !! k = Some (lit (Z.of_nat (column_length y) + Z.of_nat k)).
Proof.
  cbv zeta.
  split; [reflexivity|]. split; [reflexivity|]. split; [reflexivity|].
  apply (@sarima_forecast_rows persistence three_minutes 2 no_files
           (Float64 [lit 100; lit 110; lit 103]) (Qc_of_Z 103) [lit 103; lit 103]);
    reflexivity.
Defined.

(** After three samples of 2024, the ds values of the forecast are 3 and
    4: row positions.  Read as instants they are the third and fourth
    nanosecond of 1970, before the last historical timestamp. *)
Lemma sarima_ds_are_positions :
  exists table w',
    @bitcoin_example.run_sarima_forecast persistence three_minutes 2 no_files
    = (inr table, w') /\
    getcol table "ds" = inr (Float64 [lit 3; lit 4]) /\
    @to_datetime strptime_parser (Float64 [lit 3; lit 4]) = inr [Some 3; Some 4] /\
    getcol three_minutes "timestamp"
    = inr (Datetime64 [Some 1704067200000000000; Some 1704067260000000000;
                       Some 1704067320000000000]) /\
    ~ (1704067320000000000 < 3) /\ ~ (1704067320000000000 < 4).
Proof.
  eexists _, _. split; [vm_compute; reflexivity|].
  repeat split; try reflexivity; lia.
Qed.

(** Two hours of samples and a period of sixty. *)
Lemma decompose_needs_two_cycles_witness :
  exists s g,
    bitcoin_example.indexed_prices two_hours = inr s /\
    bitcoin_example.resample s = inr g /\
    ((length g < 2 * Pos.to_nat 60)%nat ->
     exists msg,
       @bitcoin_example.run_seasonal_decompose persistence two_hours 60 history_world
       = (inl (ValueError msg), history_world)) /\
    ((2 * Pos.to_nat 60 <= length g)%nat -> forallb isfinite g.*2 = true ->
     exists t sn r,
       @decompose_additive persistence g.*2 60 = (t, sn, r) /\
       @bitcoin_example.run_seasonal_decompose persistence two_hours 60 history_world
       = (inr (),
          {| files :=
               <["seasonal_decompose.png" :=
                   Png {| plotted := {| observed := g.*2; trend := t;
                                        seasonal := sn; resid := r |};
                          size_inches := Some (10, 8); tight := true |}]>
                 (files history_world);
             stdout := stdout history_world
                       ++ [Line "Saved seasonal decomposition plot to seasonal_decompose.png";
                           Line "→ Decompose step complete"] |})).
Proof.
  eexists _, _. split; [vm_compute; reflexivity|]. split; [vm_compute; reflexivity|].
  apply (@decompose_needs_two_cycles persistence two_hours 60 history_world
           ((fun k => (Some (1704067200000000000 + Z.of_nat k * minute),
                       lit (100 + Z.of_nat k))) <$> seq 0 120)).
  - vm_compute. reflexivity.
  - vm_compute. reflexivity.
Defined.

(** Too short a history: three points where 120 are needed. *)
Example decompose_three_minutes :
  exists msg,
    @bitcoin_example.run_seasonal_decompose persistence three_minutes 60 no_files
    = (inl (ValueError msg), no_files).
Proof. eexists. vm_compute. reflexivity. Qed.

(** [main] over the two hours of samples. *)
Lemma main_stops_at_first_failure_witness :
  let w := history_world in
  let loaded := two_hours in
  files w !! "bitcoin_price_transformed_full.csv" = Some (Csv two_hours) /\
  two_hours <> [] /\
  (forall e w1,
     run_prophet_forecast0 loaded 60 minute w = (inl e, w1) ->
     main0 w = (inl e, w)) /\
  (forall forecast w1 e w2,
     run_prophet_forecast0 loaded 60 minute w = (inr forecast, w1) ->
     @bitcoin_example.run_sarima_forecast persistence loaded 60 w1 = (inl e, w2) ->
     main0 w = (inl e, w1) /\
     files w1 = <["forecast_prophet.csv" := Csv forecast]> (files w)) /\
  (forall forecast w1 table w2 e w3,
     run_prophet_forecast0 loaded 60 minute w = (inr forecast, w1) ->
     @bitcoin_example.run_sarima_forecast persistence loaded 60 w1 = (inr table, w2) ->
     @bitcoin_example.run_seasonal_decompose persistence loaded 60 w2 = (inl e, w3) ->
     main0 w = (inl e, w2) /\
     files w2 = <["forecast_sarima.csv" := Csv table]>
                  (<["forecast_prophet.csv" := Csv forecast]> (files w))) /\
  (forall forecast w1 table w2 w3,
     run_prophet_forecast0 loaded 60 minute w = (inr forecast, w1) ->
     @bitcoin_example.run_sarima_forecast persistence loaded 60 w1 = (inr table, w2) ->
     @bitcoin_example.run_seasonal_decompose persistence loaded 60 w2 = (inr (), w3) ->
     main0 w = (inr (), w3) /\
     exists fig,
       files w3 = <["seasonal_decompose.png" := Png fig]>
                    (<["forecast_sarima.csv" := Csv table]>
                       (<["forecast_prophet.csv" := Csv forecast]> (files w)))).
Proof.
  cbv zeta. split; [reflexivity|]. split; [done|].
  apply (@main_stops_at_first_failure isqrt_Sqrt strptime_parser stable_sort persistence
           history_world two_hours
           ((fun k => Some (1704067200000000000 + Z.of_nat k * minute)) <$> seq 0 120)).
  - reflexivity.
  - done.
  - reflexivity.
Defined.

(** With the persistence models the three artifacts are written. *)
Example main_writes_three_artifacts :
  exists w',
    main0 history_world = (inr (), w') /\
    is_Some (files w' !! "forecast_prophet.csv") /\
    is_Some (files w' !! "forecast_sarima.csv") /\
    is_Some (files w' !! "seasonal_decompose.png").
Proof.
  eexists. split; [vm_compute; reflexivity|].
  repeat split; vm_compute; eauto.
Qed.

(* ===================================================================== *)
(** * Further properties *)

(** ** The footprint and the schema of the transformation *)

Lemma columns_setcol df name c :
  columns (setcol df name c)
  = if decide (name ∈ columns df) then columns df else columns df ++ [name].
Proof.
  unfold columns. induction df as [|[n c0] df IH]; [done|].
  cbn [setcol]. destruct (decide (n = name)) as [->|Hne].
  - rewrite !fmap_cons. cbn [fst]. rewrite decide_True; [done|]. left.
  - rewrite !fmap_cons, IH. cbn [fst].
    destruct (decide (name ∈ df.*1)) as [Hin|Hnin].
    + rewrite decide_True; [done|]. by right.
    + rewrite decide_False; [done|].
      intros Hin. apply elem_of_cons in Hin as [->|Hin]; done.
Qed.

Section TransformFootprint.
Context `{Sqrt} `{DatetimeParser} `{Quicksort}.
Import bitcoin_utils.

(** X1.  [transform_bitcoin_data] never raises, prints exactly one line, and
    leaves every file other than the output file as it was. *)
Theorem transform_touches_only_output (input_file output_file : string) (w : world) :
  exists l w',
    transform_bitcoin_data input_file output_file w = (inr (), w') /\
    stdout w' = stdout w ++ [l] /\
    forall path, path <> output_file -> files w' !! path = files w !! path.
Proof.
  unfold transform_bitcoin_data, try_except.
  destruct (transform_body input_file output_file w) as [[e|[]] w'] eqn:Hbody.
  - apply transform_body_inl in Hbody as ->.
    eexists _, _. split; [reflexivity|]. by split.
  - revert Hbody. unfold transform_body, mbind, IO_bind, read_csv, lift, to_csv, print.
    destruct (files w !! input_file) as [[[|col df]|fig]|]; try done.
    destruct (transform_frame (col :: df)) as [e|out]; [done|].
    intros [= <-]. eexists _, _. split; [reflexivity|]. split; [done|].
    intros path Hne. simpl. by rewrite lookup_insert_ne.
Qed.

(** X2.  The table that the transformation gives keeps the columns of the
    input, by name and in order, followed by those of the three derived
    columns that the input did not have. *)
Theorem transform_frame_columns (df out : frame) :
  transform_frame df = inr out ->
  columns out
  = columns df
    ++ filter (fun name => name ∉ columns df)
         ["price_change_pct"; "moving_avg_price"; "volatility_15m"].
Proof.
  intros Hrun. apply transform_frame_inr in Hrun as (c & ts & xs & Hc & Hts & Hp & ->).
  unfold with_metrics, sorted_frame. rewrite !columns_setcol, columns_take_frame, columns_setcol.
  rewrite (decide_True (P := "timestamp" ∈ columns df)).
  2:{ apply getcol_inr_elem in Hc. by apply (list_elem_of_fmap_2 fst _ ("timestamp", c)). }
  set (names := columns df).
  assert (Hneq : "price_change_pct" <> "moving_avg_price"
                 /\ "price_change_pct" <> "volatility_15m"
                 /\ "moving_avg_price" <> "volatility_15m") by done.
  destruct Hneq as (Hab & Hac & Hbc).
  destruct (decide ("price_change_pct" ∈ names)) as [Ha|Ha];
    destruct (decide ("moving_avg_price" ∈ names)) as [Hb|Hb];
    destruct (decide ("volatility_15m" ∈ names)) as [Hc'|Hc'].
  all: repeat first
         [ rewrite filter_cons_True by assumption
         | rewrite filter_cons_False by (intros Hn; by apply Hn) ].
  all: rewrite filter_nil.
  all: repeat case_decide; rewrite ?app_nil_r, <- ?app_assoc; try done.
  all: exfalso;
    repeat match goal with
           | Hx : context [_ ∈ _ ++ _] |- _ => rewrite elem_of_app in Hx
           | Hx : context [_ ∈ [_]] |- _ => rewrite list_elem_of_singleton in Hx
           end; intuition congruence.
Qed.

End TransformFootprint.

(** ** Prices that are zero or missing *)

Lemma pct_change_lookup_S xs i p q :
  ffill xs !! i = Some p -> ffill xs !! S i = Some q ->
  pct_change xs !! S i = Some (fsub (fdiv q p) (lit 1)).
Proof.
  intros Hp Hq. unfold pct_change. cbv zeta.
  rewrite lookup_zip_with, Hq. simpl.
  rewrite (lookup_shift1_S _ _ _ Hp) by (rewrite Hq; eauto). done.
Qed.

Lemma price_change_pct_lookup xs i x :
  pct_change xs !! i = Some x ->
  price_change_pct xs !! i = Some (fmul (if isna x then lit 0 else x) (lit 100)).
Proof.
  intros Hx. unfold price_change_pct, fillna. by rewrite !list_lookup_fmap, Hx.
Qed.

Lemma fmul_lit_0 : fmul (lit 0) (lit 100) = lit 0.
Proof. unfold lit. simpl. f_equal. by apply Qc_is_canon. Qed.

Lemma Qc_100_nonzero : Qc_of_Z 100 <> 0%Qc.
Proof. intros Heq. apply (f_equal this) in Heq. vm_compute in Heq. discriminate Heq. Qed.

Lemma Qc_100_positive : Qc_negative (Qc_of_Z 100) = false.
Proof. reflexivity. Qed.

(** Where the price is missing, the change is 0. *)
Lemma price_change_pct_missing xs i :
  xs !! i = Some NaN -> price_change_pct xs !! i = Some (lit 0).
Proof.
  intros Hx. destruct i as [|i].
  - apply price_change_pct_0. by destruct xs.
  - destruct (lookup_ffill_from_S NaN xs i NaN Hx) as (prev & Hprev & Hcur).
    simpl in Hcur.
    rewrite (price_change_pct_lookup _ _ _ (pct_change_lookup_S _ _ _ _ Hprev Hcur)).
    destruct prev as [|s|a]; simpl; try (f_equal; apply fmul_lit_0).
    destruct (decide (a = 0%Qc)) as [->|Ha]; simpl; [f_equal; apply fmul_lit_0|].
    unfold lit. do 2 f_equal.
    replace (Qc_of_Z 1) with 1%Qc by by apply Qc_is_canon.
    replace (Qc_of_Z 0) with 0%Qc by by apply Qc_is_canon.
    field. done.
Qed.

Section ZeroAndMissing.
Context `{Sqrt} `{DatetimeParser} `{Quicksort}.
Import bitcoin_utils.

(** X3.  The change in price never raises on a price that is zero or missing.
    After a price of zero the change is an infinity with the sign of the
    new price, or 0 when the new price is zero too; in a row without
    price the change is 0; and the price after rows without price is
    compared with the last price before them. *)
Theorem price_change_pct_zero_or_missing (df : frame) (c : column)
    (ts : list (option Z)) (xs : list float) :
  getcol df "timestamp" = inr c -> to_datetime c = inr ts ->
  float_column df "price_usd" = inr xs ->
  exists out prices pct,
    transform_frame df = inr out /\
    prices = take_rows (nargsort ts) xs /\
    float_column out "price_change_pct" = inr pct /\
    (forall i b,
       prices !! i = Some (Fin 0) -> prices !! S i = Some (Fin b) -> b <> 0%Qc ->
       pct !! S i = Some (Inf (Qc_negative b))) /\
    (forall i,
       prices !! i = Some (Fin 0) -> prices !! S i = Some (Fin 0) ->
       pct !! S i = Some (lit 0)) /\
    (forall i, prices !! i = Some NaN -> pct !! i = Some (lit 0)) /\
    (forall i a b,
       prices !! i = Some (Fin a) -> prices !! S i = Some NaN ->
       prices !! S (S i) = Some (Fin b) -> a <> 0%Qc ->
       pct !! S (S i) = Some (Fin ((b - a) / a * Qc_of_Z 100)%Qc)).
Proof.
  intros Hc Hts Hp.
  pose proof (transform_frame_total df c ts xs Hc Hts Hp) as Hrun.
  set (prices := take_rows (nargsort ts) xs) in *.
  exists (with_metrics (sorted_frame df ts) prices), prices, (price_change_pct prices).
  split; [done|]. split; [done|]. split; [apply float_column_with_metrics_pct|].
  split; [|split; [|split]].
  - intros i b Hz Hb Hnz.
    assert (Hz' : ffill prices !! i = Some (Fin 0)) by by apply lookup_ffill_from.
    assert (Hb' : ffill prices !! S i = Some (Fin b)) by by apply lookup_ffill_from.
    rewrite (price_change_pct_lookup _ _ _ (pct_change_lookup_S _ _ _ _ Hz' Hb')).
    unfold fdiv. rewrite decide_True by done. rewrite decide_False by done.
    cbn [fsub lit isna fmul]. rewrite decide_False by apply Qc_100_nonzero.
    by rewrite Qc_100_positive, xorb_false_r.
  - intros i Hz Hz1.
    assert (Hz' : ffill prices !! i = Some (Fin 0)) by by apply lookup_ffill_from.
    assert (Hz1' : ffill prices !! S i = Some (Fin 0)) by by apply lookup_ffill_from.
    rewrite (price_change_pct_lookup _ _ _ (pct_change_lookup_S _ _ _ _ Hz' Hz1')).
    simpl. f_equal. apply fmul_lit_0.
  - apply price_change_pct_missing.
  - intros i a b Ha Hn Hb Hnz.
    destruct (lookup_ffill_from_S NaN prices i NaN Hn) as (prev & Hprev & Hcur).
    assert (Ha' : ffill prices !! i = Some (Fin a)) by by apply lookup_ffill_from.
    unfold ffill in Ha'. rewrite Ha' in Hprev. injection Hprev as <-. simpl in Hcur.
    assert (Hb' : ffill prices !! S (S i) = Some (Fin b)) by by apply lookup_ffill_from.
    rewrite (price_change_pct_lookup _ _ _ (pct_change_lookup_S _ _ _ _ Hcur Hb')).
    simpl. rewrite decide_False by done. simpl. do 2 f_equal.
    replace (Qc_of_Z 1) with 1%Qc by by apply Qc_is_canon.
    field. done.
Qed.

End ZeroAndMissing.

(** ** Windows with a missing price *)

Lemma observations_lt win x :
  x ∈ win -> isfinite x = false -> (length (observations win) < length win)%nat.
Proof.
  intros Hin Hx. induction win as [|y win IH]; [by apply elem_of_nil in Hin|].
  pose proof (length_observations win) as Hle.
  apply elem_of_cons in Hin as [<-|Hin].
  - destruct x; simpl in *; try done; lia.
  - specialize (IH Hin). destruct y; simpl; lia.
Qed.

Lemma length_window_le {A} w i (xs : list A) : (length (window w i xs) <= w)%nat.
Proof. unfold window. rewrite length_drop, length_take. lia. Qed.

Lemma rolling_missing w agg xs i j x :
  xs !! j = Some x -> isfinite x = false ->
  (j <= i)%nat -> (i < j + w)%nat -> (i < length xs)%nat ->
  rolling w agg xs !! i = Some NaN.
Proof.
  intros Hj Hx Hji Hiw Hi.
  destruct (lookup_lt_is_Some_2 xs i Hi) as [y Hy].
  rewrite (lookup_rolling _ _ _ _ _ Hy). cbv zeta.
  rewrite decide_True; [done|].
  assert (Hin : x ∈ window w i xs).
  { unfold window. apply (list_elem_of_lookup_2 _ (j - (S i - w))).
    rewrite lookup_drop, lookup_take_lt by lia.
    replace (S i - w + (j - (S i - w)))%nat with j by lia. done. }
  pose proof (observations_lt _ _ Hin Hx). pose proof (length_window_le w i xs). lia.
Qed.

Section MissingPrices.
Context `{Sqrt} `{DatetimeParser} `{Quicksort}.
Import bitcoin_utils.

(** X4.  A price that is missing or infinite in row [j] leaves the moving
    average undefined in the rows [j .. j+6] and the volatility undefined
    in the rows [j .. j+14]: a window is aggregated only when all its
    prices are numbers. *)
Theorem rolling_metrics_skip_missing (df : frame) (c : column)
    (ts : list (option Z)) (xs : list float) :
  getcol df "timestamp" = inr c -> to_datetime c = inr ts ->
  float_column df "price_usd" = inr xs ->
  exists out prices avg vol,
    transform_frame df = inr out /\
    prices = take_rows (nargsort ts) xs /\
    float_column out "moving_avg_price" = inr avg /\
    float_column out "volatility_15m" = inr vol /\
    forall i j x,
      prices !! j = Some x -> isfinite x = false ->
      (j <= i)%nat -> (i < length prices)%nat ->
      ((i < j + 7)%nat -> avg !! i = Some NaN) /\
      ((i < j + 15)%nat -> vol !! i = Some NaN).
Proof.
  intros Hc Hts Hp.
  pose proof (transform_frame_total df c ts xs Hc Hts Hp) as Hrun.
  set (prices := take_rows (nargsort ts) xs) in *.
  exists (with_metrics (sorted_frame df ts) prices), prices,
    (rolling 7 agg_mean prices), (rolling 15 agg_std prices).
  split; [done|]. split; [done|].
  split; [apply float_column_with_metrics_avg|].
  split; [apply float_column_with_metrics_vol|].
  intros i j x Hj Hx Hji Hi. split; intros Hw; by apply (rolling_missing _ _ _ _ j x).
Qed.

End MissingPrices.

(** ** Prices on a line *)

Lemma Qc_of_nat_succ k : Qc_of_nat (S k) = (Qc_of_nat k + 1)%Qc.
Proof.
  unfold Qc_of_nat. by rewrite Nat2Z.inj_succ, <- Z.add_1_r, Z2Qc_inj_add, Z2Qc_inj_1.
Qed.

Lemma slice_fmap_seq {A} (f : nat -> A) (n w i : nat) :
  (w <= S i)%nat -> (i < n)%nat ->
  slice (S i - w) i (f <$> seq 0 n) = f <$> seq (S i - w) w.
Proof.
  intros Hw Hi. unfold slice.
  rewrite <- fmap_drop, <- fmap_take, drop_seq, take_seq. do 2 f_equal. lia.
Qed.

Lemma Qc_of_Z_nonzero z : z <> 0 -> Qc_of_Z z <> 0%Qc.
Proof. intros Hz Heq. rewrite <- Z2Qc_inj_0 in Heq. by apply Z2Qc_inj in Heq. Qed.

(** A sum of ones that is a positive whole number is not zero. *)
Ltac ones_nonzero n :=
  let Heq := fresh "Heq" in
  intros Heq; apply (Qc_of_Z_nonzero n); [done|];
  etransitivity; [|exact Heq]; by apply Qc_is_canon.

Lemma mean_of_line (a d : Qc) (j : nat) :
  mean ((fun k => a + Qc_of_nat k * d)%Qc <$> seq j 7)
  = (a + Qc_of_nat (j + 3) * d)%Qc.
Proof.
  unfold mean, sum. rewrite length_fmap, length_seq. cbn [seq fmap list_fmap foldr].
  replace (j + 3)%nat with (S (S (S j))) by lia.
  rewrite !Qc_of_nat_succ. replace (Qc_of_nat 0) with 0%Qc by by apply Qc_is_canon.
  field. ones_nonzero 7.
Qed.

Section Line.
Context `{Sqrt}.

Lemma std_of_line (a d : Qc) (j : nat) :
  agg_std ((fun k => a + Qc_of_nat k * d)%Qc <$> seq j 15)
  = Fin (fsqrt (Qc_of_Z 20 * d * d)%Qc).
Proof.
  unfold agg_std. rewrite decide_False by (rewrite length_fmap, length_seq; lia).
  do 2 f_equal. unfold ssqdm, mean, sum. rewrite !length_fmap, !length_seq.
  cbn [seq fmap list_fmap foldr map]. 
  change (15 - 1)%nat with 14%nat.
  rewrite !Qc_of_nat_succ. replace (Qc_of_nat 0) with 0%Qc by by apply Qc_is_canon.
  replace (Qc_of_Z 20)
    with ((1 + 1) * (1 + 1) * (1 + 1 + 1 + 1 + 1))%Qc by by apply Qc_is_canon.
  field. split; [ones_nonzero 15|ones_nonzero 14].
Qed.

End Line.

Section ConstantSlope.
Context `{Sqrt} `{DatetimeParser} `{Quicksort}.
Import bitcoin_utils.

(** X5.  When the prices in the order of their timestamps lie on a line,
    [price = a + d * row], the moving average of a row from row 6 on is
    the price three rows before it, and the volatility is the same in
    every row from row 14 on: the square root of [20 * d * d]. *)
Theorem metrics_of_constant_slope (df : frame) (c : column)
    (ts : list (option Z)) (xs : list float) (a d : Qc) (n : nat) :
  getcol df "timestamp" = inr c -> to_datetime c = inr ts ->
  float_column df "price_usd" = inr xs ->
  take_rows (nargsort ts) xs = (fun k => Fin (a + Qc_of_nat k * d)%Qc) <$> seq 0 n ->
  exists out avg vol,
    transform_frame df = inr out /\
    float_column out "moving_avg_price" = inr avg /\
    float_column out "volatility_15m" = inr vol /\
    (forall i, (6 <= i < n)%nat ->
       avg !! i = Some (Fin (a + Qc_of_nat (i - 3) * d)%Qc)) /\
    (forall i, (14 <= i < n)%nat ->
       vol !! i = Some (Fin (fsqrt (Qc_of_Z 20 * d * d)%Qc))).
Proof.
  intros Hc Hts Hp Hline.
  pose proof (transform_frame_total df c ts xs Hc Hts Hp) as Hrun.
  set (prices := take_rows (nargsort ts) xs) in *.
  exists (with_metrics (sorted_frame df ts) prices),
    (rolling 7 agg_mean prices), (rolling 15 agg_std prices).
  split; [done|].
  split; [apply float_column_with_metrics_avg|].
  split; [apply float_column_with_metrics_vol|].
  set (line := fun k => (a + Qc_of_nat k * d)%Qc).
  assert (Hline' : prices = Fin <$> (line <$> seq 0 n)).
  { rewrite Hline, <- list_fmap_compose. done. }
  split.
  - intros i [Hlo Hhi].
    rewrite (rolling_full 7 agg_mean prices i (line <$> seq (S i - 7) 7)).
    + rewrite agg_mean_Fin by done. rewrite arithmetic_mean_mean.
      unfold line. rewrite mean_of_line.
      by replace (S i - 7 + 3)%nat with (i - 3)%nat by lia.
    + lia.
    + lia.
    + rewrite Hline', <- !list_fmap_compose. apply slice_fmap_seq; lia.
    + by rewrite length_fmap, length_seq.
  - intros i [Hlo Hhi].
    rewrite (rolling_full 15 agg_std prices i (line <$> seq (S i - 15) 15)).
    + unfold line. by rewrite std_of_line.
    + lia.
    + lia.
    + rewrite Hline', <- !list_fmap_compose. apply slice_fmap_seq; lia.
    + by rewrite length_fmap, length_seq.
Qed.

End ConstantSlope.

(** ** Transforming a transformed table *)

Lemma setcol_same df name c : getcol df name = inr c -> setcol df name c = df.
Proof.
  induction df as [|[n c0] df IH]; [done|]. cbn [getcol setcol].
  destruct (decide (n = name)) as [->|Hne].
  - by intros [= ->].
  - intros Hc. by rewrite IH.
Qed.

Lemma take_column_seq c : take_column (seq 0 (column_length c)) c = c.
Proof. destruct c; simpl; by rewrite take_rows_seq. Qed.

Lemma take_frame_seq n df : rectangular n df -> take_frame (seq 0 n) df = df.
Proof.
  intros Hdf. unfold take_frame. induction Hdf as [|[name c] df Hc _ IH]; [done|].
  rewrite fmap_cons, IH. simpl in *. by rewrite <- Hc, take_column_seq.
Qed.

Lemma filter_Forall_not {A} (P : A -> Prop) `{!forall x, Decision (P x)} (l : list A) :
  Forall (fun x => ¬ P x) l -> filter P l = [].
Proof.
  induction 1 as [|x l Hx _ IH]; [done|].
  by rewrite filter_cons_False, IH.
Qed.

Lemma omap_id_present (ks : list Z) (m : nat) :
  omap id ((Some <$> ks) ++ replicate m None) = ks.
Proof.
  induction ks as [|k ks IH].
  - induction m as [|m IH]; [done|]. exact IH.
  - change (k :: omap id ((Some <$> ks) ++ replicate m None) = k :: ks). by rewrite IH.
Qed.

Section SortedInput.
Context `{Quicksort}.

(** Distinct keys in ascending order stay where they are. *)
Lemma argsort_sorted_id ks :
  Sorted Z.le ks -> NoDup ks -> argsort ks = seq 0 (length ks).
Proof.
  intros Hsorted Hdup.
  assert (Hperm : take_rows (argsort ks) ks ≡ₚ ks).
  { rewrite (take_rows_Permutation _ _ _ (argsort_perm ks)). by rewrite take_rows_seq. }
  assert (Hsame : take_rows (argsort ks) ks = ks).
  { apply (Sorted_unique Z.le); [apply argsort_sorted|done|done]. }
  assert (Hlen : length (argsort ks) = length ks).
  { rewrite (argsort_perm ks). apply length_seq. }
  apply list_eq. intros j. destruct (decide (j < length ks)%nat) as [Hj|Hj].
  - rewrite lookup_seq_lt by done. simpl.
    destruct (lookup_lt_is_Some_2 (argsort ks) j) as [a Ha]; [lia|].
    rewrite Ha. f_equal.
    pose proof (lookup_take_rows (argsort ks) ks j a (argsort_lt ks) Ha) as Hrow.
    rewrite Hsame in Hrow.
    destruct (lookup_lt_is_Some_2 ks j Hj) as [x Hx].
    rewrite Hx in Hrow. symmetry in Hrow.
    exact (NoDup_lookup ks a j x Hdup Hrow Hx).
  - rewrite !lookup_ge_None_2; [done| |]; rewrite ?length_seq; lia.
Qed.

(** A timestamp column in ascending order, its missing timestamps last
    and no timestamp twice, is sorted onto itself. *)
Lemma nargsort_sorted_id (ks : list Z) (m : nat) :
  Sorted Z.le ks -> NoDup ks ->
  nargsort ((Some <$> ks) ++ replicate m None) = seq 0 (length ks + m).
Proof.
  intros Hsorted Hdup. set (ts := (Some <$> ks) ++ replicate m None).
  assert (Hlen : length ts = (length ks + m)%nat).
  { unfold ts. by rewrite length_app, length_fmap, length_replicate. }
  assert (Hkeys : omap id ts = ks) by apply omap_id_present.
  rewrite nargsort_eq, Hkeys, Hlen, (argsort_sorted_id ks Hsorted Hdup).
  rewrite seq_app, !filter_app. change (0 + length ks)%nat with (length ks).
  assert (Hpresent : Forall (has_key ts) (seq 0 (length ks))).
  { apply Forall_forall. intros i Hi. apply elem_of_seq in Hi.
    unfold has_key, ts. rewrite lookup_app_l by (rewrite length_fmap; lia).
    rewrite list_lookup_fmap.
    destruct (lookup_lt_is_Some_2 ks i) as [k Hk]; [lia|]. rewrite Hk. simpl. eauto. }
  assert (Hmissing : Forall (fun i => ¬ has_key ts i) (seq (length ks) m)).
  { apply Forall_forall. intros i Hi. apply elem_of_seq in Hi.
    unfold has_key, ts. rewrite lookup_app_r by (rewrite length_fmap; lia).
    rewrite length_fmap, lookup_replicate_2 by lia. simpl. by intros [? ?]. }
  assert (Hpresent' : Forall (fun i => ¬ ¬ has_key ts i) (seq 0 (length ks))).
  { eapply Forall_impl; [exact Hpresent|]. intros i Hi Hn. by apply Hn. }
  rewrite (filter_Forall _ _ Hpresent), (filter_Forall _ _ Hmissing).
  rewrite (filter_Forall_not _ _ Hmissing), (filter_Forall_not _ _ Hpresent').
  rewrite app_nil_r, app_nil_l. f_equal.
  pose proof (take_rows_seq (seq 0 (length ks))) as Hs.
  by rewrite length_seq in Hs.
Qed.

End SortedInput.

Section Idempotent.
Context `{Sqrt} `{DatetimeParser} `{Quicksort}.
Import bitcoin_utils.

Lemma with_metrics_same sorted xs :
  getcol sorted "price_change_pct" = inr (Float64 (price_change_pct xs)) ->
  getcol sorted "moving_avg_price" = inr (Float64 (rolling 7 agg_mean xs)) ->
  getcol sorted "volatility_15m" = inr (Float64 (rolling 15 agg_std xs)) ->
  with_metrics sorted xs = sorted.
Proof.
  intros Hpct Havg Hvol. unfold with_metrics.
  by rewrite (setcol_same _ _ _ Hpct), (setcol_same _ _ _ Havg), (setcol_same _ _ _ Hvol).
Qed.

(** X6.  A table that the transformation gave is transformed into itself,
    provided no two of its rows have the same timestamp: the rows stay in
    their order and the derived columns are computed again from the same
    prices. *)
Theorem transform_frame_idempotent (df : frame) (n : nat) (c : column)
    (ts : list (option Z)) (xs : list float) :
  rectangular n df ->
  getcol df "timestamp" = inr c -> to_datetime c = inr ts ->
  float_column df "price_usd" = inr xs ->
  NoDup (omap id ts) ->
  exists out, transform_frame df = inr out /\ transform_frame out = inr out.
Proof.
  intros Hdf Hc Hts Hp Hdup.
  pose proof (transform_frame_total df c ts xs Hc Hts Hp) as Hrun.
  set (prices := take_rows (nargsort ts) xs) in *.
  set (out := with_metrics (sorted_frame df ts) prices) in *.
  exists out. split; [done|].
  pose proof (transform_frame_rectangular n df out Hdf Hrun) as Hout.
  set (ks := take_rows (argsort (omap id ts)) (omap id ts)).
  set (m := (length ts - length (omap id ts))%nat).
  assert (Hts' : getcol out "timestamp"
                 = inr (Datetime64 ((Some <$> ks) ++ replicate m None))).
  { unfold out. rewrite getcol_with_metrics_timestamp, getcol_sorted_timestamp.
    by rewrite take_rows_nargsort. }
  assert (Hperm : ks ≡ₚ omap id ts).
  { unfold ks. rewrite (take_rows_Permutation _ _ _ (argsort_perm _)).
    by rewrite take_rows_seq. }
  assert (Hid : nargsort ((Some <$> ks) ++ replicate m None) = seq 0 n).
  { rewrite nargsort_sorted_id; [|apply argsort_sorted|by rewrite Hperm].
    f_equal. pose proof (rectangular_getcol n out _ _ Hout Hts') as Hlen.
    simpl in Hlen. by rewrite length_app, length_fmap, length_replicate in Hlen. }
  assert (Hprices : float_column out "price_usd" = inr prices).
  { unfold out. rewrite float_column_with_metrics_price.
    by apply float_column_sorted_price. }
  assert (Hn : length prices = n) by by apply (rectangular_float_column n out "price_usd").
  rewrite (transform_frame_total out _ _ prices Hts' eq_refl Hprices).
  unfold sorted_frame. rewrite (setcol_same _ _ _ Hts'), Hid, (take_frame_seq n out Hout).
  rewrite <- Hn at 1. rewrite take_rows_seq. f_equal.
  apply with_metrics_same; unfold out, with_metrics.
  - rewrite !getcol_setcol_ne by done. apply getcol_setcol_eq.
  - rewrite getcol_setcol_ne by done. apply getcol_setcol_eq.
  - apply getcol_setcol_eq.
Qed.

End Idempotent.

(** ** The order of the input rows *)

Lemma traverse_lookup {A B} (f : A -> result B) l ys i :
  traverse f l = inr ys ->
  match l !! i with
  | Some x => exists y, f x = inr y /\ ys !! i = Some y
  | None => ys !! i = None
  end.
Proof.
  revert ys i. induction l as [|x l IH]; intros ys i; simpl.
  - by intros [= <-].
  - destruct (f x) as [|y] eqn:Hy; [done|].
    destruct (traverse f l) as [|ys'] eqn:Hys; [done|]. intros [= <-].
    destruct i as [|i]; simpl; [eauto|]. by apply IH.
Qed.

Lemma traverse_take_rows {A B} (f : A -> result B) l ys idx :
  traverse f l = inr ys -> traverse f (take_rows idx l) = inr (take_rows idx ys).
Proof.
  intros Hrun. induction idx as [|i idx IH]; [done|].
  pose proof (traverse_lookup f l ys i Hrun) as Hi.
  destruct (l !! i) as [x|] eqn:Hx.
  - destruct Hi as (y & Hy & Hyi).
    rewrite (take_rows_cons _ _ _ _ Hx), (take_rows_cons _ _ _ _ Hyi).
    simpl. by rewrite Hy, IH.
  - by rewrite (take_rows_cons_None _ _ _ Hx), (take_rows_cons_None _ _ _ Hi).
Qed.

Lemma to_datetime_take_column `{DatetimeParser} idx c ts :
  to_datetime c = inr ts -> to_datetime (take_column idx c) = inr (take_rows idx ts).
Proof.
  destruct c as [xs|ts0|os]; simpl.
  - apply traverse_take_rows.
  - by intros [= <-].
  - apply traverse_take_rows.
Qed.

Lemma setcol_take_frame idx df name c :
  setcol (take_frame idx df) name (take_column idx c) = take_frame idx (setcol df name c).
Proof.
  unfold take_frame. induction df as [|[n c0] df IH]; [done|].
  rewrite fmap_cons. cbn [prod_map setcol fst snd id].
  destruct (decide (n = name)); [done|]. rewrite fmap_cons. by rewrite IH.
Qed.

Lemma take_column_take_column p q c :
  Forall (fun i => i < length p)%nat q -> Forall (fun i => i < column_length c)%nat p ->
  take_column q (take_column p c) = take_column (take_rows q p) c.
Proof. intros Hq Hp. destruct c; simpl in *; by rewrite take_rows_take_rows. Qed.

Lemma take_frame_take_frame n p q df :
  rectangular n df ->
  Forall (fun i => i < length p)%nat q -> Forall (fun i => i < n)%nat p ->
  take_frame q (take_frame p df) = take_frame (take_rows q p) df.
Proof.
  intros Hdf Hq Hp. unfold take_frame. rewrite <- list_fmap_compose.
  apply Forall_fmap_ext_1. eapply Forall_impl; [exact Hdf|].
  intros [name c] Hc. simpl in *. f_equal. apply take_column_take_column; [done|].
  by rewrite Hc.
Qed.

(** With no timestamp twice, one arrangement only of the rows is in the
    order of the timestamps. *)
Lemma sorting_positions_unique (ts : list (option Z)) (idx1 idx2 : list nat) :
  NoDup ts ->
  idx1 ≡ₚ seq 0 (length ts) -> idx2 ≡ₚ seq 0 (length ts) ->
  StronglySorted na_last_le (take_rows idx1 ts) ->
  StronglySorted na_last_le (take_rows idx2 ts) ->
  idx1 = idx2.
Proof.
  intros Hdup Hp1 Hp2 Hs1 Hs2.
  assert (Hlt : forall idx, idx ≡ₚ seq 0 (length ts) ->
                            Forall (fun i => i < length ts)%nat idx).
  { intros idx Hp. apply Forall_forall. intros i Hi. rewrite Hp in Hi.
    apply elem_of_seq in Hi. lia. }
  assert (Hperm : forall idx, idx ≡ₚ seq 0 (length ts) -> take_rows idx ts ≡ₚ ts).
  { intros idx Hp. rewrite (take_rows_Permutation _ _ _ Hp). by rewrite take_rows_seq. }
  assert (Hsame : take_rows idx1 ts = take_rows idx2 ts).
  { apply (StronglySorted_unique_strong na_last_le); [|done|done|].
    - intros [x|] [y|] _ _; simpl; intros Hxy Hyx; try done. f_equal. lia.
    - by rewrite (Hperm idx1 Hp1), (Hperm idx2 Hp2). }
  assert (Hlen : length idx1 = length idx2) by by rewrite Hp1, Hp2.
  apply list_eq. intros j.
  destruct (idx1 !! j) as [a|] eqn:Ha.
  - assert (Hj : (j < length idx2)%nat) by (rewrite <- Hlen; by eapply lookup_lt_Some).
    destruct (lookup_lt_is_Some_2 idx2 j Hj) as [b Hb]. rewrite Hb. f_equal.
    pose proof (lookup_take_rows idx1 ts j a (Hlt _ Hp1) Ha) as Hrow1.
    pose proof (lookup_take_rows idx2 ts j b (Hlt _ Hp2) Hb) as Hrow2.
    rewrite Hsame, Hrow2 in Hrow1.
    assert (Hbt : (b < length ts)%nat).
    { pose proof (Hlt _ Hp2) as Hall. rewrite Forall_forall in Hall. apply Hall.
      by eapply list_elem_of_lookup_2. }
    destruct (lookup_lt_is_Some_2 ts b Hbt) as [t Ht].
    rewrite Ht in Hrow1. symmetry in Hrow1.
    exact (NoDup_lookup ts a b t Hdup Hrow1 Ht).
  - apply lookup_ge_None_1 in Ha. symmetry. apply lookup_ge_None_2. lia.
Qed.

Section InputOrder.
Context `{Sqrt} `{DatetimeParser} `{Quicksort}.
Import bitcoin_utils.


End InputOrder.

(** ** The footprint of the forecasting steps *)

Lemma getcol_missing df name : name ∉ columns df -> getcol df name = inl (KeyError name).
Proof.
  intros Hnin. destruct (getcol df name) as [e|c] eqn:Hc.
  - by apply getcol_inl in Hc as [-> _].
  - exfalso. apply Hnin. apply getcol_inr_elem in Hc.
    by apply (list_elem_of_fmap_2 fst _ (name, c)).
Qed.

Section Footprint.
Context `{Sqrt} `{DatetimeParser} `{Quicksort} `{Models}.
Import bitcoin_example.

Lemma run_prophet_forecast_files df periods freq w r w' path :
  run_prophet_forecast df periods freq w = (r, w') ->
  path <> "forecast_prophet.csv" -> files w' !! path = files w !! path.
Proof.
  intros Hrun Hne. destruct r as [e|forecast].
  - by apply run_prophet_forecast_inl in Hrun as ->.
  - apply run_prophet_forecast_inr in Hrun as (? & ? & ? & ? & ? & _ & _ & _ & _ & _ & ->).
    simpl. by rewrite lookup_insert_ne.
Qed.

Lemma run_sarima_forecast_files df steps w r w' path :
  run_sarima_forecast df steps w = (r, w') ->
  path <> "forecast_sarima.csv" -> files w' !! path = files w !! path.
Proof.
  intros Hrun Hne. destruct r as [e|table].
  - by apply run_sarima_forecast_inl in Hrun as ->.
  - apply run_sarima_forecast_inr in Hrun as ->. simpl. by rewrite lookup_insert_ne.
Qed.

Lemma run_seasonal_decompose_files df period w r w' path :
  run_seasonal_decompose df period w = (r, w') ->
  path <> "seasonal_decompose.png" -> files w' !! path = files w !! path.
Proof.
  intros Hrun Hne. destruct r as [e|[]].
  - by apply run_seasonal_decompose_inl in Hrun as ->.
  - revert Hrun. unfold run_seasonal_decompose, mbind, IO_bind, lift.
    destruct (indexed_prices df) as [?|s]; [done|].
    destruct (resample s) as [?|g]; [done|].
    destruct (seasonal_decompose g.*2 period) as [?|res]; [done|].
    unfold savefig, print. simpl. intros [= <-]. simpl. by rewrite lookup_insert_ne.
Qed.

(** X8.  Whether it returns or raises, [main] changes no file other than its
    three artifacts; the table it reads, and every other file, stays as
    it was. *)
Theorem main_touches_only_artifacts (w : world) (path : string) :
  path ∉ ["forecast_prophet.csv"; "forecast_sarima.csv"; "seasonal_decompose.png"] ->
  files (main w).2 !! path = files w !! path.
Proof.
  intros Hpath.
  assert (Hp : path <> "forecast_prophet.csv") by (intros ->; apply Hpath; set_solver).
  assert (Hs : path <> "forecast_sarima.csv") by (intros ->; apply Hpath; set_solver).
  assert (Hd : path <> "seasonal_decompose.png") by (intros ->; apply Hpath; set_solver).
  unfold main. unfold mbind at 1. unfold IO_bind at 1.
  destruct (read_csv "bitcoin_price_transformed_full.csv" w) as [[e|df] w0] eqn:Hread.
  { revert Hread. unfold read_csv.
    destruct (files w !! "bitcoin_price_transformed_full.csv") as [[[|? ?]|?]|];
      by intros [= _ <-]. }
  assert (w0 = w) as ->.
  { revert Hread. unfold read_csv.
    destruct (files w !! "bitcoin_price_transformed_full.csv") as [[[|? ?]|?]|];
      by intros [= _ <-]. }
  unfold mbind at 1. unfold IO_bind at 1. unfold lift at 1.
  destruct (getcol df "timestamp" ≫= to_datetime) as [e|ts]; [done|].
  set (df' := setcol df "timestamp" (Datetime64 ts)).
  unfold mbind at 1. unfold IO_bind at 1.
  destruct (run_prophet_forecast df' 60 minute w) as [[e|forecast] w1] eqn:Hrun1.
  { simpl. by rewrite (run_prophet_forecast_files _ _ _ _ _ _ path Hrun1). }
  unfold mbind at 1. unfold IO_bind at 1.
  destruct (run_sarima_forecast df' 60 w1) as [[e|table] w2] eqn:Hrun2.
  { simpl. rewrite (run_sarima_forecast_files _ _ _ _ _ path Hrun2) by done.
    by rewrite (run_prophet_forecast_files _ _ _ _ _ _ path Hrun1). }
  destruct (run_seasonal_decompose df' 60 w2) as [r w3] eqn:Hrun3.
  simpl. rewrite (run_seasonal_decompose_files _ _ _ _ _ path Hrun3) by done.
  rewrite (run_sarima_forecast_files _ _ _ _ _ path Hrun2) by done.
  by rewrite (run_prophet_forecast_files _ _ _ _ _ _ path Hrun1).
Qed.

(** X9.  On a table without the column [price_usd] each of the three steps
    raises a [KeyError] before it writes or prints anything. *)
Theorem steps_need_price_column (df : frame) (periods steps : nat) (freq : Z)
    (period : positive) (w : world) :
  "price_usd" ∉ columns df ->
  (exists key, run_prophet_forecast df periods freq w = (inl (KeyError key), w)) /\
  run_sarima_forecast df steps w = (inl (KeyError "price_usd"), w) /\
  (exists key, run_seasonal_decompose df period w = (inl (KeyError key), w)).
Proof.
  intros Hnin. pose proof (getcol_missing df "price_usd" Hnin) as Hp.
  split; [|split].
  - unfold run_prophet_forecast, mbind, IO_bind, lift.
    destruct (getcol df "timestamp") as [e|c] eqn:Hc.
    + apply getcol_inl in Hc as [-> _]. eauto.
    + rewrite Hp. eauto.
  - unfold run_sarima_forecast, mbind, IO_bind, lift. by rewrite Hp.
  - unfold run_seasonal_decompose, mbind, IO_bind, lift, indexed_prices, float_column.
    unfold mbind, result_bind.
    destruct (getcol df "timestamp") as [e|c] eqn:Hc.
    + apply getcol_inl in Hc as [-> _]. eauto.
    + rewrite Hp. eauto.
Qed.

End Footprint.

(** ** Series that the decomposition rejects *)

Section Rejected.
Context `{Models}.
Import bitcoin_example.

(** X10.  Two rows with one timestamp make [run_seasonal_decompose] raise a
    [ValueError], for every period, before anything is written: the
    series cannot be put on the grid of minutes. *)
Theorem decompose_rejects_repeated_timestamps (df : frame) (period : positive)
    (w : world) (s : list (option Z * float)) :
  indexed_prices df = inr s -> ~ NoDup s.*1 ->
  exists msg, run_seasonal_decompose df period w = (inl (ValueError msg), w).
Proof.
  intros Hs Hdup. unfold run_seasonal_decompose, mbind, IO_bind, lift. rewrite Hs.
  unfold resample, asfreq, mbind, result_bind.
  destruct s as [|p s]; [exfalso; apply Hdup; constructor|].
  destruct (min_instant (omap fst (p :: s))); [|eauto].
  destruct (max_instant (omap fst (p :: s))); [|eauto].
  rewrite decide_False by done. eauto.
Qed.

(** X11.  When the earliest sample has no price, nothing can be carried
    forward into it: [run_seasonal_decompose] raises a [ValueError], for
    every period, before anything is written. *)
Theorem decompose_rejects_missing_first_price (df : frame) (period : positive)
    (w : world) (s : list (option Z * float)) (first : Z) :
  indexed_prices df = inr s -> NoDup s.*1 ->
  min_instant (omap fst s) = Some first -> isfinite (at_label s first) = false ->
  exists msg, run_seasonal_decompose df period w = (inl (ValueError msg), w).
Proof.
  intros Hs Hdup Hmin Hx.
  destruct (resample s) as [e|g] eqn:Hg.
  { exfalso. revert Hg. unfold resample, asfreq, mbind, result_bind.
    destruct s as [|p s]; [done|]. rewrite Hmin.
    destruct (max_instant (omap fst (p :: s))) eqn:Hmax.
    - by rewrite decide_True.
    - apply max_instant_None in Hmax. apply min_instant_Some in Hmin as [Hin _].
      rewrite Hmax in Hin. by apply elem_of_nil in Hin. }
  rewrite (run_seasonal_decompose_eq df period w s g Hs Hg).
  destruct (resample_grid s g Hg) as [[-> _]|(lo & hi & Hlo & _ & _ & _ & _ & H0 & _)];
    [done|].
  rewrite Hmin in Hlo. injection Hlo as <-.
  unfold seasonal_decompose.
  destruct (g.*2) as [|x rest]; [done|]. injection H0 as ->.
  simpl. rewrite Hx. simpl. eauto.
Qed.

End Rejected.

(** ** Resampling a series that is on the grid *)

Lemma ffill_from_idemp last xs :
  ffill_from last (ffill_from last xs) = ffill_from last xs.
Proof.
  revert last. induction xs as [|x xs IH]; intros last; [done|].
  cbn [ffill_from]. cbv zeta.
  assert (Hv : (if isna (if isna x then last else x) then last
                else if isna x then last else x)
               = if isna x then last else x).
  { destruct x; simpl; try done. by destruct last. }
  by rewrite Hv, IH.
Qed.

Lemma lookup_date_range_periods start n freq k :
  (k < n)%nat -> date_range_periods start n freq !! k = Some (start + Z.of_nat k * freq).
Proof.
  intros Hk. unfold date_range_periods. by rewrite list_lookup_fmap, lookup_seq_lt.
Qed.

Lemma elem_of_date_range_periods start n freq t :
  t ∈ date_range_periods start n freq <->
  exists k, (k < n)%nat /\ t = start + Z.of_nat k * freq.
Proof.
  unfold date_range_periods. rewrite list_elem_of_fmap. split.
  - intros (k & -> & Hk). apply elem_of_seq in Hk. exists k. split; [lia|done].
  - intros (k & Hk & ->). exists k. split; [done|]. apply elem_of_seq. lia.
Qed.

Lemma NoDup_date_range_periods start n freq :
  0 < freq -> NoDup (date_range_periods start n freq).
Proof.
  intros Hfreq. unfold date_range_periods. apply NoDup_fmap_2; [|apply NoDup_seq].
  intros j k Heq. nia.
Qed.

Lemma min_instant_date_range_periods start n freq :
  0 < freq -> min_instant (date_range_periods start (S n) freq) = Some start.
Proof.
  intros Hfreq.
  destruct (min_instant (date_range_periods start (S n) freq)) as [m|] eqn:Hmin.
  - apply min_instant_Some in Hmin as [Hin Hle]. f_equal.
    apply elem_of_date_range_periods in Hin as (k & Hk & ->).
    assert (Hstart : start ∈ date_range_periods start (S n) freq).
    { apply elem_of_date_range_periods. exists 0%nat. split; lia. }
    specialize (Hle _ Hstart). nia.
  - by apply min_instant_None in Hmin.
Qed.

Lemma max_instant_date_range_periods start n freq :
  0 < freq ->
  max_instant (date_range_periods start (S n) freq) = Some (start + Z.of_nat n * freq).
Proof.
  intros Hfreq.
  destruct (max_instant (date_range_periods start (S n) freq)) as [m|] eqn:Hmax.
  - apply max_instant_Some in Hmax as [Hin Hle]. f_equal.
    apply elem_of_date_range_periods in Hin as (k & Hk & ->).
    assert (Hlast : start + Z.of_nat n * freq ∈ date_range_periods start (S n) freq).
    { apply elem_of_date_range_periods. exists n. split; [lia|done]. }
    specialize (Hle _ Hlast). nia.
  - by apply max_instant_None in Hmax.
Qed.

Lemma date_range_of_periods start n freq :
  0 < freq ->
  date_range start (start + Z.of_nat n * freq) freq = date_range_periods start (S n) freq.
Proof.
  intros Hfreq. unfold date_range. rewrite decide_False by nia.
  replace (start + Z.of_nat n * freq - start) with (Z.of_nat n * freq) by lia.
  by rewrite Z.div_mul, Nat2Z.id by lia.
Qed.

(** The labels of a series, each relabelled as present. *)
Lemma fst_relabel (g : list (Z * float)) :
  (prod_map Some id <$> g).*1 = Some <$> g.*1.
Proof. rewrite <- !list_fmap_compose. by apply list_fmap_ext. Qed.

Lemma omap_fst_relabel (g : list (Z * float)) :
  omap fst (prod_map Some id <$> g) = g.*1.
Proof.
  induction g as [|[t v] g IH]; [done|].
  change (t :: omap fst (prod_map Some id <$> g) = t :: g.*1). by rewrite IH.
Qed.

(** With distinct labels, every label finds its own row. *)
Lemma at_label_relabel (g : list (Z * float)) :
  NoDup g.*1 ->
  (fun t => (t, at_label (prod_map Some id <$> g) t)) <$> g.*1 = g.
Proof.
  induction g as [|[t v] g IH]; intros Hdup; [done|].
  rewrite fmap_cons in Hdup. apply NoDup_cons in Hdup as [Hnin Hdup].
  rewrite !fmap_cons. cbn [fst prod_map at_label id].
  rewrite decide_True by done. f_equal.
  rewrite <- (IH Hdup) at 2. apply Forall_fmap_ext_1, Forall_forall. intros t' Hin.
  rewrite decide_False; [done|]. intros [= ->]. done.
Qed.

Section Resample.
Import bitcoin_example.

(** A series that holds one sample for every whole minute from its first
    timestamp on is resampled onto its own timestamps, its missing prices
    filled forward. *)
Lemma resample_on_grid (g : list (Z * float)) (start : Z) (n : nat) :
  g.*1 = date_range_periods start n minute ->
  resample (prod_map Some id <$> g) = inr (zip g.*1 (ffill g.*2)).
Proof.
  intros Hgrid. unfold resample, asfreq.
  destruct n as [|n].
  { destruct g; [done|]. done. }
  destruct g as [|p g]; [done|]. rewrite fmap_cons.
  change (prod_map Some id p :: (prod_map Some id <$> g))
    with (prod_map Some id <$> p :: g).
  set (g' := p :: g) in *.
  cbv zeta. rewrite omap_fst_relabel, Hgrid.
  rewrite min_instant_date_range_periods, max_instant_date_range_periods by done.
  rewrite decide_True.
  2:{ rewrite fst_relabel, Hgrid. apply NoDup_fmap_2; [by intros ?? [= ->]|].
      by apply NoDup_date_range_periods. }
  rewrite date_range_of_periods by done. rewrite <- Hgrid.
  rewrite at_label_relabel by (rewrite Hgrid; by apply NoDup_date_range_periods).
  done.
Qed.

(** X12.  A series with a price for every whole minute from its first to its
    last timestamp comes out of the resampling as it went in. *)
Theorem resample_keeps_regular_series (g : list (Z * float)) (start : Z) (n : nat) :
  g.*1 = date_range_periods start n minute ->
  Forall (fun x => isna x = false) g.*2 ->
  resample (prod_map Some id <$> g) = inr g.
Proof.
  intros Hgrid Hvals. rewrite (resample_on_grid g start n Hgrid). f_equal.
  assert (Hfill : forall last xs,
             Forall (fun x => isna x = false) xs -> ffill_from last xs = xs).
  { intros last xs Hxs. revert last. induction Hxs as [|x xs Hx _ IH]; intros last; [done|].
    simpl. rewrite Hx. by rewrite IH. }
  unfold ffill. rewrite Hfill by done. apply zip_fst_snd.
Qed.

(** X13.  Resampling is idempotent: the resampled series is resampled onto
    itself. *)
Theorem resample_idempotent (s : list (option Z * float)) (g : list (Z * float)) :
  resample s = inr g -> resample (prod_map Some id <$> g) = inr g.
Proof.
  intros Hrun. apply resample_inr in Hrun as (g0 & Hg0 & Hg1 & Hg2).
  assert (Hgrid : exists start n, g.*1 = date_range_periods start n minute).
  { revert Hg0. unfold asfreq. destruct s as [|p s].
    - intros [= <-]. exists 0, 0%nat. by rewrite Hg1.
    - cbv zeta. destruct (min_instant _) as [lo|]; [|done].
      destruct (max_instant _) as [hi|]; [|done].
      destruct (decide (NoDup _)); [|done]. intros [= <-].
      rewrite Hg1, <- list_fmap_compose.
      unfold date_range. destruct (decide (hi < lo)).
      + exists 0, 0%nat. done.
      + eexists _, _. apply list_fmap_id. }
  destruct Hgrid as (start & n & Hgrid).
  rewrite (resample_on_grid g start n Hgrid).
  unfold ffill in *. rewrite Hg2, ffill_from_idemp, <- Hg2.
  f_equal. apply zip_fst_snd.
Qed.

End Resample.

(** ** From the transformation to the forecasts *)

Section Pipeline.
Context `{Sqrt} `{DatetimeParser} `{Quicksort} `{Models}.
Import bitcoin_utils bitcoin_example.

(** X14.  The file names that connect the two programs.  Written to its
    default output file, the transformed table is not where [main] reads
    it: unless bitcoin_price_transformed_full.csv was there before,
    [main] raises [FileNotFoundError].  Written to that file, the table
    that the transformation gave is the table on which [main] runs its
    three steps, its timestamps read as they were written. *)
Theorem transform_then_main (input_file : string) (w : world) :
  (files w !! "bitcoin_price_transformed_full.csv" = None ->
   exists w',
     transform_bitcoin_data input_file "bitcoin_price_transformed.csv" w = (inr (), w') /\
     main w' = (inl (FileNotFoundError "bitcoin_price_transformed_full.csv"), w')) /\
  (forall df out,
     files w !! input_file = Some (Csv df) -> df <> [] ->
     transform_frame df = inr out ->
     exists w',
       transform_bitcoin_data input_file "bitcoin_price_transformed_full.csv" w
       = (inr (), w') /\
       files w' !! "bitcoin_price_transformed_full.csv" = Some (Csv out) /\
       main w'
       = (_ ← run_prophet_forecast out 60 minute;
          _ ← run_sarima_forecast out 60;
          run_seasonal_decompose out 60) w').
Proof.
  split.
  - intros Hnone.
    destruct (transform_bitcoin_data input_file "bitcoin_price_transformed.csv" w)
      as [r w'] eqn:Hrun.
    assert (Hfiles : r = inr () /\ files w' !! "bitcoin_price_transformed_full.csv" = None).
    { revert Hrun. unfold transform_bitcoin_data, try_except.
      destruct (transform_body _ _ w) as [[e|[]] w1] eqn:Hbody.
      - apply transform_body_inl in Hbody as ->. unfold print. by intros [= <- <-].
      - revert Hbody. unfold transform_body, mbind, IO_bind, read_csv, lift, to_csv, print.
        destruct (files w !! input_file) as [[[|col df]|fig]|]; try done.
        destruct (transform_frame (col :: df)) as [e|out]; [done|].
        intros [= <-] [= <- <-]. split; [done|]. simpl. by rewrite lookup_insert_ne. }
    destruct Hfiles as [-> Hfile]. exists w'. split; [done|].
    unfold main, mbind, IO_bind, read_csv. by rewrite Hfile.
  - intros df out Hfile Hne Hout.
    unfold transform_bitcoin_data, try_except.
    rewrite (transform_body_inr _ _ _ _ _ Hfile Hne Hout).
    eexists. split; [reflexivity|].
    split; [simpl; apply lookup_insert_eq|].
    pose proof Hout as Hout'.
    apply transform_frame_inr in Hout' as (c & ts & xs & _ & _ & _ & ->).
    set (out := with_metrics (sorted_frame df ts) xs) in *.
    assert (Hts : getcol out "timestamp" = inr (Datetime64 (take_rows (nargsort ts) ts))).
    { unfold out. by rewrite getcol_with_metrics_timestamp, getcol_sorted_timestamp. }
    rewrite (main_eq _ out (take_rows (nargsort ts) ts)).
    + cbv zeta. by rewrite (setcol_same _ _ _ Hts).
    + simpl. apply lookup_insert_eq.
    + intros Hnil. by rewrite Hnil in Hts.
    + by rewrite Hts.
Qed.

End Pipeline.

(** ** Storing the fetched samples *)

Section Ingestion.
Import bitcoin_ingestion.

Lemma append_data_to_csv_raw data filename d :
  raw (append_data_to_csv data filename d) !! filename
  = Some match raw d !! filename with
         | Some old => old ++ [data.*2]
         | None => [JStr <$> data.*1; data.*2]
         end.
Proof. unfold append_data_to_csv. simpl. by rewrite lookup_insert_eq. Qed.

Lemma append_data_to_csv_other data filename d other :
  other <> filename -> raw (append_data_to_csv data filename d) !! other = raw d !! other.
Proof. intros Hne. unfold append_data_to_csv. simpl. by rewrite lookup_insert_ne. Qed.

(** X15.  Records appended one after another.  A file that is not there gets
    the keys of the first record as its header; every record adds one
    line of its values at the end, and the lines before it stay; a file
    that is there gets no header, and the keys of a record are not
    compared with the header of the file.  No other file changes. *)
Theorem append_data_to_csv_records (filename : string) (records : list dict) (d : disk) :
  let d' := foldl (fun d data => append_data_to_csv data filename d) d records in
  raw d' !! filename
  = match raw d !! filename, records with
    | Some old, _ => Some (old ++ ((fun data => data.*2) <$> records))
    | None, [] => None
    | None, first :: _ =>
        Some ((JStr <$> first.*1) :: ((fun data => data.*2) <$> records))
    end /\
  (forall other, other <> filename -> raw d' !! other = raw d !! other) /\
  printed d' = printed d.
Proof.
  cbv zeta. revert d. induction records as [|data records IH]; intros d.
  - simpl. split; [|done]. destruct (raw d !! filename); [|done]. by rewrite app_nil_r.
  - cbn [foldl]. destruct (IH (append_data_to_csv data filename d)) as (Hfile & Hother & Hout).
    split; [|split].
    + rewrite Hfile, append_data_to_csv_raw.
      destruct (raw d !! filename) as [old|]; [|done].
      by rewrite <- app_assoc.
    + intros other Hne. rewrite (Hother other Hne). by apply append_data_to_csv_other.
    + by rewrite Hout.
Qed.

(** The steps of a fetch that succeeds. *)
Lemma fetch_bitcoin_price_inr o data :
  fetch_bitcoin_price o = inr data ->
  exists r payload coin t seconds usd usd_market_cap,
    o = Responded r /\ ~ (400 <= status_code r < 600) /\
    body r = Some payload /\ subscript payload "bitcoin" = inr coin /\
    subscript coin "last_updated_at" = inr t /\ utcfromtimestamp t = inr seconds /\
    subscript coin "usd" = inr usd /\ subscript coin "usd_market_cap" = inr usd_market_cap /\
    data = [("timestamp", JStr (strftime seconds));
            ("price_usd", usd);
            ("market_cap_usd", usd_market_cap)].
Proof.
  unfold fetch_bitcoin_price, requests_get, raise_for_status, response_json.
  unfold mbind, outcome_bind, mret, outcome_ret.
  destruct o as [r| |]; try done.
  destruct (decide (400 <= status_code r < 600)) as [|Hstatus]; [done|].
  destruct (body r) as [payload|] eqn:Hbody; [|done].
  destruct (subscript payload "bitcoin") as [|coin] eqn:Hcoin; [done|].
  destruct (subscript coin "last_updated_at") as [|t] eqn:Ht; [done|].
  destruct (utcfromtimestamp t) as [|seconds] eqn:Hs; [done|].
  destruct (subscript coin "usd") as [|usd] eqn:Husd; [done|].
  destruct (subscript coin "usd_market_cap") as [|cap] eqn:Hcap; [done|].
  intros [= <-]. exists r, payload, coin, t, seconds, usd, cap.
  repeat (split; [done|]). done.
Qed.

Lemma subscript_Exception d key e : subscript d key = inl e -> is_Exception e = true.
Proof.
  unfold subscript. destruct d as [| | | | | |members]; try by intros [= <-].
  destruct (lookup_member members key); [done|]. by intros [= <-].
Qed.

Lemma utcfromtimestamp_Exception v e :
  utcfromtimestamp v = inl e -> is_Exception e = true.
Proof.
  unfold utcfromtimestamp, timestamp_seconds.
  unfold mbind, outcome_bind.
  destruct v as [|b|n|[| |q]|?|?|?]; try by intros [= <-].
  all: case_decide; try done; by intros [= <-].
Qed.

(** Only an interrupted request makes the fetch pass on an interrupt. *)
Lemma fetch_bitcoin_price_inl o e :
  fetch_bitcoin_price o = inl e -> is_Exception e = false -> o = Interrupted.
Proof.
  unfold fetch_bitcoin_price, requests_get, raise_for_status, response_json.
  unfold mbind, outcome_bind, mret, outcome_ret.
  destruct o as [r| |]; [|by intros [= <-]|done].
  destruct (decide (400 <= status_code r < 600)); [by intros [= <-]|].
  destruct (body r) as [payload|]; [|by intros [= <-]].
  destruct (subscript payload "bitcoin") as [e0|coin] eqn:Hcoin.
  { intros [= <-] He. apply subscript_Exception in Hcoin. congruence. }
  destruct (subscript coin "last_updated_at") as [e0|t] eqn:Ht.
  { intros [= <-] He. apply subscript_Exception in Ht. congruence. }
  destruct (utcfromtimestamp t) as [e0|seconds] eqn:Hs.
  { intros [= <-] He. apply utcfromtimestamp_Exception in Hs. congruence. }
  destruct (subscript coin "usd") as [e0|usd] eqn:Husd.
  { intros [= <-] He. apply subscript_Exception in Husd. congruence. }
  destruct (subscript coin "usd_market_cap") as [e0|cap] eqn:Hcap.
  { intros [= <-] He. apply subscript_Exception in Hcap. congruence. }
  done.
Qed.

Lemma fetch_and_store_inl o d e d' :
  fetch_and_store o d = (inl e, d') -> o = Interrupted /\ e = KeyboardInterrupt /\ d' = d.
Proof.
  unfold fetch_and_store.
  destruct (fetch_bitcoin_price o) as [e0|data] eqn:Hfetch; [|done].
  destruct (is_Exception e0) eqn:He; [done|].
  pose proof (fetch_bitcoin_price_inl o e0 Hfetch He) as ->.
  intros [= <- <-]. split; [done|]. split; [|done]. by destruct e0.
Qed.

(** X16.  [fetch_and_store] raises no [Exception]: it returns normally unless
    the user interrupts the request, and then it has changed nothing.
    When it returns it has printed one message.  When the fetch failed,
    for whatever reason, no file has changed: a sample is stored as a
    whole or not at all. *)
Theorem fetch_and_store_catches_failures (o : answer) (d : disk) :
  (forall e d', fetch_and_store o d = (inl e, d') ->
     o = Interrupted /\ e = KeyboardInterrupt /\ d' = d) /\
  (o <> Interrupted ->
     exists m d', fetch_and_store o d = (inr (), d') /\ printed d' = printed d ++ [m]) /\
  (forall e, fetch_bitcoin_price o = inl e -> raw (fetch_and_store o d).2 = raw d).
Proof.
  split; [apply fetch_and_store_inl|].
  unfold fetch_and_store.
  destruct (fetch_bitcoin_price o) as [e|data] eqn:Hfetch.
  - destruct (is_Exception e) eqn:He.
    + split; [|done]. intros _. by eexists _, _.
    + pose proof (fetch_bitcoin_price_inl o e Hfetch He) as ->. done.
  - split; [|done]. intros _. by eexists _, _.
Qed.

Lemma stored_raw samples d1 d2 : raw d1 = raw d2 -> raw (stored samples d1) = raw (stored samples d2).
Proof.
  unfold stored. revert d1 d2. induction samples as [|data samples IH]; intros d1 d2 Hraw; [done|].
  cbn [foldl]. apply IH. unfold append_data_to_csv. simpl. by rewrite Hraw.
Qed.

Lemma fetched_cons o i turns :
  fetched ((o, i) :: turns)
  = match fetch_bitcoin_price o with
    | inr data => data :: fetched turns
    | inl _ => fetched turns
    end.
Proof. unfold fetched. cbn [omap list_omap fst]. by destruct (fetch_bitcoin_price o). Qed.

(** One turn without an interrupt: the sample is stored if the fetch gave
    one, a message is printed, and the loop goes on. *)
Lemma fetch_and_store_uninterrupted o d :
  o <> Interrupted ->
  exists m d',
    fetch_and_store o d = (inr (), d') /\
    printed d' = printed d ++ [m] /\
    raw d' = raw (stored (fetched [(o, false)]) d).
Proof.
  intros Ho. unfold fetch_and_store. rewrite fetched_cons.
  destruct (fetch_bitcoin_price o) as [e|data] eqn:Hfetch.
  - destruct (is_Exception e) eqn:He.
    + by eexists _, _.
    + by pose proof (fetch_bitcoin_price_inl o e Hfetch He).
  - by eexists _, _.
Qed.

Lemma stored_app samples1 samples2 d :
  stored (samples1 ++ samples2) d = stored samples2 (stored samples1 d).
Proof. unfold stored. apply foldl_app. Qed.

Lemma fetched_app turns1 turns2 : fetched (turns1 ++ turns2) = fetched turns1 ++ fetched turns2.
Proof. unfold fetched. apply omap_app. Qed.

Lemma loop_uninterrupted turns d :
  uninterrupted turns ->
  exists d',
    loop turns d = Running d' /\
    raw d' = raw (stored (fetched turns) d) /\
    length (printed d') = (length (printed d) + length turns)%nat.
Proof.
  intros Hturns. revert d. induction Hturns as [|[o i] turns [Ho Hi] _ IH]; intros d.
  - exists d. split; [done|]. split; [done|]. simpl. lia.
  - simpl in Ho, Hi. subst i.
    destruct (fetch_and_store_uninterrupted o d Ho) as (m & d1 & Hrun & Hout & Hraw).
    destruct (IH d1) as (d' & Hloop & Hraw' & Hout').
    exists d'. cbn [loop]. rewrite Hrun. split; [done|]. split.
    + rewrite Hraw'. change ((o, false) :: turns) with ([(o, false)] ++ turns).
      rewrite fetched_app, stored_app. by apply stored_raw.
    + rewrite Hout', Hout, length_app. simpl. lia.
Qed.

Lemma loop_app turns1 turns2 d d' :
  loop turns1 d = Running d' -> loop (turns1 ++ turns2) d = loop turns2 d'.
Proof.
  revert d. induction turns1 as [|[o i] turns1 IH]; intros d.
  - by intros [= ->].
  - cbn [loop app]. destruct (fetch_and_store o d) as [[e|[]] d1].
    + by destruct e.
    + destruct i; [done|]. apply IH.
Qed.

Lemma loop_never_raises turns d e d' : loop turns d <> Raising e d'.
Proof.
  revert d. induction turns as [|[o i] turns IH]; intros d; [done|].
  cbn [loop]. destruct (fetch_and_store o d) as [[e0|[]] d1] eqn:Hrun.
  - destruct (fetch_and_store_inl o d e0 d1 Hrun) as (_ & -> & _). done.
  - destruct i; [done|]. apply IH.
Qed.

(** X17.  The ingestion does not stop by itself and raises nothing.  As long as
    the user does not interrupt it, it is still in its loop, whatever the
    service answers and however many fetches fail; it has then printed
    one message for every turn after its first message, and the raw file
    holds the samples of the fetches that succeeded, in their order,
    after what it held before. *)
Theorem ingestion_runs_until_interrupted (turns : list (answer * bool)) (d : disk) :
  (forall e d', main turns d <> Raising e d') /\
  (uninterrupted turns ->
   exists d',
     main turns d = Running d' /\
     raw d' = raw (stored (fetched turns) d) /\
     length (printed d') = (length (printed d) + 1 + length turns)%nat).
Proof.
  unfold main. split; [intros e d'; apply loop_never_raises|].
  intros Hturns.
  destruct (loop_uninterrupted turns
              (say (Text "Starting real-time ingestion (Ctrl-C to stop)...") d) Hturns)
    as (d' & Hloop & Hraw & Hout).
  exists d'. split; [done|]. split.
  - rewrite Hraw. by apply stored_raw.
  - rewrite Hout. unfold say. simpl. rewrite length_app. simpl. lia.
Qed.

(** X18.  The first interrupt, at a request or in the sleep after it, ends the
    ingestion: [main] returns normally, its last message tells that the
    user stopped it, and what the outside would have done afterwards
    plays no part.  The raw file holds the samples fetched until then,
    the one of the interrupted turn included when only its sleep was
    interrupted. *)
Theorem ingestion_stops_when_interrupted (before after : list (answer * bool))
    (o : answer) (interrupted : bool) (d : disk) :
  uninterrupted before -> o = Interrupted \/ interrupted = true ->
  exists d',
    main (before ++ (o, interrupted) :: after) d = Returned d' /\
    last (printed d') = Some (Text (String "010" "Ingestion stopped by user.")) /\
    raw d' = raw (stored (fetched (before ++ [(o, interrupted)])) d).
Proof.
  intros Hbefore Hstop. unfold main.
  set (d0 := say (Text "Starting real-time ingestion (Ctrl-C to stop)...") d).
  destruct (loop_uninterrupted before d0 Hbefore) as (d1 & Hloop & Hraw & _).
  rewrite (loop_app _ _ _ _ Hloop). cbn [loop].
  assert (Hraw0 : raw d1 = raw (stored (fetched before) d)).
  { rewrite Hraw. by apply stored_raw. }
  rewrite fetched_app, stored_app.
  assert (Hcases : o = Interrupted \/ o <> Interrupted)
    by (destruct o; [by right|by right|by left]).
  destruct Hcases as [->|Ho].
  - eexists. split; [reflexivity|]. split; [unfold say; cbn [printed]; by rewrite last_snoc|].
    simpl. exact Hraw0.
  - destruct Hstop as [-> | ->]; [done|].
    destruct (fetch_and_store_uninterrupted o d1 Ho) as (m & d2 & Hrun & _ & Hraw2).
    rewrite Hrun. eexists. split; [reflexivity|]. split; [unfold say; cbn [printed]; by rewrite last_snoc|].
    simpl. rewrite Hraw2. by apply stored_raw.
Qed.

End Ingestion.

(** ** The timestamps of the samples *)

(** The civil date of a day is a date of the calendar, and counting the
    days to it gives the day back. *)
Lemma days_from_civil_from_days (z : Z) :
  exists y m d,
    civil_from_days z = (y, m, d) /\
    1 <= m <= 12 /\ 1 <= d <= 31 /\ days_from_civil y m d = z.
Proof.
  unfold civil_from_days. cbv zeta. eexists _, _, _. split; [reflexivity|].
  unfold days_from_civil. cbv zeta.
  set (z' := z + 719468). set (era := z' / 146097). set (doe := z' - era * 146097).
  assert (Hdoe : 0 <= doe < 146097).
  { unfold doe, era. Z.div_mod_to_equations. lia. }
  set (yoe := (doe - doe / 1460 + doe / 36524 - doe / 146096) / 365).
  set (doy := doe - (365 * yoe + yoe / 4 - yoe / 100)).
  set (mp := (5 * doy + 2) / 153).
  assert (Hfacts : 0 <= yoe < 400 /\ 0 <= doy < 366 /\ 0 <= mp < 12
                   /\ 1 <= doy - (153 * mp + 2) / 5 + 1 <= 31).
  { unfold mp, doy, yoe. Z.div_mod_to_equations. lia. }
  destruct Hfacts as (Hyoe & Hdoy & Hmp & Hd).
  set (d := doy - (153 * mp + 2) / 5 + 1) in *.
  assert (Hera : (yoe + era * 400) / 400 = era).
  { Z.div_mod_to_equations. lia. }
  assert (Hdoy' : forall mp', mp' = mp -> (153 * mp' + 2) / 5 + d - 1 = doy).
  { intros ? ->. unfold d. lia. }
  destruct (decide (mp < 10)) as [Hlt|Hge]; repeat (case_decide; try lia).
  - split; [lia|]. split; [lia|].
    rewrite Hera, (Hdoy' (mp + 3 - 3)) by lia.
    replace (yoe + era * 400 - era * 400) with yoe by lia.
    unfold doy, doe, z'. lia.
  - split; [lia|]. split; [lia|].
    replace (yoe + era * 400 + 1 - 1) with (yoe + era * 400) by lia.
    rewrite Hera, (Hdoy' (mp - 9 + 9)) by lia.
    replace (yoe + era * 400 - era * 400) with yoe by lia.
    unfold doy, doe, z'. lia.
Qed.

(** The days of the years 1 to 9999 fall in those years. *)
Lemma civil_from_days_year (z : Z) :
  -719162 <= z <= 2932896 -> 1 <= (civil_from_days z).1.1 <= 9999.
Proof.
  intros Hz. unfold civil_from_days. cbv zeta.
  set (z' := z + 719468). set (era := z' / 146097). set (doe := z' - era * 146097).
  assert (Hdoe : 0 <= doe < 146097 /\ 0 <= era <= 24
                 /\ (era = 0 -> 306 <= doe) /\ (era = 24 -> doe <= 146036)).
  { unfold doe, era, z'. Z.div_mod_to_equations. lia. }
  destruct Hdoe as (Hdoe & Hera & Hlow & Hhigh).
  set (yoe := (doe - doe / 1460 + doe / 36524 - doe / 146096) / 365).
  set (doy := doe - (365 * yoe + yoe / 4 - yoe / 100)).
  set (mp := (5 * doy + 2) / 153).
  assert (Hfacts : 0 <= yoe < 400 /\ 0 <= mp < 12
                   /\ (306 <= doe -> 1 <= yoe \/ 10 <= mp)
                   /\ (doe <= 146036 -> yoe < 399 \/ (yoe = 399 /\ mp < 10))).
  { unfold mp, doy, yoe. Z.div_mod_to_equations. lia. }
  destruct Hfacts as (Hyoe & Hmp & Hfirst & Hlast).
  cbn [fst]. repeat case_decide; lia.
Qed.

(** Reading digits. *)
Lemma digit_of_digit (k : Z) :
  0 <= k <= 9 -> digit (ascii_of_nat (Z.to_nat (48 + k))) = Some k.
Proof.
  intros Hk.
  assert (Hcases : k = 0 \/ k = 1 \/ k = 2 \/ k = 3 \/ k = 4 \/ k = 5 \/ k = 6
                   \/ k = 7 \/ k = 8 \/ k = 9) by lia.
  repeat destruct Hcases as [->|Hcases]; try subst k; reflexivity.
Qed.

Lemma append_assoc (s1 s2 s3 : string) : (s1 +:+ s2) +:+ s3 = s1 +:+ (s2 +:+ s3).
Proof.
  induction s1 as [|a s1 IH]; [done|].
  change (String a ((s1 +:+ s2) +:+ s3) = String a (s1 +:+ (s2 +:+ s3))).
  by rewrite IH.
Qed.

Lemma length_append (s1 s2 : string) :
  String.length (s1 +:+ s2) = (String.length s1 + String.length s2)%nat.
Proof.
  induction s1 as [|a s1 IH]; [done|].
  change (S (String.length (s1 +:+ s2)) = S (String.length s1 + String.length s2)).
  by rewrite IH.
Qed.

(** The number read in [S width] characters: the one read in [width]
    characters, and one more digit. *)
Lemma number_S width s acc :
  number (S width) s acc
  = '(v, s') ← number width s acc;
    match s' with
    | String a rest => d ← digit a; Some (10 * v + d, rest)
    | EmptyString => None
    end.
Proof.
  revert s acc. induction width as [|width IH]; intros s acc.
  - simpl. destruct s as [|a rest]; [done|]. by destruct (digit a).
  - change (number (S (S width)) s acc)
      with (match s with
            | String a rest => d ← digit a; number (S width) rest (10 * acc + d)
            | EmptyString => None
            end).
    destruct s as [|a rest]; [done|]. simpl. destruct (digit a) as [d|]; [|done].
    simpl. apply IH.
Qed.

Lemma number_digits width n rest acc :
  0 <= n < 10 ^ Z.of_nat width ->
  number width (digits width n +:+ rest) acc = Some (10 ^ Z.of_nat width * acc + n, rest).
Proof.
  revert n rest. induction width as [|width IH]; intros n rest Hn.
  - simpl in *. do 2 f_equal. lia.
  - rewrite Nat2Z.inj_succ, Z.pow_succ_r in * by lia.
    rewrite number_S. cbn [digits]. rewrite append_assoc.
    rewrite IH by (Z.div_mod_to_equations; lia).
    simpl. rewrite digit_of_digit by (Z.div_mod_to_equations; lia).
    simpl. do 2 f_equal. Z.div_mod_to_equations. lia.
Qed.

Lemma length_digits width n : String.length (digits width n) = width.
Proof.
  revert n. induction width as [|width IH]; intros n; [done|].
  cbn [digits]. rewrite length_append, IH. simpl. lia.
Qed.

Lemma expect_append (c : ascii) (rest : string) :
  expect c (String c "" +:+ rest) = Some rest.
Proof. simpl. by rewrite decide_True. Qed.

Lemma append_nil_r (s : string) : s +:+ "" = s.
Proof.
  induction s as [|a s IH]; [done|].
  change (String a (s +:+ "") = String a s). by rewrite IH.
Qed.

(** The text of an instant of the years 1 to 9999 is read back as that
    instant. *)
Lemma strptime_strftime (s : Z) :
  min_timestamp <= s <= max_timestamp ->
  strptime (strftime s) = Some (s * 1000000000).
Proof.
  unfold min_timestamp, max_timestamp. intros Hs. unfold strftime.
  assert (Hz : -719162 <= s / 86400 <= 2932896) by (Z.div_mod_to_equations; lia).
  pose proof (civil_from_days_year _ Hz) as Hy.
  destruct (days_from_civil_from_days (s / 86400)) as (y & m & d & Hcivil & Hm & Hd & Hdays).
  rewrite Hcivil in Hy |- *. cbn [fst] in Hy.
  set (r := s mod 86400).
  assert (Hr : 0 <= r < 86400) by (unfold r; Z.div_mod_to_equations; lia).
  assert (Hhh : 0 <= r / 3600 < 24) by (Z.div_mod_to_equations; lia).
  assert (Hmm : 0 <= r mod 3600 / 60 < 60) by (Z.div_mod_to_equations; lia).
  assert (Hss : 0 <= r mod 60 < 60) by (Z.div_mod_to_equations; lia).
  unfold strptime.
  rewrite number_digits by lia. cbn [mbind option_bind].
  rewrite expect_append. cbn [mbind option_bind].
  rewrite number_digits by lia. cbn [mbind option_bind].
  rewrite expect_append. cbn [mbind option_bind].
  rewrite number_digits by lia. cbn [mbind option_bind].
  rewrite expect_append. cbn [mbind option_bind].
  rewrite number_digits by lia. cbn [mbind option_bind].
  rewrite expect_append. cbn [mbind option_bind].
  rewrite number_digits by lia. cbn [mbind option_bind].
  rewrite expect_append. cbn [mbind option_bind].
  rewrite <- (append_nil_r (digits 2 (r mod 60))).
  rewrite number_digits by lia. cbn [mbind option_bind].
  rewrite decide_True by (repeat split; lia).
  f_equal. replace (10 ^ Z.of_nat 4 * 0 + y) with y by lia.
  replace (10 ^ Z.of_nat 2 * 0 + m) with m by lia.
  replace (10 ^ Z.of_nat 2 * 0 + d) with d by lia.
  rewrite Hdays. unfold r. Z.div_mod_to_equations. lia.
Qed.

Lemma length_strftime (s : Z) : String.length (strftime s) = 19%nat.
Proof.
  unfold strftime. destruct (civil_from_days (s / 86400)) as [[y m] d].
  rewrite !length_append, !length_digits. reflexivity.
Qed.

Section Timestamps.
Import bitcoin_ingestion.


End Timestamps.

Section IngestedTimestamps.
Context `{Sqrt} `{Quicksort}.

Lemma to_datetime_strftime (seconds : list Z) :
  Forall (fun s => min_timestamp <= s <= max_timestamp) seconds ->
  @to_datetime strptime_parser (Object ((fun s => Some (strftime s)) <$> seconds))
  = inr ((fun s => Some (s * 1000000000)) <$> seconds).
Proof.
  intros Hrange. simpl.
  induction Hrange as [|s seconds Hs _ IH]; [done|].
  rewrite !fmap_cons. cbn [traverse text_to_datetime].
  change (@parse_datetime strptime_parser (strftime s)) with (strptime (strftime s)).
  by rewrite (strptime_strftime s Hs), IH.
Qed.


End IngestedTimestamps.

(** ** Pushing the forecast *)

Lemma traverse_fmap {A B} (f : A -> result B) (g : A -> B) l :
  Forall (fun x => f x = inr (g x)) l -> traverse f l = inr (g <$> l).
Proof.
  induction 1 as [|x l Hx _ IH]; [done|]. simpl. by rewrite Hx, IH.
Qed.

Section PushFacts.
Context `{Sqrt} `{DatetimeParser} `{Quicksort} `{Models} `{Python}.
Import bitcoin_example push_to_powerbi.

Lemma getcol_predict_yhat m future :
  getcol (predict m future) "yhat" = inr (Float64 (prophet_yhat m <$> future)).
Proof.
  unfold predict. simpl. rewrite getcol_terms_skip; [done|].
  intros Hin. apply prophet_terms_names in Hin. apply Hin. right. left.
Qed.

(** The four columns of the forecast table that the push reads. *)
Lemma getcol_forecast_table m future :
  let yhat := prophet_yhat m <$> future in
  getcol (forecast_table m future) "ds" = inr (Datetime64 (Some <$> future)) /\
  getcol (forecast_table m future) "yhat" = inr (Float64 yhat) /\
  getcol (forecast_table m future) "moving_avg_price"
  = inr (Float64 (rolling 7 agg_mean yhat)) /\
  getcol (forecast_table m future) "volatility_15m"
  = inr (Float64 (rolling 15 agg_std yhat)).
Proof.
  cbv zeta. unfold forecast_table. cbv zeta. split; [|split; [|split]].
  - by rewrite !getcol_setcol_ne by done.
  - rewrite !getcol_setcol_ne by done. apply getcol_predict_yhat.
  - rewrite getcol_setcol_ne by done. apply getcol_setcol_eq.
  - apply getcol_setcol_eq.
Qed.

Lemma ensure_numeric_forecast_table m future :
  ensure_numeric ["yhat"; "moving_avg_price"; "volatility_15m"] (forecast_table m future)
  = inr (forecast_table m future).
Proof.
  destruct (getcol_forecast_table m future) as (_ & Hyhat & Havg & Hvol).
  cbn [ensure_numeric]. rewrite Hyhat. cbn [mbind result_bind to_numeric].
  rewrite (setcol_same _ _ _ Hyhat), Havg. cbn [mbind result_bind to_numeric].
  rewrite (setcol_same _ _ _ Havg), Hvol. cbn [mbind result_bind to_numeric].
  by rewrite (setcol_same _ _ _ Hvol).
Qed.

Lemma forecast_table_cons m future :
  exists rest, forecast_table m future = ("ds", Datetime64 (Some <$> future)) :: rest.
Proof. unfold forecast_table, predict. cbv zeta. cbn [setcol]. eauto. Qed.

Lemma make_future_dataframe_nonempty ds periods freq future :
  make_future_dataframe ds periods freq = inr future -> future <> [].
Proof.
  unfold make_future_dataframe. cbv zeta.
  set (history := take_rows (argsort (unique ds)) (unique ds)).
  destruct (max_instant history) as [last|] eqn:Hmax; [|done].
  intros [= <-]. destruct history; [done|]. done.
Qed.

(** The table that [run_prophet_forecast] writes is the table that
    [load_forecast] reads: its three numeric columns are numeric as they
    are, and nothing else is changed. *)
Lemma load_forecast_prophet_output (df : frame) (periods : nat) (freq : Z)
    (w w' : world) (forecast : frame) :
  run_prophet_forecast df periods freq w = (inr forecast, w') ->
  load_forecast FORECAST_CSV w' = (inr forecast, w').
Proof.
  intros Hrun.
  apply run_prophet_forecast_inr in Hrun
    as (c & ts0 & ts & m & future & _ & _ & _ & _ & -> & ->).
  unfold load_forecast, mbind, IO_bind, read_csv, FORECAST_CSV. cbn [files].
  rewrite lookup_insert_eq.
  pose proof (ensure_numeric_forecast_table m future) as Hnumeric.
  destruct (forecast_table_cons m future) as [rest Hcons].
  destruct (forecast_table m future) as [|col rest'] eqn:Hft; [done|].
  unfold lift. by rewrite Hnumeric.
Qed.

(** The rows built from a forecast table. *)
Lemma rows_of_forecast_table m future :
  let yhat := prophet_yhat m <$> future in
  exists rows,
    build_rows (forecast_table m future) = inr rows /\
    length rows = length future /\
    (forall k t, future !! k = Some t ->
       rows !! k
       = Some {| timestamp := CTime t;
                 price_usd := default NaN (yhat !! k);
                 moving_avg_price := default NaN (rolling 7 agg_mean yhat !! k);
                 volatility_15m := default NaN (rolling 15 agg_std yhat !! k) |}) /\
    (forall k row, rows !! k = Some row ->
       ((k < 6)%nat -> moving_avg_price row = NaN) /\
       ((k < 14)%nat -> volatility_15m row = NaN)).
Proof.
  destruct (getcol_forecast_table m future) as (Hds & Hyhat & Havg & Hvol).
  cbv zeta in *. set (yhat := prophet_yhat m <$> future) in *.
  set (row := fun k =>
         {| timestamp := cell_at (Datetime64 (Some <$> future)) k;
            price_usd := default NaN (yhat !! k);
            moving_avg_price := default NaN (rolling 7 agg_mean yhat !! k);
            volatility_15m := default NaN (rolling 15 agg_std yhat !! k) |}).
  assert (Hrows : build_rows (forecast_table m future)
                  = inr (row <$> seq 0 (length future))).
  { unfold build_rows.
    destruct (forecast_table_cons m future) as [rest Hcons].
    assert (Hn : nrows (forecast_table m future) = length future).
    { rewrite Hcons. simpl. by rewrite length_fmap. }
    rewrite Hn. apply traverse_fmap, Forall_forall. intros k _.
    unfold build_row. rewrite Hds, Hyhat, Havg, Hvol. done. }
  exists (row <$> seq 0 (length future)).
  split; [done|]. split; [by rewrite length_fmap, length_seq|].
  split.
  - intros k t Ht. assert (Hk : (k < length future)%nat) by by eapply lookup_lt_Some.
    rewrite list_lookup_fmap, lookup_seq_lt by done. simpl. f_equal. unfold row.
    f_equal. unfold cell_at. by rewrite list_lookup_fmap, Ht.
  - intros k r Hr. apply list_lookup_fmap_Some in Hr as (j & -> & Hj).
    apply lookup_seq in Hj as [-> Hk]. simpl.
    assert (Hlen : (k < length yhat)%nat) by (unfold yhat; by rewrite length_fmap).
    split; intros Hlt.
    + by rewrite rolling_partial by lia.
    + by rewrite rolling_partial by lia.
Qed.

(** X21.  The rows built from a forecast that [run_prophet_forecast] wrote:
    one row for every date of the forecast, in order, with the date, the
    forecast price and the two rolling values of that date.  There is at
    least one row, and the first rows hold NaN: the moving average in the
    rows 0 to 5 and the volatility in the rows 0 to 13. *)
Theorem rows_of_prophet_forecast (df : frame) (periods : nat) (freq : Z)
    (w w' : world) (forecast : frame) :
  run_prophet_forecast df periods freq w = (inr forecast, w') ->
  exists dates yhat rows,
    getcol forecast "ds" = inr (Datetime64 (Some <$> dates)) /\
    float_column forecast "yhat" = inr yhat /\
    build_rows forecast = inr rows /\
    dates <> [] /\ length yhat = length dates /\ length rows = length dates /\
    (forall k t, dates !! k = Some t ->
       rows !! k
       = Some {| timestamp := CTime t;
                 price_usd := default NaN (yhat !! k);
                 moving_avg_price := default NaN (rolling 7 agg_mean yhat !! k);
                 volatility_15m := default NaN (rolling 15 agg_std yhat !! k) |}) /\
    (forall k row, rows !! k = Some row ->
       ((k < 6)%nat -> moving_avg_price row = NaN) /\
       ((k < 14)%nat -> volatility_15m row = NaN)).
Proof.
  intros Hrun.
  apply run_prophet_forecast_inr in Hrun
    as (c & ts0 & ts & m & future & _ & _ & _ & Hfuture & -> & ->).
  apply make_future_dataframe_nonempty in Hfuture.
  destruct (getcol_forecast_table m future) as (Hds & Hyhat & _ & _).
  destruct (rows_of_forecast_table m future) as (rows & Hrows & Hlen & Hrow & Hnan).
  exists future, (prophet_yhat m <$> future), rows.
  split; [done|]. split; [unfold float_column; by rewrite Hyhat|].
  split; [done|]. split; [done|]. split; [by rewrite length_fmap|]. done.
Qed.

Lemma load_forecast_world csv_path w r w' :
  load_forecast csv_path w = (r, w') -> w' = w.
Proof.
  unfold load_forecast, mbind, IO_bind, read_csv, lift.
  destruct (files w !! csv_path) as [[[|col df]|fig]|]; by intros [= _ <-].
Qed.



End PushFacts.

(** ** Tables that cannot be pushed *)

Section PushErrors.
Context `{Python}.
Import push_to_powerbi.

Lemma ensure_numeric_missing cols df name :
  name ∈ cols -> name ∉ columns df ->
  exists key, ensure_numeric cols df = inl (KeyError key).
Proof.
  revert df. induction cols as [|col cols IH]; intros df Hin Hnin.
  - by apply elem_of_nil in Hin.
  - cbn [ensure_numeric]. destruct (getcol df col) as [e|c] eqn:Hc.
    + apply getcol_inl in Hc as [-> _]. eauto.
    + cbn [mbind result_bind]. apply elem_of_cons in Hin as [->|Hin].
      * exfalso. apply Hnin. apply getcol_inr_elem in Hc.
        by apply (list_elem_of_fmap_2 fst _ (col, c)).
      * apply IH; [done|]. intros Hnew.
        apply elem_of_columns_setcol in Hnew as [-> | Hold]; [|done].
        apply Hnin. apply getcol_inr_elem in Hc.
        by apply (list_elem_of_fmap_2 fst _ (col, c)).
Qed.

(** X24.  A forecast file without one of the columns [yhat],
    [moving_avg_price], [volatility_15m] makes [load_forecast] raise a
    [KeyError]; the column [ds] is not looked at until the rows are
    built: a table with rows and without [ds] makes [build_rows] raise
    [KeyError], and a table without rows gives no rows whatever its
    columns are. *)
Theorem push_needs_columns (csv_path : string) (w : world) (df : frame) :
  (files w !! csv_path = Some (Csv df) -> df <> [] ->
   forall name,
     name ∈ ["yhat"; "moving_avg_price"; "volatility_15m"] -> name ∉ columns df ->
     exists key, load_forecast csv_path w = (inl (KeyError key), w)) /\
  (nrows df <> 0%nat -> "ds" ∉ columns df -> build_rows df = inl (KeyError "ds")) /\
  (nrows df = 0%nat -> build_rows df = inr []).
Proof.
  split; [|split].
  - intros Hfile Hne name Hname Hnin.
    unfold load_forecast, mbind, IO_bind, read_csv, lift. rewrite Hfile.
    destruct df as [|col df]; [done|].
    destruct (ensure_numeric_missing _ _ _ Hname Hnin) as [key ->]. eauto.
  - intros Hrows Hnin. unfold build_rows.
    destruct (nrows df) as [|n]; [done|]. cbn [seq traverse].
    unfold build_row.
    assert (Hds : getcol df "ds" = inl (KeyError "ds")).
    { destruct (getcol df "ds") as [e|c] eqn:Hc.
      - by apply getcol_inl in Hc as [-> _].
      - exfalso. apply Hnin. apply getcol_inr_elem in Hc.
        by apply (list_elem_of_fmap_2 fst _ ("ds", c)). }
    by rewrite Hds.
  - intros Hrows. unfold build_rows. by rewrite Hrows.
Qed.

End PushErrors.

(** ** More examples *)

(** The three rows get the three derived columns after their own. *)
Lemma transform_frame_columns_witness :
  exists out,
    transform_frame0 three_rows = inr out /\
    columns out
    = columns three_rows
      ++ filter (fun name => name ∉ columns three_rows)
           ["price_change_pct"; "moving_avg_price"; "volatility_15m"].
Proof.
  eexists. split; [vm_compute; reflexivity|].
  apply (@transform_frame_columns isqrt_Sqrt strptime_parser stable_sort three_rows).
  vm_compute. reflexivity.
Defined.

(** After the price 0 the change is plus infinity; in the row without
    price it is 0; and the price 7 after it is compared with the 5
    before it: 40 percent. *)
Lemma price_change_pct_zero_or_missing_witness :
  exists out pct,
    transform_frame0 zero_and_missing = inr out /\
    float_column out "price_change_pct" = inr pct /\
    pct !! 1%nat = Some (Inf false) /\
    pct !! 2%nat = Some (lit 0) /\
    pct !! 3%nat = Some (Fin ((Qc_of_Z 7 - Qc_of_Z 5) / Qc_of_Z 5 * Qc_of_Z 100)%Qc).
Proof.
  destruct (@price_change_pct_zero_or_missing isqrt_Sqrt strptime_parser stable_sort
              zero_and_missing
              (Datetime64 ((fun k => Some (1704067200000000000 + Z.of_nat k * minute))
                             <$> seq 0 4))
              ((fun k => Some (1704067200000000000 + Z.of_nat k * minute)) <$> seq 0 4)
              [Fin 0; lit 5; NaN; lit 7] eq_refl eq_refl eq_refl)
    as (out & prices & pct & Hrun & -> & Hpct & Hinf & _ & Hmissing & Hnext).
  exists out, pct. split; [exact Hrun|]. split; [exact Hpct|].
  split; [|split].
  - apply (Hinf 0%nat (Qc_of_Z 5)); [vm_compute; reflexivity|vm_compute; reflexivity|].
    intros Heq. apply (f_equal this) in Heq. vm_compute in Heq. discriminate Heq.
  - apply (Hmissing 2%nat). vm_compute. reflexivity.
  - apply (Hnext 1%nat (Qc_of_Z 5) (Qc_of_Z 7)); [vm_compute; reflexivity|vm_compute; reflexivity|vm_compute; reflexivity|].
    intros Heq. apply (f_equal this) in Heq. vm_compute in Heq. discriminate Heq.
Defined.

(** The missing price of row 2 leaves the moving average and the
    volatility of row 3 undefined. *)
Lemma rolling_metrics_skip_missing_witness :
  exists out avg vol,
    transform_frame0 zero_and_missing = inr out /\
    float_column out "moving_avg_price" = inr avg /\
    float_column out "volatility_15m" = inr vol /\
    avg !! 3%nat = Some NaN /\ vol !! 3%nat = Some NaN.
Proof.
  destruct (@rolling_metrics_skip_missing isqrt_Sqrt strptime_parser stable_sort
              zero_and_missing
              (Datetime64 ((fun k => Some (1704067200000000000 + Z.of_nat k * minute))
                             <$> seq 0 4))
              ((fun k => Some (1704067200000000000 + Z.of_nat k * minute)) <$> seq 0 4)
              [Fin 0; lit 5; NaN; lit 7] eq_refl eq_refl eq_refl)
    as (out & prices & avg & vol & Hrun & -> & Havg & Hvol & Hnan).
  exists out, avg, vol. split; [exact Hrun|]. split; [exact Havg|]. split; [exact Hvol|].
  destruct (Hnan 3%nat 2%nat NaN) as [Ha Hv];
    [vm_compute; reflexivity|reflexivity|lia|vm_compute; lia|].
  split; [apply Ha; lia|apply Hv; lia].
Defined.

(** [main] over the two hours of samples leaves the table it read as it
    was. *)
Lemma main_touches_only_artifacts_witness :
  ("bitcoin_price_transformed_full.csv"
     ∉ ["forecast_prophet.csv"; "forecast_sarima.csv"; "seasonal_decompose.png"]) /\
  files (main0 history_world).2 !! "bitcoin_price_transformed_full.csv"
  = files history_world !! "bitcoin_price_transformed_full.csv".
Proof.
  assert (Hpath : "bitcoin_price_transformed_full.csv"
                    ∉ ["forecast_prophet.csv"; "forecast_sarima.csv";
                       "seasonal_decompose.png"]).
  { rewrite !not_elem_of_cons. repeat split; try done. apply not_elem_of_nil. }
  split; [exact Hpath|].
  exact (@main_touches_only_artifacts isqrt_Sqrt strptime_parser stable_sort persistence
           history_world "bitcoin_price_transformed_full.csv" Hpath).
Defined.

(** The table without the price column stops each of the three steps. *)
Lemma steps_need_price_column_witness :
  ("price_usd" ∉ columns no_price) /\
  (exists key, run_prophet_forecast0 no_price 60 minute no_files
               = (inl (KeyError key), no_files)) /\
  @bitcoin_example.run_sarima_forecast persistence no_price 60 no_files
  = (inl (KeyError "price_usd"), no_files) /\
  (exists key, @bitcoin_example.run_seasonal_decompose persistence no_price 60 no_files
               = (inl (KeyError key), no_files)).
Proof.
  assert (Hnin : "price_usd" ∉ columns no_price).
  { unfold columns. simpl. rewrite !not_elem_of_cons. repeat split; try done.
    apply not_elem_of_nil. }
  split; [exact Hnin|].
  exact (@steps_need_price_column isqrt_Sqrt strptime_parser stable_sort persistence
           no_price 60 60 minute 60 no_files Hnin).
Defined.

(** Two samples with one timestamp are not decomposed. *)
Lemma decompose_rejects_repeated_timestamps_witness :
  exists msg,
    @bitcoin_example.run_seasonal_decompose persistence repeated_minute 60 no_files
    = (inl (ValueError msg), no_files).
Proof.
  apply (@decompose_rejects_repeated_timestamps persistence repeated_minute 60 no_files
           [(Some 1704067200000000000, lit 1); (Some 1704067200000000000, lit 2)]).
  - reflexivity.
  - simpl. intros Hdup. apply NoDup_cons in Hdup as [Hnin _]. apply Hnin. left.
Defined.

(** Two samples, the first without price, are not decomposed. *)
Lemma decompose_rejects_missing_first_price_witness :
  exists msg,
    @bitcoin_example.run_seasonal_decompose persistence first_price_missing 60 no_files
    = (inl (ValueError msg), no_files).
Proof.
  apply (@decompose_rejects_missing_first_price persistence first_price_missing 60 no_files
           [(Some 1704067200000000000, NaN); (Some 1704067260000000000, lit 1)]
           1704067200000000000).
  - reflexivity.
  - simpl. repeat constructor.
    + rewrite list_elem_of_singleton. discriminate.
    + apply not_elem_of_nil.
  - vm_compute. reflexivity.
  - reflexivity.
Defined.

(** Three points a minute apart are resampled onto themselves. *)
Lemma resample_keeps_regular_series_witness :
  bitcoin_example.resample (prod_map Some id <$> regular_series) = inr regular_series.
Proof.
  apply (resample_keeps_regular_series regular_series 1704067200000000000 3).
  - reflexivity.
  - simpl. repeat constructor.
Defined.

(** The resampled series of the samples off the grid is resampled onto
    itself. *)
Lemma resample_idempotent_witness :
  exists g,
    bitcoin_example.resample off_grid_samples = inr g /\
    bitcoin_example.resample (prod_map Some id <$> g) = inr g.
Proof.
  eexists. split; [vm_compute; reflexivity|].
  apply (resample_idempotent off_grid_samples). vm_compute. reflexivity.
Defined.

(** The three rows, transformed, are transformed into themselves. *)
Lemma transform_frame_idempotent_witness :
  exists out, transform_frame0 three_rows = inr out /\ transform_frame0 out = inr out.
Proof.
  apply (@transform_frame_idempotent isqrt_Sqrt strptime_parser stable_sort three_rows 3
           (Object [Some "2024-01-01 00:02:00"; Some "2024-01-01 00:00:00";
                    Some "2024-01-01 00:01:00"])
           [Some 1704067320000000000; Some 1704067200000000000; Some 1704067260000000000]
           [lit 103; lit 100; lit 110]).
  - repeat constructor.
  - reflexivity.
  - vm_compute. reflexivity.
  - reflexivity.
  - simpl. repeat constructor.
    + rewrite !not_elem_of_cons. repeat split; try done. apply not_elem_of_nil.
    + rewrite !not_elem_of_cons. repeat split; try done. apply not_elem_of_nil.
    + apply not_elem_of_nil.
Defined.

(** The twenty samples lie on the line 100 + row / 10: the moving
    average of row 6 is the price of row 3, and the volatility of row 14
    is the root of 20 / 100. *)
Lemma metrics_of_constant_slope_witness :
  exists out avg vol,
    transform_frame0 twenty_rows = inr out /\
    float_column out "moving_avg_price" = inr avg /\
    float_column out "volatility_15m" = inr vol /\
    avg !! 6%nat
    = Some (Fin (Qc_of_Z 100 + Qc_of_nat 3 * Q2Qc (Qmake 1 10))%Qc) /\
    vol !! 14%nat
    = Some (Fin (isqrt (Qc_of_Z 20 * Q2Qc (Qmake 1 10) * Q2Qc (Qmake 1 10))%Qc)).
Proof.
  destruct (@metrics_of_constant_slope isqrt_Sqrt strptime_parser stable_sort
              twenty_rows
              (Datetime64 ((fun k => Some (1704067200000000000 + Z.of_nat k * minute))
                             <$> seq 0 20))
              ((fun k => Some (1704067200000000000 + Z.of_nat k * minute)) <$> seq 0 20)
              ((fun k => Fin (Q2Qc (Qmake (1000 + Z.of_nat k) 10))) <$> seq 0 20)
              (Qc_of_Z 100) (Q2Qc (Qmake 1 10)) 20 eq_refl eq_refl eq_refl)
    as (out & avg & vol & Hrun & Havg & Hvol & Hmean & Hstd).
  - transitivity ((fun k => Fin (Q2Qc (Qmake (1000 + Z.of_nat k) 10))) <$> seq 0 20).
    + vm_compute. reflexivity.
    + apply Forall_fmap_ext_1. simpl.
      repeat (constructor; [f_equal; by apply Qc_is_canon|]). constructor.
  - exists out, avg, vol. split; [exact Hrun|]. split; [exact Havg|].
    split; [exact Hvol|]. split; [apply (Hmean 6%nat); lia|apply (Hstd 14%nat); lia].
Defined.

(** An answer, a failed request, an answer without market cap, then the
    interrupt: the ingestion returns, and the new raw file holds the
    header and the one sample that was fetched as a whole. *)
Lemma ingestion_stops_when_interrupted_witness :
  exists d',
    bitcoin_ingestion.main
      [(Responded price_answer, false); (Failed, false);
       (Responded answer_without_market_cap, false); (Interrupted, false);
       (Responded price_answer, false)]
      no_raw_file
    = bitcoin_ingestion.Returned d' /\
    last (printed d') = Some (Text (String "010" "Ingestion stopped by user.")) /\
    raw d' !! "bitcoin_price_data.csv"
    = Some [[JStr "timestamp"; JStr "price_usd"; JStr "market_cap_usd"];
            [JStr "2024-01-01 00:00:00"; JInt 42000; JFloat (lit 820000000000)]].
Proof.
  destruct (ingestion_stops_when_interrupted
              [(Responded price_answer, false); (Failed, false);
               (Responded answer_without_market_cap, false)]
              [(Responded price_answer, false)] Interrupted false no_raw_file)
    as (d' & Hrun & Hlast & Hraw).
  - repeat constructor; done.
  - by left.
  - exists d'. split; [exact Hrun|]. split; [exact Hlast|]. rewrite Hraw. reflexivity.
Defined.


(** The forecast of two minutes after the three samples: five rows,
    none of them with rolling values. *)
Lemma rows_of_prophet_forecast_witness :
  exists forecast w' rows,
    run_prophet_forecast0 three_minutes 2 minute no_files = (inr forecast, w') /\
    @push_to_powerbi.build_rows digits_only forecast = inr rows /\
    length rows = 5%nat /\
    forall k row, rows !! k = Some row ->
      ((k < 6)%nat -> moving_avg_price row = NaN) /\
      ((k < 14)%nat -> volatility_15m row = NaN).
Proof.
  eexists _, _.
  assert (Hrun : run_prophet_forecast0 three_minutes 2 minute no_files = (inr _, _))
    by (vm_compute; reflexivity).
  destruct (@rows_of_prophet_forecast isqrt_Sqrt strptime_parser stable_sort persistence
              digits_only three_minutes 2 minute no_files _ _ Hrun)
    as (dates & yhat & rows & Hds & _ & Hrows & _ & _ & Hlen & _ & Hnan).
  exists rows. split; [exact Hrun|]. split; [exact Hrows|]. split; [|exact Hnan].
  clear -Hrows. vm_compute in Hrows. injection Hrows as <-. reflexivity.
Defined.


(** The three rows are transformed into the default output file, and
    [main] does not find its input. *)
Lemma transform_then_main_witness :
  exists w',
    transform_bitcoin_data0 "bitcoin_price_data.csv" "bitcoin_price_transformed.csv"
      (raw_world three_rows)
    = (inr (), w') /\
    main0 w' = (inl (FileNotFoundError "bitcoin_price_transformed_full.csv"), w').
Proof.
  apply (proj1 (@transform_then_main isqrt_Sqrt strptime_parser stable_sort persistence
                  "bitcoin_price_data.csv" (raw_world three_rows))).
  reflexivity.
Defined.

(** Two records appended to a new file: the header and two lines. *)
Lemma append_data_to_csv_records_witness :
  raw (foldl (fun d data => bitcoin_ingestion.append_data_to_csv data "samples.csv" d)
         no_raw_file
         [[("timestamp", JStr "2024-01-01 00:00:00"); ("price_usd", JInt 42000)];
          [("price_usd", JInt 42001); ("timestamp", JStr "2024-01-01 00:01:00")]])
    !! "samples.csv"
  = Some [[JStr "timestamp"; JStr "price_usd"];
          [JStr "2024-01-01 00:00:00"; JInt 42000];
          [JInt 42001; JStr "2024-01-01 00:01:00"]].
Proof.
  rewrite (proj1 (append_data_to_csv_records "samples.csv"
                    [[("timestamp", JStr "2024-01-01 00:00:00"); ("price_usd", JInt 42000)];
                     [("price_usd", JInt 42001); ("timestamp", JStr "2024-01-01 00:01:00")]]
                    no_raw_file)).
  reflexivity.
Defined.

(** A request that fails: one message, and no file. *)
Lemma fetch_and_store_catches_failures_witness :
  exists m d',
    bitcoin_ingestion.fetch_and_store Failed no_raw_file = (inr (), d') /\
    printed d' = printed no_raw_file ++ [m].
Proof.
  apply (proj1 (proj2 (fetch_and_store_catches_failures Failed no_raw_file))).
  discriminate.
Defined.

(** Two turns without an interrupt: the ingestion is still running, and
    has printed three messages. *)
Lemma ingestion_runs_until_interrupted_witness :
  exists d',
    bitcoin_ingestion.main [(Responded price_answer, false); (Failed, false)] no_raw_file
    = bitcoin_ingestion.Running d' /\
    raw d' = raw (stored (fetched [(Responded price_answer, false); (Failed, false)])
                    no_raw_file) /\
    length (printed d') = (length (printed no_raw_file) + 1 + 2)%nat.
Proof.
  apply (proj2 (ingestion_runs_until_interrupted
                  [(Responded price_answer, false); (Failed, false)] no_raw_file)).
  repeat constructor; done.
Defined.

(** The forecast file without [yhat] is not loaded. *)
Lemma push_needs_columns_witness :
  exists key,
    @push_to_powerbi.load_forecast digits_only "forecast_prophet.csv" forecast_without_yhat
    = (inl (KeyError key), forecast_without_yhat).
Proof.
  apply (proj1 (@push_needs_columns digits_only "forecast_prophet.csv"
                  forecast_without_yhat no_yhat) eq_refl) with (name := "yhat").
  - done.
  - left.
  - unfold columns. simpl. rewrite !not_elem_of_cons. repeat split; try done.
    apply not_elem_of_nil.
Defined.


